(** * rsi_analyzer_bot: the state store, the paper-trade monitor and the
      loss-streak circuit breaker.

    A shallow embedding of [core/state_manager.py], of
    [TradingService._monitor_paper_trade] ([services/trading_service.py]),
    of [DatabaseManager.check_for_global_pause] and the cooldown handlers
    ([persistence/database_manager.py]) and of the FIFO dispatch of
    [core/event_bus.py].

    Modelling conventions
    - Python numbers (prices, balances, percentages, clock readings) are exact
      rationals [Q]; rounding of binary floating point is not modelled.
    - Python dicts keyed by symbol are [gmap string _]; the Python [set] built
      in [get_symbols_to_monitor] is a [gset string].
    - [threading.Event] flags are booleans; the re-entrant lock is left out
      (every operation below is one critical section of a sequential run).
    - [event_bus.publish] appends to the FIFO [event_queue] kept in the state;
      [threading.Timer(...).start()] appends the delay to [timers].
    - every operation that reads the wall clock takes the reading as its
      argument [now] (seconds since the epoch). *)

From Stdlib Require Import QArith Qabs Qminmax Lqa.
From stdpp Require Import gmap strings list fin_maps fin_sets sorting.

Local Open Scope Q_scope.

(** ** Python values and comparisons *)

(** [a < b] and [a <= b] on Python numbers. *)
Definition Qltb (a b : Q) : bool := negb (Qle_bool b a).

(** The comparison used to filter lists of coins. *)
#[global] Instance Qle_decision (a b : Q) : Decision (a <= b) :=
  decide (Qnum a * QDen b <= Qnum b * QDen a)%Z.

(** A value of the indicator feed: a number, or one of the string sentinels
    the services hand around (['New_Coin'], ['Cant_Fetch'], ['N/A']).  A
    missing value ([None]) is [option]'s [None]. *)
Inductive pyval : Type :=
  | VNum (q : Q)
  | VStr (s : string).

(** [v or 0] for an optional indicator value. *)
Definition or_zero (v : option pyval) : pyval :=
  match v with
  | None => VNum 0
  | Some (VNum q) => if Qeq_bool q 0 then VNum 0 else VNum q
  | Some (VStr s) => if String.eqb s "" then VNum 0 else VStr s
  end.

(** [str.lower()] on the ASCII letters.  No character outside [A-Z] lower-cases
    to one of the letters of ["live"], so the test [source.lower() != 'live']
    is decided by this function on every string. *)
Definition lower_ascii (c : Ascii.ascii) : Ascii.ascii :=
  let n := Ascii.nat_of_ascii c in
  if ((65 <=? n) && (n <=? 90))%nat then Ascii.ascii_of_nat (n + 32) else c.

Fixpoint lower (s : string) : string :=
  match s with
  | EmptyString => EmptyString
  | String c s' => String (lower_ascii c) (lower s')
  end.

Definition is_live (source : string) : bool := String.eqb (lower source) "live".

(** ** config.py *)

Record config : Type := {
  RSI_HOT_COIN_THRESHOLD : Q;
  RSI_ALERT_THRESHOLD : Q;
  MAX_OPEN_TRADES : nat;
  LEVERAGE : Q;
  TRADE_CLOSE_RSI : Q;
  LOSS_TRADES_LIMIT_24H : nat;
  GLOBAL_PAUSE_DURATION_HOURS : Q;
  TRADE_AMOUNT_TYPE : string;
  TRADE_AMOUNT_FIXED_USDT : Q;
  TRADE_AMOUNT_PERCENTAGE : Q;
  TAKE_PROFIT_PERCENT : Q;
  DEFAULT_COOLDOWN_PERIOD : Q
}.

(** The values shipped in [config.py]. *)
Definition default_config : config := {|
  RSI_HOT_COIN_THRESHOLD := 10;
  RSI_ALERT_THRESHOLD := 95;
  MAX_OPEN_TRADES := 10;
  LEVERAGE := 2;
  TRADE_CLOSE_RSI := 65;
  LOSS_TRADES_LIMIT_24H := 1;
  GLOBAL_PAUSE_DURATION_HOURS := 24;
  TRADE_AMOUNT_TYPE := "fixed_usdt";
  TRADE_AMOUNT_FIXED_USDT := 3;
  TRADE_AMOUNT_PERCENTAGE := 10;
  TAKE_PROFIT_PERCENT := 10;
  DEFAULT_COOLDOWN_PERIOD := 172800
|}.

(** ** The data model of [StateManager] *)

(** One entry of [coin_data]; the [listing_time] key, which no operation
    below reads, is left out. *)
Record coin : Type := {
  symbol : string;
  price : Q;
  change_24h : Q;
  high_24h : Q
}.

(** One entry of [active_trades]. *)
Record trade : Type := {
  alert_num : Z;
  entry_price : Q;
  entry_time : Q;
  entry_rsi : pyval;
  trade_amount : Q;
  leverage : Q;
  pnl_percent : Q;
  pnl_usdt : Q;
  source : string;
  max_neg_pnl_pct : Q;
  max_neg_pnl_usdt : Q;
  max_neg_rsi : Q
}.

(** [global_stats] *)
Record stats : Type := {
  global_profit_usdt : Q;
  global_loss_usdt : Q;
  profitable_trades : nat;
  loss_trades : nat
}.

(** [controls]: one boolean per [threading.Event]. *)
Record control_flags : Type := {
  websocket_enabled : bool;
  rsi_enabled : bool;
  trading_enabled : bool;
  email_enabled : bool;
  monitor_all_coins : bool;
  global_pause_active : bool;
  trade_execution_enabled : bool
}.

(** The texts the source builds with f-strings around a number are kept
    symbolic: [MsgFmt2 x] is [f"{x:.2f}"], [MsgTargetProfit p] is
    [f"Target Profit (>{p}%)"] and [MsgRsiClose r] is [f"RSI Close (<{r})"];
    any other text is a literal. *)
Inductive message : Type :=
  | MsgText (s : string)
  | MsgFmt2 (q : Q)
  | MsgTargetProfit (p : Q)
  | MsgRsiClose (r : Q).

(** One entry of [cooldowned_coins]. *)
Record cooldown : Type := {
  cd_reason : message;
  end_time : Q
}.

(** An alert-log line; [log_time] stands for the [strftime('%H:%M:%S')]
    rendering of the clock reading. *)
Record alert_entry : Type := {
  log_time : Q;
  log_symbol : string;
  log_rsi : message
}.

(** Events put on the bus by the state store, with their payloads. *)
Inductive event : Type :=
  | STATE_UPDATED_MARKET
  | STATE_UPDATED_RSI (sym : string) (rsi : pyval)
  | PORTFOLIO_UPDATED
  | STATS_UPDATED
  | TRADE_OPENED (t : trade)
  | TRADE_CLOSED (trade_data : trade) (reason : message) (close_price : Q)
                 (exit_rsi : pyval) (new_balance : Q)
  | ADD_TO_COOLDOWN (sym : string) (reason : message) (cd_end : Q)
  | REMOVE_FROM_COOLDOWN (sym : string)
  | GLOBAL_PAUSE_TRIGGERED (loss_count : nat)
  | GLOBAL_PAUSE_LIFTED.

(** The fields of [StateManager] that the operations below read or write,
    with the queue of the event bus and the pending auto-lift timers. *)
Record state : Type := {
  coin_data : gmap string coin;
  rsi_data : gmap string pyval;
  active_trades : gmap string trade;
  cooldowned_coins : gmap string cooldown;
  portfolio_balance : Q;
  global_stats : stats;
  controls : control_flags;
  alert_log : list alert_entry;
  last_trade_execution_time : Q;
  event_queue : list event;
  timers : list Q
}.

(** Field updates. *)
Definition set_active_trades (m : gmap string trade) (st : state) : state :=
  {| coin_data := coin_data st; rsi_data := rsi_data st; active_trades := m;
     cooldowned_coins := cooldowned_coins st;
     portfolio_balance := portfolio_balance st; global_stats := global_stats st;
     controls := controls st; alert_log := alert_log st;
     last_trade_execution_time := last_trade_execution_time st;
     event_queue := event_queue st; timers := timers st |}.

Definition set_cooldowned_coins (m : gmap string cooldown)
    (st : state) : state :=
  {| coin_data := coin_data st; rsi_data := rsi_data st;
     active_trades := active_trades st; cooldowned_coins := m;
     portfolio_balance := portfolio_balance st; global_stats := global_stats st;
     controls := controls st; alert_log := alert_log st;
     last_trade_execution_time := last_trade_execution_time st;
     event_queue := event_queue st; timers := timers st |}.

Definition set_coin_data (m : gmap string coin) (st : state) : state :=
  {| coin_data := m; rsi_data := rsi_data st;
     active_trades := active_trades st;
     cooldowned_coins := cooldowned_coins st;
     portfolio_balance := portfolio_balance st; global_stats := global_stats st;
     controls := controls st; alert_log := alert_log st;
     last_trade_execution_time := last_trade_execution_time st;
     event_queue := event_queue st; timers := timers st |}.

Definition set_event_queue (q : list event) (st : state) : state :=
  {| coin_data := coin_data st; rsi_data := rsi_data st;
     active_trades := active_trades st;
     cooldowned_coins := cooldowned_coins st;
     portfolio_balance := portfolio_balance st; global_stats := global_stats st;
     controls := controls st; alert_log := alert_log st;
     last_trade_execution_time := last_trade_execution_time st;
     event_queue := q; timers := timers st |}.

Definition set_portfolio_balance (b : Q) (st : state) : state :=
  {| coin_data := coin_data st; rsi_data := rsi_data st;
     active_trades := active_trades st;
     cooldowned_coins := cooldowned_coins st;
     portfolio_balance := b; global_stats := global_stats st;
     controls := controls st; alert_log := alert_log st;
     last_trade_execution_time := last_trade_execution_time st;
     event_queue := event_queue st; timers := timers st |}.

Definition set_global_stats (g : stats) (st : state) : state :=
  {| coin_data := coin_data st; rsi_data := rsi_data st;
     active_trades := active_trades st;
     cooldowned_coins := cooldowned_coins st;
     portfolio_balance := portfolio_balance st; global_stats := g;
     controls := controls st; alert_log := alert_log st;
     last_trade_execution_time := last_trade_execution_time st;
     event_queue := event_queue st; timers := timers st |}.

Definition set_controls (c : control_flags) (st : state) : state :=
  {| coin_data := coin_data st; rsi_data := rsi_data st;
     active_trades := active_trades st;
     cooldowned_coins := cooldowned_coins st;
     portfolio_balance := portfolio_balance st; global_stats := global_stats st;
     controls := c; alert_log := alert_log st;
     last_trade_execution_time := last_trade_execution_time st;
     event_queue := event_queue st; timers := timers st |}.

Definition set_alert_log (l : list alert_entry) (st : state) : state :=
  {| coin_data := coin_data st; rsi_data := rsi_data st;
     active_trades := active_trades st;
     cooldowned_coins := cooldowned_coins st;
     portfolio_balance := portfolio_balance st; global_stats := global_stats st;
     controls := controls st; alert_log := l;
     last_trade_execution_time := last_trade_execution_time st;
     event_queue := event_queue st; timers := timers st |}.

Definition set_last_trade_execution_time (t : Q) (st : state) : state :=
  {| coin_data := coin_data st; rsi_data := rsi_data st;
     active_trades := active_trades st;
     cooldowned_coins := cooldowned_coins st;
     portfolio_balance := portfolio_balance st; global_stats := global_stats st;
     controls := controls st; alert_log := alert_log st;
     last_trade_execution_time := t;
     event_queue := event_queue st; timers := timers st |}.

Definition set_timers (l : list Q) (st : state) : state :=
  {| coin_data := coin_data st; rsi_data := rsi_data st;
     active_trades := active_trades st;
     cooldowned_coins := cooldowned_coins st;
     portfolio_balance := portfolio_balance st; global_stats := global_stats st;
     controls := controls st; alert_log := alert_log st;
     last_trade_execution_time := last_trade_execution_time st;
     event_queue := event_queue st; timers := l |}.

(** [self.event_bus.publish(e)]: [queue.put] at the tail of the FIFO. *)
Definition publish (e : event) (st : state) : state :=
  {| coin_data := coin_data st; rsi_data := rsi_data st;
     active_trades := active_trades st;
     cooldowned_coins := cooldowned_coins st;
     portfolio_balance := portfolio_balance st; global_stats := global_stats st;
     controls := controls st; alert_log := alert_log st;
     last_trade_execution_time := last_trade_execution_time st;
     event_queue := event_queue st ++ [e]; timers := timers st |}.

(** [StateManager.__init__] followed by [_initialize_controls]. *)
Definition initial_controls : control_flags := {|
  websocket_enabled := true; rsi_enabled := true; trading_enabled := false;
  email_enabled := false; monitor_all_coins := true;
  global_pause_active := false; trade_execution_enabled := false
|}.

Definition initial_state : state := {|
  coin_data := ∅; rsi_data := ∅; active_trades := ∅; cooldowned_coins := ∅;
  portfolio_balance := 0;
  global_stats := {| global_profit_usdt := 0; global_loss_usdt := 0;
                     profitable_trades := 0; loss_trades := 0 |};
  controls := initial_controls; alert_log := []; last_trade_execution_time := 0;
  event_queue := []; timers := []
|}.

(** ** [sorted(..., key=..., reverse=True)]

    Python's sort is stable, also with [reverse=True]: items with equal keys
    keep their input order.  The model is the stable insertion sort. *)

Section SortedDesc.

Context {A : Type} (key : A -> Q).

Fixpoint insert_desc (x : A) (l : list A) : list A :=
  match l with
  | [] => [x]
  | y :: l' =>
      if Qle_bool (key y) (key x) then x :: y :: l'
      else y :: insert_desc x l'
  end.

Definition sorted_desc (l : list A) : list A := foldr insert_desc [] l.

(** [l] is in descending order of [key]. *)
Definition desc : relation A := fun a b => key b <= key a.

End SortedDesc.

(** ** core/state_manager.py *)

Section StateManager.

Variable cfg : config.

(** [add_alert_log]: newest first, at most 50 lines kept. *)
Definition add_alert_log (now : Q) (sym : string) (msg : message)
    (st : state) : state :=
  set_alert_log
    (take 50 ({| log_time := now; log_symbol := sym; log_rsi := msg |}
              :: alert_log st)) st.

(** [can_open_new_trade] *)
Definition can_open_new_trade (now : Q) (st : state) : bool :=
  trade_execution_enabled (controls st)
  && negb (global_pause_active (controls st))
  && bool_decide (size (active_trades st) < MAX_OPEN_TRADES cfg)%nat
  && Qltb 10 (now - last_trade_execution_time st).

(** The amount [open_trade] uses when the caller passes none. *)
Definition resolve_trade_amount (amount : option Q) (st : state) : Q :=
  match amount with
  | Some a => a
  | None =>
      if String.eqb (TRADE_AMOUNT_TYPE cfg) "percentage"
      then (portfolio_balance st * TRADE_AMOUNT_PERCENTAGE cfg) / 100
      else TRADE_AMOUNT_FIXED_USDT cfg
  end.

(** The funds test of [open_trade]: the source is not Live and the balance is
    below the resolved amount. *)
Definition insufficient_funds (src : string) (amount : option Q)
    (st : state) : Prop :=
  is_live src = false
  /\ portfolio_balance st < resolve_trade_amount amount st.

(** The record [open_trade] stores under the symbol. *)
Definition new_trade (now price : Q) (rsi_value : pyval) (src : string)
    (alert_number : Z) (amount : Q) : trade :=
  {| alert_num := alert_number; entry_price := price; entry_time := now;
     entry_rsi := rsi_value; trade_amount := amount;
     leverage := LEVERAGE cfg; pnl_percent := 0; pnl_usdt := 0;
     source := src; max_neg_pnl_pct := 0; max_neg_pnl_usdt := 0;
     max_neg_rsi := match rsi_value with VNum r => r | VStr _ => 0 end |}.

(** [open_trade]; the [change_24h] argument is accepted and not used, as in
    the source. *)
Definition open_trade (now : Q) (sym : string) (price : Q)
    (rsi_value : pyval) (change : option pyval) (src : string)
    (alert_number : Z) (log_msg : option message) (amount : option Q)
    (st : state) : bool * state :=
  match active_trades st !! sym with
  | Some _ => (false, st)
  | None =>
      let amt := resolve_trade_amount amount st in
      if negb (is_live src) && Qltb (portfolio_balance st) amt
      then (false,
            add_alert_log now ("SKIP: " +:+ sym)
                          (MsgText "Insufficient Funds") st)
      else
        let t := new_trade now price rsi_value src alert_number amt in
        let st1 := set_active_trades (<[sym := t]> (active_trades st)) st in
        let st2 := set_last_trade_execution_time now st1 in
        let final_log_message :=
          match log_msg with
          | Some m => m
          | None => match rsi_value with
                    | VNum r => MsgFmt2 r
                    | VStr s => MsgText s
                    end
          end in
        let st3 :=
          add_alert_log now ("OPEN SHORT (" +:+ src +:+ "): " +:+ sym)
                        final_log_message st2 in
        (true, publish (TRADE_OPENED t) st3)
  end.

(** The statistics after a paper trade realised [pnl]. *)
Definition realize_stats (pnl : Q) (g : stats) : stats :=
  if Qle_bool 0 pnl
  then {| global_profit_usdt := global_profit_usdt g + pnl;
          global_loss_usdt := global_loss_usdt g;
          profitable_trades := profitable_trades g + 1;
          loss_trades := loss_trades g |}
  else {| global_profit_usdt := global_profit_usdt g;
          global_loss_usdt := global_loss_usdt g + Qabs pnl;
          profitable_trades := profitable_trades g;
          loss_trades := loss_trades g + 1 |}.

(** [close_trade] *)
Definition close_trade (now : Q) (sym : string) (reason : message)
    (close_price : Q) (exit_rsi : pyval) (st : state) : state :=
  match active_trades st !! sym with
  | None => st
  | Some trade_data =>
      let st1 := set_active_trades (delete sym (active_trades st)) st in
      let st2 :=
        if negb (is_live (source trade_data))
        then set_global_stats
               (realize_stats (pnl_usdt trade_data) (global_stats st1))
               (set_portfolio_balance
                  (portfolio_balance st1 + pnl_usdt trade_data) st1)
        else st1 in
      let cooldown_end_time := now + DEFAULT_COOLDOWN_PERIOD cfg in
      let st3 := publish (ADD_TO_COOLDOWN sym reason cooldown_end_time) st2 in
      let st4 := add_alert_log now ("CLOSE SHORT: " +:+ sym) reason st3 in
      let st5 :=
        publish (TRADE_CLOSED trade_data reason close_price exit_rsi
                              (portfolio_balance st4)) st4 in
      publish PORTFOLIO_UPDATED (publish STATS_UPDATED st5)
  end.

(** The in-place update [update_trade_pnl] performs on the trade record. *)
Definition with_pnl (pct usdt : Q) (current_rsi : option pyval)
    (t : trade) : trade :=
  match current_rsi with
  | Some (VNum r) =>
      {| alert_num := alert_num t; entry_price := entry_price t;
         entry_time := entry_time t; entry_rsi := entry_rsi t;
         trade_amount := trade_amount t; leverage := leverage t;
         pnl_percent := pct; pnl_usdt := usdt; source := source t;
         max_neg_pnl_pct :=
           if Qltb pct (max_neg_pnl_pct t) then pct else max_neg_pnl_pct t;
         max_neg_pnl_usdt :=
           if Qltb usdt (max_neg_pnl_usdt t) then usdt else max_neg_pnl_usdt t;
         max_neg_rsi :=
           if Qltb r (max_neg_rsi t) then r else max_neg_rsi t |}
  | _ =>
      {| alert_num := alert_num t; entry_price := entry_price t;
         entry_time := entry_time t; entry_rsi := entry_rsi t;
         trade_amount := trade_amount t; leverage := leverage t;
         pnl_percent := pct; pnl_usdt := usdt; source := source t;
         max_neg_pnl_pct := max_neg_pnl_pct t;
         max_neg_pnl_usdt := max_neg_pnl_usdt t;
         max_neg_rsi := max_neg_rsi t |}
  end.

(** [update_trade_pnl] *)
Definition update_trade_pnl (sym : string) (pct usdt : Q)
    (current_rsi : option pyval) (st : state) : state :=
  match active_trades st !! sym with
  | Some t =>
      set_active_trades
        (<[sym := with_pnl pct usdt current_rsi t]> (active_trades st)) st
  | None => st
  end.

(** [lift_global_pause] *)
Definition lift_global_pause (st : state) : state :=
  if global_pause_active (controls st)
  then publish GLOBAL_PAUSE_LIFTED
         (set_controls {| websocket_enabled := websocket_enabled (controls st);
                     rsi_enabled := rsi_enabled (controls st);
                     trading_enabled := trading_enabled (controls st);
                     email_enabled := email_enabled (controls st);
                     monitor_all_coins := monitor_all_coins (controls st);
                     global_pause_active := false;
                     trade_execution_enabled :=
                       trade_execution_enabled (controls st) |} st)
  else st.

(** [activate_global_pause]; the timer that will call [lift_global_pause]
    is recorded with its delay in seconds. *)
Definition activate_global_pause (n : nat) (st : state) : state :=
  if negb (global_pause_active (controls st))
  then
    let st1 :=
      set_controls {| websocket_enabled := websocket_enabled (controls st);
                 rsi_enabled := rsi_enabled (controls st);
                 trading_enabled := trading_enabled (controls st);
                 email_enabled := email_enabled (controls st);
                 monitor_all_coins := monitor_all_coins (controls st);
                 global_pause_active := true;
                 trade_execution_enabled := false |} st in
    let st2 := publish (GLOBAL_PAUSE_TRIGGERED n) st1 in
    set_timers (timers st2 ++ [GLOBAL_PAUSE_DURATION_HOURS cfg * 3600]) st2
  else st.

(** *** [get_symbols_to_monitor] *)

Definition MAX_COINS_TO_MONITOR : nat := 100.

Definition all_coins_sorted (st : state) : list coin :=
  sorted_desc change_24h (snd <$> map_to_list (coin_data st)).

Definition hot_coins_above_base (st : state) : list coin :=
  filter (fun c => RSI_HOT_COIN_THRESHOLD cfg <= change_24h c)
         (all_coins_sorted st).

(** The effective threshold: the base one, raised to the change of the coin
    ranked [MAX_COINS_TO_MONITOR] when more coins than that qualify. *)
Definition dynamic_threshold (st : state) : Q :=
  if bool_decide (MAX_COINS_TO_MONITOR < length (hot_coins_above_base st))%nat
  then match hot_coins_above_base st !! (MAX_COINS_TO_MONITOR - 1)%nat with
       | Some c => change_24h c
       | None => RSI_HOT_COIN_THRESHOLD cfg
       end
  else RSI_HOT_COIN_THRESHOLD cfg.

Definition final_hot_coins (st : state) : list string :=
  symbol <$> filter (fun c => dynamic_threshold st <= change_24h c)
                    (hot_coins_above_base st).

(** [self.coin_data.get(s, {}).get('change_24h', 0)] *)
Definition change_of (st : state) (s : string) : Q :=
  match coin_data st !! s with
  | Some c => change_24h c
  | None => 0
  end.

Definition symbols_set (st : state) : gset string :=
  dom (active_trades st) ∪ dom (cooldowned_coins st)
  ∪ list_to_set (final_hot_coins st).

Definition get_symbols_to_monitor (st : state) : list string :=
  sorted_desc (change_of st) (elements (symbols_set st)).

(** *** [update_market_data] *)

(** One ticker of a feed batch: the keys ['s'], ['c'], ['P'], ['h'], the
    numbers already converted by [float]. *)
Record ticker : Type := {
  tk_s : option string;
  tk_c : Q;
  tk_P : Q;
  tk_h : Q
}.

Definition ends_with (suffix s : string) : bool :=
  let n := String.length s in
  let m := String.length suffix in
  (m <=? n)%nat && String.eqb (String.substring (n - m) m s) suffix.

Definition update_market_data (data_list : list ticker) (st : state) : state :=
  publish STATE_UPDATED_MARKET
    (set_coin_data
       (foldl (fun m d =>
                 match tk_s d with
                 | Some s =>
                     if ends_with "USDT" s
                     then <[s := {| symbol := s; price := tk_c d;
                                    change_24h := tk_P d;
                                    high_24h := tk_h d |}]> m
                     else m
                 | None => m
                 end)
              (coin_data st) data_list) st).

End StateManager.

(** Every entry of [coin_data] is stored under its own symbol, as
    [update_market_data] writes it. *)
Definition coin_data_wf (st : state) : Prop :=
  map_Forall (fun k c => symbol c = k) (coin_data st).

(** ** persistence/database_manager.py *)

Section DatabaseManager.

Variable cfg : config.

(** [handle_add_to_cooldown], its effect on the state store. *)
Definition handle_add_to_cooldown (sym : string) (reason : message)
    (cd_end : Q) (st : state) : state :=
  set_cooldowned_coins
    (<[sym := {| cd_reason := reason; end_time := cd_end |}]>
       (cooldowned_coins st)) st.

(** [handle_remove_from_cooldown], its effect on the state store. *)
Definition handle_remove_from_cooldown (sym : string) (st : state) : state :=
  set_cooldowned_coins (delete sym (cooldowned_coins st)) st.

(** A row of the trades table as [check_for_global_pause] sees it:
    [Timestamp_dt] is the column after [parse_custom_date] ([None] where
    the text does not parse), [PNL_USDT] the column after
    [pd.to_numeric(errors='coerce')] ([None] for NaN). *)
Record db_row : Type := {
  Timestamp_dt : option Q;
  PNL_USDT : option Q
}.

Definition is_recent (now : Q) (r : db_row) : bool :=
  match Timestamp_dt r with
  | Some t => Qltb (now - 24 * 3600) t
  | None => false
  end.

Definition is_loss (r : db_row) : bool :=
  match PNL_USDT r with
  | Some p => Qltb p 0
  | None => false
  end.

(** [recent_trades]: the rows stamped after [now - 24h]. *)
Definition recent_trades (now : Q) (df : list db_row) : list db_row :=
  List.filter (is_recent now) df.

(** [loss_trades]: the recent rows with a negative [PNL_USDT]. *)
Definition loss_trades_24h (now : Q) (df : list db_row) : list db_row :=
  List.filter is_loss (recent_trades now df).

(** The scan [check_for_global_pause] would run on the DataFrame [df] it
    has read: the body of its [try] block after the read.  The method as
    written never gets there, see [check_for_global_pause] below. *)
Definition scan_for_global_pause (now : Q) (df : list db_row)
    (st : state) : state :=
  match df with
  | [] => st
  | _ =>
      let n := length (loss_trades_24h now df) in
      if (LOSS_TRADES_LIMIT_24H cfg <=? n)%nat
      then activate_global_pause cfg n st
      else st
  end.

(** [_read_db_to_df(query, db_path=None)] on a trades table: [query] has no
    default, so a call without it raises [TypeError] ([None] here). *)
Definition _read_db_to_df (table : list db_row) (query : option string)
    : option (list db_row) :=
  match query with
  | Some _ => Some table
  | None => None
  end.

(** [check_for_global_pause]: the read is the call [self._read_db_to_df()],
    without a query; the [TypeError] is caught by the [except Exception] of
    the method, which prints it and returns. *)
Definition check_for_global_pause (now : Q) (table : list db_row)
    (st : state) : state :=
  match _read_db_to_df table None with
  | Some df => scan_for_global_pause now df st
  | None => st
  end.

(** A losing trade closed inside the trailing 24 hours. *)
Definition recent_loss (now : Q) (r : db_row) : Prop :=
  exists t p,
    Timestamp_dt r = Some t /\ now - 24 * 3600 < t
    /\ PNL_USDT r = Some p /\ p < 0.

End DatabaseManager.

(** ** core/event_bus.py *)

(** What the subscribers of an event other than ['STATE_UPDATED_RSI'] do to
    the state store: the cooldown handlers of the database manager write
    [cooldowned_coins]; the other subscribers persist, notify or start a
    monitor thread.  The subscriber of ['STATE_UPDATED_RSI'],
    [TradingService.handle_rsi_update], reads the clock and the exchange
    and is a function of its own below; it never writes
    [cooldowned_coins]. *)
Definition dispatch (st : state) (e : event) : state :=
  match e with
  | ADD_TO_COOLDOWN s r t => handle_add_to_cooldown s r t st
  | REMOVE_FROM_COOLDOWN s => handle_remove_from_cooldown s st
  | _ => st
  end.

(** [process_events], run until the queue is drained: FIFO. *)
Definition process_events (st : state) : state :=
  set_event_queue [] (foldl dispatch st (event_queue st)).

(** ** services/trading_service.py *)

Section TradingService.

Variable cfg : config.

(** The cooldown test of [handle_rsi_update]. *)
Definition is_on_cooldown (now : Q) (sym : string) (st : state) : bool :=
  match cooldowned_coins st !! sym with
  | Some c => Qltb now (end_time c)
  | None => false
  end.

Definition price_change_percent (t : trade) (current_price : Q) : Q :=
  ((entry_price t - current_price) / entry_price t) * 100.

Definition paper_pnl_percent (t : trade) (current_price : Q) : Q :=
  price_change_percent t current_price * leverage t.

Definition paper_pnl_usdt (t : trade) (current_price : Q) : Q :=
  (trade_amount t * leverage t) * (price_change_percent t current_price / 100).

(** [_monitor_paper_trade]; [None] is the [ZeroDivisionError] of a trade
    whose entry price is zero. *)
Definition _monitor_paper_trade (now : Q) (sym : string) (t : trade)
    (st : state) : option state :=
  let current_rsi := rsi_data st !! sym in
  match price <$> coin_data st !! sym with
  | None => Some st
  | Some current_price =>
      if Qeq_bool current_price 0 then Some st
      else if Qeq_bool (entry_price t) 0 then None
      else
        let pct := paper_pnl_percent t current_price in
        let usdt := paper_pnl_usdt t current_price in
        let st1 := update_trade_pnl sym pct usdt current_rsi st in
        if negb (global_pause_active (controls st1)) then
          if Qle_bool (TAKE_PROFIT_PERCENT cfg) pct then
            Some (close_trade cfg now sym
                    (MsgTargetProfit (TAKE_PROFIT_PERCENT cfg))
                    current_price (or_zero current_rsi) st1)
          else
            match current_rsi with
            | Some (VNum r) =>
                if Qle_bool r (TRADE_CLOSE_RSI cfg) && Qltb 0 usdt
                then Some (close_trade cfg now sym
                             (MsgRsiClose (TRADE_CLOSE_RSI cfg))
                             current_price (VNum r) st1)
                else Some st1
            | _ => Some st1
            end
        else Some st1
  end.

End TradingService.

(** ** Concrete stores used in the examples *)

Definition sample_trade : trade :=
  new_trade default_config 0 100 (VNum 96) "Bot" 1 3.

Definition with_flags (pause exec : bool) (st : state) : state :=
  set_controls {| websocket_enabled := true; rsi_enabled := true;
             trading_enabled := true; email_enabled := false;
             monitor_all_coins := true; global_pause_active := pause;
             trade_execution_enabled := exec |} st.

(** A funded store with no open trade, trading armed. *)
Definition funded_state : state :=
  with_flags false true (set_portfolio_balance 1000 initial_state).

(** A store whose only open trade, on ["XUSDT"], has a running pnl of 0. *)
Definition flat_trade_state : state :=
  set_active_trades {[ "XUSDT" := sample_trade ]} funded_state.

(** The store of [flat_trade_state] after a tick that reported a loss while
    the indicator had no value. *)
Definition C8_state : state :=
  update_trade_pnl "XUSDT" (-5) (-1) None flat_trade_state.

(** The funded store with [MAX_OPEN_TRADES] (ten) trades already open. *)
Definition full_state : state :=
  set_active_trades
    (list_to_map
       ((fun s => (s, sample_trade)) <$>
          ["AUSDT"; "BUSDT"; "CUSDT"; "DUSDT"; "EUSDT";
           "FUSDT"; "GUSDT"; "HUSDT"; "IUSDT"; "JUSDT"]))
    funded_state.

(** Three losses, one second old, seen at clock reading 100000. *)
Definition three_losses : list db_row :=
  [ {| Timestamp_dt := Some 99999; PNL_USDT := Some (-1) |};
    {| Timestamp_dt := Some 99999; PNL_USDT := Some (-2) |};
    {| Timestamp_dt := Some 99999; PNL_USDT := Some (-3) |} ].

(** A paused store holding a paper trade entered at 100 whose price has
    fallen to 90 and whose indicator reads 60: both exit rules would fire. *)
Definition paused_profit_state : state :=
  with_flags true false
    {| coin_data := {[ "XUSDT" := {| symbol := "XUSDT"; price := 90;
                                      change_24h := 20; high_24h := 120 |} ]};
       rsi_data := {[ "XUSDT" := VNum 60 ]};
       active_trades := {[ "XUSDT" := sample_trade ]};
       cooldowned_coins := ∅;
       portfolio_balance := 1000;
       global_stats := global_stats initial_state;
       controls := initial_controls; alert_log := [];
       last_trade_execution_time := 0; event_queue := []; timers := [] |}.

(** The funded store once the feed has reported ["XUSDT"] at 90. *)
Definition round_trip_state : state :=
  set_coin_data
    {[ "XUSDT" := {| symbol := "XUSDT"; price := 90; change_24h := 20;
                     high_24h := 120 |} ]}
    funded_state.

(** Symbols ["AAUSDT"], ["ABUSDT"], ... *)
Definition sym_of (i : nat) : string :=
  String (Ascii.ascii_of_nat (65 + i / 16))
    (String (Ascii.ascii_of_nat (65 + i mod 16)) "USDT").

(** A store that knows [n] coins, coin [i] with 24h change [change i]. *)
Definition market_state (n : nat) (change : nat -> Q) : state :=
  set_coin_data
    (list_to_map
       ((fun i => (sym_of i, {| symbol := sym_of i; price := 1;
                                change_24h := change i; high_24h := 1 |}))
          <$> seq 0 n))
    initial_state.

(** A broad rally: 150 coins, all up 20 percent. *)
Definition rally_state : state := market_state 150 (fun _ => 20).

(** 150 coins with pairwise different changes, 11 to 160 percent. *)
Definition ladder_state : state :=
  market_state 150 (fun i => inject_Z (Z.of_nat (11 + i))).

(** ** core/state_manager.py: the remaining mutators *)

Definition set_rsi_data (m : gmap string pyval) (st : state) : state :=
  {| coin_data := coin_data st; rsi_data := m;
     active_trades := active_trades st;
     cooldowned_coins := cooldowned_coins st;
     portfolio_balance := portfolio_balance st; global_stats := global_stats st;
     controls := controls st; alert_log := alert_log st;
     last_trade_execution_time := last_trade_execution_time st;
     event_queue := event_queue st; timers := timers st |}.

(** [update_portfolio_balance] *)
Definition update_portfolio_balance (new_balance : Q) (st : state) : state :=
  publish PORTFOLIO_UPDATED (set_portfolio_balance new_balance st).

(** [restore_live_trade] *)
Definition restore_live_trade (now : Q) (sym : string) (entry : Q)
    (amount : Q) (lev : Q) (alert : Z) (rsi : pyval) (st : state) : state :=
  match active_trades st !! sym with
  | Some _ => st
  | None =>
      set_active_trades
        (<[sym := {| alert_num := alert; entry_price := entry;
                     entry_time := now; entry_rsi := rsi;
                     trade_amount := amount; leverage := lev;
                     pnl_percent := 0; pnl_usdt := 0; source := "Live";
                     max_neg_pnl_pct := 0; max_neg_pnl_usdt := 0;
                     max_neg_rsi := match rsi with
                                    | VNum r => r
                                    | VStr _ => 0
                                    end |}]> (active_trades st)) st
  end.

(** The keys of the [controls] dict. *)
Definition control_names : list string :=
  ["websocket_enabled"; "rsi_enabled"; "trading_enabled"; "email_enabled";
   "monitor_all_coins"; "global_pause_active"; "trade_execution_enabled"].

(** [self.controls[name].is_set()], [None] for a name that is not a key. *)
Definition get_control (name : string) (c : control_flags) : option bool :=
  if String.eqb name "websocket_enabled" then Some (websocket_enabled c)
  else if String.eqb name "rsi_enabled" then Some (rsi_enabled c)
  else if String.eqb name "trading_enabled" then Some (trading_enabled c)
  else if String.eqb name "email_enabled" then Some (email_enabled c)
  else if String.eqb name "monitor_all_coins" then Some (monitor_all_coins c)
  else if String.eqb name "global_pause_active"
       then Some (global_pause_active c)
  else if String.eqb name "trade_execution_enabled"
       then Some (trade_execution_enabled c)
  else None.

(** [self.controls[name].set()] for [b = true], [.clear()] for [b = false];
    only called on a name that is a key. *)
Definition set_control (name : string) (b : bool)
    (c : control_flags) : control_flags :=
  {| websocket_enabled :=
       if String.eqb name "websocket_enabled" then b else websocket_enabled c;
     rsi_enabled :=
       if String.eqb name "rsi_enabled" then b else rsi_enabled c;
     trading_enabled :=
       if String.eqb name "trading_enabled" then b else trading_enabled c;
     email_enabled :=
       if String.eqb name "email_enabled" then b else email_enabled c;
     monitor_all_coins :=
       if String.eqb name "monitor_all_coins" then b else monitor_all_coins c;
     global_pause_active :=
       if String.eqb name "global_pause_active" then b
       else global_pause_active c;
     trade_execution_enabled :=
       if String.eqb name "trade_execution_enabled" then b
       else trade_execution_enabled c |}.

(** [toggle_control]: the action ['pause'] clears, any other action sets. *)
Definition toggle_control (control_name action : string) (st : state) : state :=
  let b := negb (String.eqb action "pause") in
  if String.eqb control_name "all" then
    set_controls
      {| websocket_enabled := b; rsi_enabled := b; trading_enabled := b;
         email_enabled := b; monitor_all_coins := b;
         global_pause_active := global_pause_active (controls st);
         trade_execution_enabled := b |} st
  else
    match get_control control_name (controls st) with
    | None => st
    | Some _ =>
        if String.eqb control_name "global_pause_active"
           && String.eqb action "resume"
        then lift_global_pause st
        else if negb (String.eqb control_name "global_pause_active")
        then set_controls (set_control control_name b (controls st)) st
        else st
    end.

(** One entry of [rsi_peak_tracker]. *)
Record peak_info : Type := {
  peak_price : Q;
  timestamp : Q
}.

Section UpdateRsiValue.

Variable cfg : config.

(** [config.STALE_SIGNAL_LOOKBACK_HOURS] *)
Variable STALE_SIGNAL_LOOKBACK_HOURS : Q.

(** What [update_rsi_value] does to the entry of the symbol in
    [rsi_peak_tracker], given a numeric indicator above the alert threshold
    and a known, non-zero price. *)
Definition track_peak (now current_price : Q)
    (peak : option peak_info) : peak_info :=
  match peak with
  | None => {| peak_price := current_price; timestamp := now |}
  | Some p =>
      if Qltb (STALE_SIGNAL_LOOKBACK_HOURS * 3600) (now - timestamp p)
      then {| peak_price := current_price; timestamp := now |}
      else if Qltb (peak_price p) current_price
      then {| peak_price := current_price; timestamp := now |}
      else p
  end.

(** [update_rsi_value].  The peak tracker is the second component of the
    store here. *)
Definition update_rsi_value (now : Q) (sym : string) (rsi_value : pyval)
    (st : state) (tracker : gmap string peak_info)
    : state * gmap string peak_info :=
  let st' := set_rsi_data (<[sym := rsi_value]> (rsi_data st)) st in
  let tracker' :=
    match rsi_value, price <$> coin_data st !! sym with
    | VNum r, Some current_price =>
        if Qltb (RSI_ALERT_THRESHOLD cfg) r
           && negb (Qeq_bool current_price 0)
        then <[sym := track_peak now current_price (tracker !! sym)]> tracker
        else tracker
    | _, _ => tracker
    end in
  (publish (STATE_UPDATED_RSI sym rsi_value) st', tracker').

End UpdateRsiValue.

(** ** persistence/database_manager.py: the alert counter *)

(** What [get_next_alert_number] reads: the counter file ([None] when the
    file does not exist, [Some None] when it lacks the key
    ['last_alert_number']) and [MAX(Alert_id)] of the trades table ([None]
    on an empty table).  Files that cannot be read or written are not
    modelled. *)
Record alert_store : Type := {
  counter_file : option (option Z);
  max_alert_id : option Z
}.

(** [get_next_alert_number]: the number returned and the store left. *)
Definition get_next_alert_number (a : alert_store) : Z * alert_store :=
  let alert_num :=
    match counter_file a with
    | Some (Some n) => n
    | Some None => 0%Z
    | None => match max_alert_id a with
              | Some n => n
              | None => 0%Z
              end
    end in
  let next_alert_num := (alert_num + 1)%Z in
  (next_alert_num,
   {| counter_file := Some (Some next_alert_num);
      max_alert_id := max_alert_id a |}).

(** ** services/trading_service.py: entries and the live monitor *)

(** What [BinanceTrader.execute_short_trade] answered: both orders, of which
    the engine reads [float(order['avgPrice'])], or an error message. *)
Inductive exec_result : Type :=
  | ExecFilled (avg_price : Q)
  | ExecFailed (error_message : string).

Section HandleRsiUpdate.

Variable cfg : config.

(** [config.LIVE_TRADING_ENABLED] *)
Variable LIVE_TRADING_ENABLED : bool.

(** The rendering [f"RSI: {rsi_value:.2f}"]. *)
Variable rsi_log_message : Q -> message.

(** The amount the engine computes before an entry. *)
Definition engine_trade_amount (st : state) : Q :=
  if String.eqb (TRADE_AMOUNT_TYPE cfg) "fixed_usdt"
  then TRADE_AMOUNT_FIXED_USDT cfg
  else (portfolio_balance st * TRADE_AMOUNT_PERCENTAGE cfg) / 100.

(** [max(trade_amount, 5.1)] *)
Definition required_margin (st : state) : Q :=
  let a := engine_trade_amount st in
  if Qltb a (51 / 10) then 51 / 10 else a.

(** [handle_rsi_update] on the payload of a ['STATE_UPDATED_RSI'] event;
    [exec] is the answer of the exchange, consulted only on the live path.
    This is one invocation of the handler with no other thread writing the
    store between its reads and its writes, and with one clock reading
    [now]: the handler takes the state lock anew for each of them. *)
Definition handle_rsi_update (now : Q) (data : string * pyval)
    (exec : exec_result) (st : state) (a : alert_store)
    : state * alert_store :=
  match data.2 with
  | VStr _ => (st, a)
  | VNum r =>
      let sym := data.1 in
      let is_in_trade := bool_decide (is_Some (active_trades st !! sym)) in
      if can_open_new_trade cfg now st
         && Qltb (RSI_ALERT_THRESHOLD cfg) r
         && negb is_in_trade
         && negb (is_on_cooldown now sym st)
      then
        match coin_data st !! sym with
        | None => (st, a)
        | Some coin_details =>
            let amt := engine_trade_amount st in
            if Qltb (portfolio_balance st) (required_margin st) then (st, a)
            else if LIVE_TRADING_ENABLED then
              match exec with
              | ExecFilled entry =>
                  let na := get_next_alert_number a in
                  ((open_trade cfg now sym entry (VNum r)
                      (Some (VNum (change_24h coin_details))) "Live" na.1
                      (Some (rsi_log_message r)) (Some amt) st).2, na.2)
              | ExecFailed error_message =>
                  (add_alert_log now ("FAIL: " +:+ sym)
                     (MsgText error_message)
                     (publish (ADD_TO_COOLDOWN sym (MsgText "Live Fail")
                                 (now + 300)) st), a)
              end
            else
              let na := get_next_alert_number a in
              ((open_trade cfg now sym (price coin_details) (VNum r)
                  (Some (VNum (change_24h coin_details))) "Bot" na.1
                  (Some (rsi_log_message r)) None st).2, na.2)
        end
      else (st, a)
  end.

End HandleRsiUpdate.

Section LiveMonitor.

Variable cfg : config.

(** One iteration of [_dedicated_live_monitor_loop].  [pnl] is what
    [get_live_pnl] answered, as [(pnl_usdt, pnl_percent)]; [close_result] is
    what [close_live_trade] answers, as [(success, close_price)], asked only
    when the exit rule fires.  The boolean of the result tells whether the
    loop goes on. *)
Definition live_monitor_iteration (now : Q) (sym : string) (pnl : Q * Q)
    (close_result : bool * Q) (st : state) : state * bool :=
  match active_trades st !! sym with
  | None => (st, false)
  | Some _ =>
      let current_rsi := rsi_data st !! sym in
      let st1 := update_trade_pnl sym pnl.2 pnl.1 current_rsi st in
      match current_rsi with
      | Some (VNum r) =>
          if Qle_bool r (TRADE_CLOSE_RSI cfg) && Qltb (1 / 100) pnl.1
          then
            if close_result.1
            then (close_trade cfg now sym (MsgRsiClose (TRADE_CLOSE_RSI cfg))
                              close_result.2 (VNum r) st1, false)
            else (st1, true)
          else (st1, true)
      | _ => (st1, true)
      end
  end.

(** The paper trades [TradingService.run] collects for one sweep. *)
Definition paper_trades (st : state) : list (string * trade) :=
  filter (fun st0 => is_live (source st0.2) = false)
         (map_to_list (active_trades st)).

(** The [for] loop of [TradingService.run] over the collected trades; a
    tick that raises ends the sweep (the [except] of [run] takes over), the
    store staying as the ticks before it left it. *)
Fixpoint sweep_paper_trades (now : Q) (l : list (string * trade))
    (st : state) : state :=
  match l with
  | [] => st
  | (sym, t) :: l' =>
      match _monitor_paper_trade cfg now sym t st with
      | Some st' => sweep_paper_trades now l' st'
      | None => st
      end
  end.

End LiveMonitor.

(** ** persistence/database_manager.py: the cooldown list at start-up *)

(** A row of the cooldowns table; [row_exit_date] is [None] for a NULL
    (NaN after the read). *)
Record cooldown_row : Type := {
  row_symbol : string;
  row_exit_date : option Q;
  row_reason : string
}.

(** [df_cooldown['exit_date'] > now] *)
Definition row_active (now : Q) (r : cooldown_row) : bool :=
  match row_exit_date r with
  | Some e => Qltb now e
  | None => false
  end.

(** The dict comprehension over the active rows: a later row for a symbol
    replaces an earlier one. *)
Definition cooldowns_of_rows (rows : list cooldown_row)
    : gmap string cooldown :=
  foldl (fun m r =>
           match row_exit_date r with
           | Some e => <[row_symbol r := {| cd_reason := MsgText (row_reason r);
                                            end_time := e |}]> m
           | None => m
           end) ∅ rows.

(** The second block of [load_state_from_database].  [table] is [None] when
    the read fails: [_read_db_to_df] then returns a frame without columns,
    the lookup of ['exit_date'] raises and the [except] leaves the store as
    it was. *)
Definition load_cooldowns (now : Q) (table : option (list cooldown_row))
    (st : state) : state :=
  match table with
  | None => st
  | Some rows =>
      set_cooldowned_coins
        (cooldowns_of_rows (List.filter (row_active now) rows)) st
  end.

(** ** web/server.py: the routes that open and drop trades *)

Section Routes.

Variable cfg : config.

(** [manual_trade]: [entry] is [float(entry_price_str)], [None] when the
    text is not a number.  The result says whether the route answered
    success. *)
Definition manual_trade (now : Q) (sym : string) (entry : option Q)
    (st : state) (a : alert_store) : bool * state * alert_store :=
  match active_trades st !! sym with
  | Some _ => (false, st, a)
  | None =>
      match entry with
      | None => (false, st, a)
      | Some entry_price0 =>
          let change := change_of st sym in
          let rsi_value := default (VNum 0) (rsi_data st !! sym) in
          let na := get_next_alert_number a in
          let r := open_trade cfg now sym entry_price0 rsi_value
                              (Some (VNum change)) "Manual" na.1 None None
                              st in
          (r.1, r.2, na.2)
      end
  end.

(** [discard_trade], its effect on the store. *)
Definition discard_trade (now : Q) (sym : string) (st : state) : state :=
  match active_trades st !! sym with
  | None => st
  | Some _ =>
      add_alert_log now ("DISCARD: " +:+ sym) (MsgText "")
        (publish (ADD_TO_COOLDOWN sym (MsgText "Discarded")
                    (now + DEFAULT_COOLDOWN_PERIOD cfg))
           (set_active_trades (delete sym (active_trades st)) st))
  end.

End Routes.

(** ** Sequences of calls on the store *)

(** One call made on the store by a service, a route or an event handler. *)
Inductive call : Type :=
  | CallOpenTrade (now : Q) (sym : string) (entry : Q) (rsi_value : pyval)
      (change : option pyval) (src : string) (alert : Z)
      (log_msg : option message) (amount : option Q)
  | CallCloseTrade (now : Q) (sym : string) (reason : message)
      (close_price : Q) (exit_rsi : pyval)
  | CallUpdateTradePnl (sym : string) (pct usdt : Q) (rsi : option pyval)
  | CallAddAlertLog (now : Q) (sym : string) (msg : message)
  | CallActivateGlobalPause (n : nat)
  | CallLiftGlobalPause
  | CallToggleControl (name action : string)
  | CallRestoreLiveTrade (now : Q) (sym : string) (entry amount lev : Q)
      (alert : Z) (rsi : pyval)
  | CallUpdateMarketData (data_list : list ticker)
  | CallUpdateRsiValue (sym : string) (rsi_value : pyval)
  | CallUpdatePortfolioBalance (new_balance : Q)
  | CallMonitorPaperTrade (now : Q) (sym : string) (t : trade)
  | CallLiveMonitorIteration (now : Q) (sym : string) (pnl : Q * Q)
      (close_result : bool * Q)
  | CallHandleRsiUpdate (live : bool) (now : Q) (data : string * pyval)
      (exec : exec_result) (a : alert_store)
  | CallManualTrade (now : Q) (sym : string) (entry : option Q)
      (a : alert_store)
  | CallDiscardTrade (now : Q) (sym : string)
  | CallHandleAddToCooldown (sym : string) (reason : message) (cd_end : Q)
  | CallHandleRemoveFromCooldown (sym : string).

Section Calls.

Variable cfg : config.
Variable rsi_log_message : Q -> message.

(** The store after the call.  A paper tick that raises leaves the store as
    it found it (it raises before it writes). *)
Definition run_call (st : state) (c : call) : state :=
  match c with
  | CallOpenTrade now sym entry rsi_value change src alert log_msg amount =>
      (open_trade cfg now sym entry rsi_value change src alert log_msg
                  amount st).2
  | CallCloseTrade now sym reason close_price exit_rsi =>
      close_trade cfg now sym reason close_price exit_rsi st
  | CallUpdateTradePnl sym pct usdt rsi => update_trade_pnl sym pct usdt rsi st
  | CallAddAlertLog now sym msg => add_alert_log now sym msg st
  | CallActivateGlobalPause n => activate_global_pause cfg n st
  | CallLiftGlobalPause => lift_global_pause st
  | CallToggleControl name action => toggle_control name action st
  | CallRestoreLiveTrade now sym entry amount lev alert rsi =>
      restore_live_trade now sym entry amount lev alert rsi st
  | CallUpdateMarketData data_list => update_market_data data_list st
  | CallUpdateRsiValue sym rsi_value =>
      (update_rsi_value cfg 0 0 sym rsi_value st ∅).1
  | CallUpdatePortfolioBalance new_balance =>
      update_portfolio_balance new_balance st
  | CallMonitorPaperTrade now sym t =>
      default st (_monitor_paper_trade cfg now sym t st)
  | CallLiveMonitorIteration now sym pnl close_result =>
      (live_monitor_iteration cfg now sym pnl close_result st).1
  | CallHandleRsiUpdate live now data exec a =>
      (handle_rsi_update cfg live rsi_log_message now data exec st a).1
  | CallManualTrade now sym entry a => (manual_trade cfg now sym entry st a).1.2
  | CallDiscardTrade now sym => discard_trade cfg now sym st
  | CallHandleAddToCooldown sym reason cd_end =>
      handle_add_to_cooldown sym reason cd_end st
  | CallHandleRemoveFromCooldown sym => handle_remove_from_cooldown sym st
  end.

Definition run_calls (cs : list call) (st : state) : state :=
  foldl run_call st cs.

End Calls.

(** The call that takes a position over from the exchange. *)
Definition is_restore (c : call) : Prop :=
  match c with
  | CallRestoreLiveTrade _ _ _ _ _ _ _ => True
  | _ => False
  end.

(** The explicit set of the balance. *)
Definition sets_balance (c : call) : Prop :=
  match c with
  | CallUpdatePortfolioBalance _ => True
  | _ => False
  end.

(** Balance minus net realised pnl. *)
Definition ledger_base (st : state) : Q :=
  portfolio_balance st
  - (global_profit_usdt (global_stats st) - global_loss_usdt (global_stats st)).

(** No pnl watermark of the trade is above zero. *)
Definition marks_ok (t : trade) : Prop :=
  max_neg_pnl_pct t <= 0 /\ max_neg_pnl_usdt t <= 0.

(** The data a trade is entered with. *)
Definition entry_data (t : trade)
    : Z * Q * Q * pyval * Q * Q * string :=
  (alert_num t, entry_price t, entry_time t, entry_rsi t, trade_amount t,
   leverage t, source t).

(** ** Predicates and sample data of the further properties *)

(** The statistics of [st'] are at or above those of [st], field by field. *)
Definition stats_le (st st' : state) : Prop :=
  global_profit_usdt (global_stats st) <= global_profit_usdt (global_stats st')
  /\ global_loss_usdt (global_stats st) <= global_loss_usdt (global_stats st')
  /\ (profitable_trades (global_stats st)
      <= profitable_trades (global_stats st'))%nat
  /\ (loss_trades (global_stats st) <= loss_trades (global_stats st'))%nat.

(** The calls that can clear [global_pause_active]. *)
Definition lifts_pause (c : call) : Prop :=
  match c with
  | CallLiftGlobalPause => True
  | CallToggleControl name action =>
      name = "global_pause_active" /\ action = "resume"
  | _ => False
  end.

(** The calls of [toggle_control]. *)
Definition is_toggle (c : call) : Prop :=
  match c with
  | CallToggleControl _ _ => True
  | _ => False
  end.

(** The calls of [activate_global_pause]. *)
Definition is_activate (c : call) : Prop :=
  match c with
  | CallActivateGlobalPause _ => True
  | _ => False
  end.

(** The rendering of the entry log line used in the examples. *)
Definition sample_rsi_message (r : Q) : message := MsgFmt2 r.

(** A paper round trip as a call sequence on [round_trip_state]: the engine
    enters at 90 on an indicator of 96, the feed reports 81, a tick runs and
    takes the profit, the breaker trips, and a manual close is attempted on
    the symbol, by then closed. *)
Definition sample_calls : list call :=
  [ CallUpdateRsiValue "XUSDT" (VNum 96);
    CallHandleRsiUpdate false 50 ("XUSDT", VNum 96) (ExecFailed "")
      {| counter_file := None; max_alert_id := None |};
    CallUpdateMarketData
      [ {| tk_s := Some "XUSDT"; tk_c := 81; tk_P := 20; tk_h := 120 |} ];
    CallMonitorPaperTrade 60 "XUSDT"
      (new_trade default_config 50 90 (VNum 96) "Bot" 1 3);
    CallActivateGlobalPause 1;
    CallCloseTrade 70 "XUSDT" (MsgText "Manual Close") 81 (VNum 0) ].

(** An empty alert counter: no file, no row. *)
Definition fresh_alerts : alert_store :=
  {| counter_file := None; max_alert_id := None |}.

(** The engine enters ["XUSDT"] at 90, the feed reports 99 and a tick runs
    with an indicator of 97: the trade stays open, at a loss. *)
Definition losing_calls : list call :=
  [ CallHandleRsiUpdate false 50 ("XUSDT", VNum 96) (ExecFailed "")
      fresh_alerts;
    CallUpdateRsiValue "XUSDT" (VNum 97);
    CallUpdateMarketData
      [ {| tk_s := Some "XUSDT"; tk_c := 99; tk_P := 30; tk_h := 120 |} ];
    CallMonitorPaperTrade 60 "XUSDT"
      (new_trade default_config 50 90 (VNum 96) "Bot" 1 3) ].

(** Calls made while the breaker is tripped: a tick on a profitable trade,
    an indicator event and a resume of every switch. *)
Definition paused_calls : list call :=
  [ CallMonitorPaperTrade 7 "XUSDT" sample_trade;
    CallToggleControl "all" "resume";
    CallHandleRsiUpdate false 50 ("XUSDT", VNum 96) (ExecFailed "")
      fresh_alerts ].

(** The timer lifts the pause, then an indicator event arrives. *)
Definition rearm_calls : list call :=
  [ CallLiftGlobalPause;
    CallHandleRsiUpdate false 50 ("XUSDT", VNum 96) (ExecFailed "")
      fresh_alerts ].

(** The entry conditions of [handle_rsi_update] for a numeric indicator. *)
Definition eligible (cfg : config) (now : Q) (sym : string) (r : Q)
    (st : state) : Prop :=
  can_open_new_trade cfg now st = true
  /\ RSI_ALERT_THRESHOLD cfg < r
  /\ active_trades st !! sym = None
  /\ is_on_cooldown now sym st = false
  /\ is_Some (coin_data st !! sym)
  /\ required_margin cfg st <= portfolio_balance st.

(** The numbers [n] successive calls of [get_next_alert_number] return. *)
Fixpoint next_alert_numbers (n : nat) (a : alert_store) : list Z :=
  match n with
  | O => []
  | S n' =>
      let na := get_next_alert_number a in
      na.1 :: next_alert_numbers n' na.2
  end.

(** The coin a ticker is stored as. *)
Definition coin_of_ticker (s : string) (d : ticker) : coin :=
  {| symbol := s; price := tk_c d; change_24h := tk_P d; high_24h := tk_h d |}.

(** The ticker is about the symbol and passes the quote-asset filter. *)
Definition ticker_for (s : string) (d : ticker) : Prop :=
  tk_s d = Some s /\ ends_with "USDT" s = true.

(** A store with one hot coin, an open trade on a symbol the feed does not
    know and an expired cooldown on a third symbol. *)
Definition in_flight_state : state :=
  set_cooldowned_coins
    {[ "YUSDT" := {| cd_reason := MsgText "Manual Add"; end_time := 0 |} ]}
    (set_active_trades {[ "ZUSDT" := sample_trade ]} round_trip_state).

(** A paused store with one Live trade on ["XUSDT"], indicator at 60. *)
Definition paused_live_state : state :=
  set_active_trades
    {[ "XUSDT" := new_trade default_config 0 100 (VNum 96) "Live" 1 3 ]}
    paused_profit_state.

(** A store with a paper trade on ["XUSDT"] and a Live trade on ["LUSDT"],
    the price of ["XUSDT"] at 90 and its indicator at 60. *)
Definition mixed_state : state :=
  with_flags false true
    (set_active_trades
       {[ "XUSDT" := sample_trade;
          "LUSDT" := new_trade default_config 0 50 (VNum 97) "Live" 2 3 ]}
       paused_profit_state).

(** ** core/event_bus.py: delivery on threads *)

(** The symbol whose cooldown entry the handlers of an event write. *)
Definition cooldown_target (e : event) : option string :=
  match e with
  | ADD_TO_COOLDOWN s _ _ => Some s
  | REMOVE_FROM_COOLDOWN s => Some s
  | _ => None
  end.

(** The events whose subscribers leave trades, balance, statistics and
    switches alone: all but ['STATE_UPDATED_RSI'], which
    [handle_rsi_update] answers by entering trades. *)
Definition no_rsi_event (e : event) : Prop :=
  match e with
  | STATE_UPDATED_RSI _ _ => False
  | _ => True
  end.

(** [EventBus.process_events] starts every callback on a thread of its own,
    and each cooldown handler writes the store under the state lock: the
    handlers of the queued events take effect one at a time, in an order
    the scheduler chooses.  [deliver order st] is the store once the
    handlers [dispatch] covers have run in the order [order], a
    rearrangement of the queue. *)
Definition deliver (order : list event) (st : state) : state :=
  set_event_queue [] (foldl dispatch st order).

(** Three rows of the cooldown table read at clock 100: an expired one, one
    without expiry and a running one. *)
Definition sample_cooldown_rows : list cooldown_row :=
  [ {| row_symbol := "AUSDT"; row_exit_date := Some 50;
       row_reason := "Take Profit" |};
    {| row_symbol := "BUSDT"; row_exit_date := None;
       row_reason := "Manual Add" |};
    {| row_symbol := "CUSDT"; row_exit_date := Some 500;
       row_reason := "Discarded" |} ].

(** A tracker that saw ["XUSDT"] peak at 95 at clock 10. *)
Definition sample_tracker : gmap string peak_info :=
  {[ "XUSDT" := {| peak_price := 95; timestamp := 10 |} ]}.

(** [full_state] with the breaker tripped and execution switched off. *)
Definition locked_full_state : state := with_flags true false full_state.

(** * Properties *)

(** ** Comparisons *)

Lemma Qltb_lt a b : Qltb a b = true <-> a < b.
Proof.
  unfold Qltb. rewrite negb_true_iff, <- not_true_iff_false, Qle_bool_iff.
  split; [apply Qnot_le_lt | apply Qlt_not_le].
Qed.

Lemma Qltb_ge a b : Qltb a b = false <-> b <= a.
Proof. unfold Qltb. by rewrite negb_false_iff, Qle_bool_iff. Qed.

(** ** The circuit breaker *)

Lemma activate_when_paused cfg n st :
  global_pause_active (controls st) = true ->
  activate_global_pause cfg n st = st.
Proof. intros H. unfold activate_global_pause. by rewrite H. Qed.

Lemma lift_when_not_paused st :
  global_pause_active (controls st) = false -> lift_global_pause st = st.
Proof. intros H. unfold lift_global_pause. by rewrite H. Qed.

Lemma activate_pause_flag cfg n st :
  global_pause_active (controls (activate_global_pause cfg n st)) = true.
Proof.
  unfold activate_global_pause.
  destruct (global_pause_active (controls st)) eqn:E; simpl; done.
Qed.

Lemma lift_pause_flag st :
  global_pause_active (controls (lift_global_pause st)) = false.
Proof.
  unfold lift_global_pause.
  destruct (global_pause_active (controls st)) eqn:E; simpl; done.
Qed.

(** C9. [activate_global_pause] and [lift_global_pause] are idempotent: a
    second consecutive call returns the same store (flags, event queue and
    timers included).  A trip (a call made while the pause is inactive) sets
    the pause flag, clears [trade_execution_enabled] and publishes one
    pause-triggered event.  A lift clears [global_pause_active] and touches no
    other control flag, so [trade_execution_enabled] keeps its value; after a
    trip followed by a lift the pause is inactive and trade execution is still
    disabled. *)
Theorem C9_pause_idempotent_and_manual_rearm cfg (n m : nat) (st : state) :
  activate_global_pause cfg m (activate_global_pause cfg n st)
    = activate_global_pause cfg n st
  /\ lift_global_pause (lift_global_pause st) = lift_global_pause st
  /\ (global_pause_active (controls st) = false ->
        let st' := activate_global_pause cfg n st in
        global_pause_active (controls st') = true
        /\ trade_execution_enabled (controls st') = false
        /\ event_queue st' = event_queue st ++ [GLOBAL_PAUSE_TRIGGERED n])
  /\ (let st' := lift_global_pause st in
      global_pause_active (controls st') = false
      /\ trade_execution_enabled (controls st')
         = trade_execution_enabled (controls st)
      /\ websocket_enabled (controls st') = websocket_enabled (controls st)
      /\ rsi_enabled (controls st') = rsi_enabled (controls st)
      /\ trading_enabled (controls st') = trading_enabled (controls st)
      /\ email_enabled (controls st') = email_enabled (controls st)
      /\ monitor_all_coins (controls st') = monitor_all_coins (controls st)
      /\ active_trades st' = active_trades st
      /\ portfolio_balance st' = portfolio_balance st
      /\ global_stats st' = global_stats st
      /\ timers st' = timers st)
  /\ (global_pause_active (controls st) = false ->
        let st' := lift_global_pause (activate_global_pause cfg n st) in
        global_pause_active (controls st') = false
        /\ trade_execution_enabled (controls st') = false
        /\ event_queue st'
           = event_queue st ++ [GLOBAL_PAUSE_TRIGGERED n; GLOBAL_PAUSE_LIFTED]).
Proof.
  repeat split.
  - apply activate_when_paused, activate_pause_flag.
  - apply lift_when_not_paused, lift_pause_flag.
  - apply activate_pause_flag.
  - unfold activate_global_pause. by rewrite H.
  - unfold activate_global_pause. by rewrite H.
  - apply lift_pause_flag.
  - unfold lift_global_pause. by destruct (global_pause_active (controls st)).
  - unfold lift_global_pause. by destruct (global_pause_active (controls st)).
  - unfold lift_global_pause. by destruct (global_pause_active (controls st)).
  - unfold lift_global_pause. by destruct (global_pause_active (controls st)).
  - unfold lift_global_pause. by destruct (global_pause_active (controls st)).
  - unfold lift_global_pause. by destruct (global_pause_active (controls st)).
  - unfold lift_global_pause. by destruct (global_pause_active (controls st)).
  - unfold lift_global_pause. by destruct (global_pause_active (controls st)).
  - unfold lift_global_pause. by destruct (global_pause_active (controls st)).
  - unfold lift_global_pause. by destruct (global_pause_active (controls st)).
  - apply lift_pause_flag.
  - unfold lift_global_pause, activate_global_pause. by rewrite H.
  - unfold lift_global_pause, activate_global_pause. rewrite H. simpl.
    by rewrite <- app_assoc.
Qed.

(** The trip of C9 on the armed, funded store: the precondition holds there
    and trade execution ends up disabled. *)
Lemma C9_witness :
  global_pause_active (controls funded_state) = false
  /\ trade_execution_enabled (controls funded_state) = true
  /\ trade_execution_enabled
       (controls (lift_global_pause
               (activate_global_pause default_config 1 funded_state))) = false.
Proof.
  split; [reflexivity | split; [reflexivity |]].
  apply (C9_pause_idempotent_and_manual_rearm default_config 1 1 funded_state).
  reflexivity.
Defined.

(** ** Closing a trade *)

Lemma realize_stats_win pnl g :
  0 <= pnl ->
  realize_stats pnl g
  = {| global_profit_usdt := global_profit_usdt g + pnl;
       global_loss_usdt := global_loss_usdt g;
       profitable_trades := profitable_trades g + 1;
       loss_trades := loss_trades g |}.
Proof.
  intros H. unfold realize_stats.
  apply Qle_bool_iff in H. by rewrite H.
Qed.

Lemma realize_stats_loss pnl g :
  pnl < 0 ->
  realize_stats pnl g
  = {| global_profit_usdt := global_profit_usdt g;
       global_loss_usdt := global_loss_usdt g + Qabs pnl;
       profitable_trades := profitable_trades g;
       loss_trades := loss_trades g + 1 |}.
Proof.
  intros H. unfold realize_stats.
  destruct (Qle_bool 0 pnl) eqn:E; [| done].
  apply Qle_bool_iff in E. lra.
Qed.

Lemma close_trade_stats cfg now sym reason cp er st t :
  active_trades st !! sym = Some t ->
  is_live (source t) = false ->
  global_stats (close_trade cfg now sym reason cp er st)
  = realize_stats (pnl_usdt t) (global_stats st).
Proof.
  intros Ht Hl. unfold close_trade. rewrite Ht, Hl. reflexivity.
Qed.

Lemma close_trade_balance cfg now sym reason cp er st t :
  active_trades st !! sym = Some t ->
  is_live (source t) = false ->
  portfolio_balance (close_trade cfg now sym reason cp er st)
  = portfolio_balance st + pnl_usdt t.
Proof.
  intros Ht Hl. unfold close_trade. rewrite Ht, Hl. reflexivity.
Qed.

(** C10. Closing a non-Live trade whose running [pnl_usdt] is exactly 0
    counts a win: the profitable-trade counter goes up by one, the cumulative
    profit gets [+ 0], and neither loss figure moves.  The loss counter and
    the cumulative loss move exactly when [pnl_usdt] is strictly negative. *)
Theorem C10_zero_pnl_counts_as_win cfg now sym reason cp er st t :
  active_trades st !! sym = Some t ->
  is_live (source t) = false ->
  let g := global_stats st in
  let g' := global_stats (close_trade cfg now sym reason cp er st) in
  (pnl_usdt t == 0 ->
     profitable_trades g' = (profitable_trades g + 1)%nat
     /\ global_profit_usdt g' = global_profit_usdt g + pnl_usdt t
     /\ global_profit_usdt g' == global_profit_usdt g
     /\ loss_trades g' = loss_trades g
     /\ global_loss_usdt g' = global_loss_usdt g)
  /\ (0 <= pnl_usdt t ->
     profitable_trades g' = (profitable_trades g + 1)%nat
     /\ loss_trades g' = loss_trades g
     /\ global_loss_usdt g' = global_loss_usdt g)
  /\ (pnl_usdt t < 0 ->
     loss_trades g' = (loss_trades g + 1)%nat
     /\ global_loss_usdt g' = global_loss_usdt g + Qabs (pnl_usdt t)
     /\ profitable_trades g' = profitable_trades g
     /\ global_profit_usdt g' = global_profit_usdt g).
Proof.
  intros Ht Hl g g'. subst g g'.
  rewrite (close_trade_stats _ _ _ _ _ _ _ _ Ht Hl).
  split; [| split].
  - intros H0. rewrite realize_stats_win by lra. simpl.
    split_and!; try done. rewrite H0. lra.
  - intros H0. rewrite realize_stats_win by done. done.
  - intros H0. rewrite realize_stats_loss by done. done.
Qed.

(** C10 on [flat_trade_state]: one more win, no loss. *)
Lemma C10_witness :
  let st' := close_trade default_config 5 "XUSDT" (MsgText "Manual Close")
                         100 (VNum 0) flat_trade_state in
  profitable_trades (global_stats st') = 1%nat
  /\ loss_trades (global_stats st') = 0%nat.
Proof.
  pose proof (C10_zero_pnl_counts_as_win default_config 5 "XUSDT"
                (MsgText "Manual Close") 100 (VNum 0) flat_trade_state
                sample_trade eq_refl eq_refl) as [H _].
  specialize (H (Qeq_refl _)).
  destruct H as (Hw & _ & _ & Hl & _).
  split; [exact Hw | exact Hl].
Defined.

(** ** The running pnl and its watermarks *)

(** C8, as stated, fails: with a missing indicator value the call overwrites
    the running pnl but leaves the pnl watermark at 0, not at
    [min 0 (-5) = -5]. *)
Lemma C8_counterexample :
  exists t',
    active_trades C8_state !! "XUSDT" = Some t'
    /\ pnl_percent t' = -5
    /\ max_neg_pnl_pct sample_trade = 0
    /\ max_neg_pnl_pct t' = 0
    /\ ~ max_neg_pnl_pct t' == Qmin (max_neg_pnl_pct sample_trade) (-5).
Proof.
  eexists. split; [vm_compute; reflexivity |].
  split; [reflexivity |]. split; [reflexivity |]. split; [reflexivity |].
  vm_compute. discriminate.
Qed.

Lemma Qltb_min (a b : Q) : (if Qltb a b then a else b) = Qmin b a.
Proof.
  unfold Qmin, GenericMinMax.gmin.
  destruct (Qltb a b) eqn:E.
  - apply Qltb_lt in E. apply Qgt_alt in E. by rewrite E.
  - apply Qltb_ge in E. destruct (b ?= a) eqn:C; done.
Qed.

(** C8, amended.  [update_trade_pnl] on an active trade overwrites
    [pnl_percent] and [pnl_usdt] with the supplied values.  When the
    indicator value is a number, each
    watermark becomes the minimum of its previous value and the supplied one;
    when it is missing or not a number, the three watermarks are unchanged.
    In both cases no watermark increases. *)
Theorem C8_watermarks_running_minimum sym pct usdt (rsi : option pyval) st t :
  active_trades st !! sym = Some t ->
  exists t',
    active_trades (update_trade_pnl sym pct usdt rsi st) !! sym = Some t'
    /\ pnl_percent t' = pct /\ pnl_usdt t' = usdt
    /\ match rsi with
       | Some (VNum r) =>
           max_neg_pnl_pct t' = Qmin (max_neg_pnl_pct t) pct
           /\ max_neg_pnl_usdt t' = Qmin (max_neg_pnl_usdt t) usdt
           /\ max_neg_rsi t' = Qmin (max_neg_rsi t) r
       | _ =>
           max_neg_pnl_pct t' = max_neg_pnl_pct t
           /\ max_neg_pnl_usdt t' = max_neg_pnl_usdt t
           /\ max_neg_rsi t' = max_neg_rsi t
       end
    /\ max_neg_pnl_pct t' <= max_neg_pnl_pct t
    /\ max_neg_pnl_usdt t' <= max_neg_pnl_usdt t
    /\ max_neg_rsi t' <= max_neg_rsi t.
Proof.
  intros Ht. exists (with_pnl pct usdt rsi t).
  split.
  { unfold update_trade_pnl. rewrite Ht. simpl. apply lookup_insert_eq. }
  destruct rsi as [[r | s] |]; simpl; rewrite ?Qltb_min; split_and!;
    try reflexivity; try apply Q.le_min_l; apply Qle_refl.
Qed.

(** C8 on [flat_trade_state] with a numeric indicator value. *)
Lemma C8_witness :
  exists t',
    active_trades
      (update_trade_pnl "XUSDT" (-5) (-1) (Some (VNum 70)) flat_trade_state)
      !! "XUSDT" = Some t'
    /\ max_neg_pnl_pct t' == -5.
Proof.
  destruct (C8_watermarks_running_minimum "XUSDT" (-5) (-1) (Some (VNum 70))
              flat_trade_state sample_trade eq_refl)
    as (t' & Ht' & _ & _ & (Hm & _) & _).
  exists t'. split; [exact Ht' |]. rewrite Hm. reflexivity.
Defined.

(** ** Opening a trade *)

Section OpenTrade.

Variable cfg : config.
Variables (now : Q) (sym : string) (price : Q) (rsi_value : pyval)
          (change : option pyval) (src : string) (alert_number : Z)
          (log_msg : option message) (amount : option Q).

Lemma open_trade_duplicate st t :
  active_trades st !! sym = Some t ->
  open_trade cfg now sym price rsi_value change src alert_number log_msg
             amount st = (false, st).
Proof. intros H. unfold open_trade. by rewrite H. Qed.

Lemma open_trade_insufficient st :
  active_trades st !! sym = None ->
  insufficient_funds cfg src amount st ->
  open_trade cfg now sym price rsi_value change src alert_number log_msg
             amount st
  = (false, add_alert_log now ("SKIP: " +:+ sym)
              (MsgText "Insufficient Funds") st).
Proof.
  intros H [Hl Hb]. unfold open_trade. rewrite H, Hl.
  apply Qltb_lt in Hb. by rewrite Hb.
Qed.

Lemma open_trade_true st st' :
  open_trade cfg now sym price rsi_value change src alert_number log_msg
             amount st = (true, st') ->
  active_trades st !! sym = None
  /\ ~ insufficient_funds cfg src amount st
  /\ active_trades st'
     = <[sym := new_trade cfg now price rsi_value src alert_number
                  (resolve_trade_amount cfg amount st)]> (active_trades st)
  /\ last_trade_execution_time st' = now
  /\ portfolio_balance st' = portfolio_balance st
  /\ controls st' = controls st
  /\ coin_data st' = coin_data st
  /\ rsi_data st' = rsi_data st
  /\ event_queue st'
     = event_queue st
       ++ [TRADE_OPENED (new_trade cfg now price rsi_value src alert_number
                           (resolve_trade_amount cfg amount st))].
Proof.
  unfold open_trade, insufficient_funds.
  destruct (active_trades st !! sym) eqn:Ha; [intros [=] |].
  destruct (is_live src) eqn:Hl; simpl.
  - intros [= <-]. split_and!; try done. intros [? _]. done.
  - destruct (Qltb (portfolio_balance st) _) eqn:Hb; [intros [=] |].
    intros [= <-]. split_and!; try done.
    intros [_ Hlt]. apply Qltb_lt in Hlt. congruence.
Qed.

Lemma open_trade_false st st' :
  open_trade cfg now sym price rsi_value change src alert_number log_msg
             amount st = (false, st') ->
  is_Some (active_trades st !! sym)
  \/ (active_trades st !! sym = None /\ insufficient_funds cfg src amount st).
Proof.
  unfold open_trade, insufficient_funds.
  destruct (active_trades st !! sym) eqn:Ha; [eauto |].
  destruct (is_live src) eqn:Hl; simpl; [intros [=] |].
  destruct (Qltb (portfolio_balance st) _) eqn:Hb; [| intros [=]].
  intros _. right. split_and!; try done. by apply Qltb_lt.
Qed.

End OpenTrade.

(** ** The entry gate *)

(** C4, as stated, fails at an elapsed time of exactly 10 seconds: every
    condition of the claim holds (execution armed, no pause, no open trade,
    [10 >= 10]) and [can_open_new_trade] answers [False]. *)
Lemma C4_counterexample :
  trade_execution_enabled (controls funded_state) = true
  /\ global_pause_active (controls funded_state) = false
  /\ (size (active_trades funded_state) < MAX_OPEN_TRADES default_config)%nat
  /\ 10 <= 10 - last_trade_execution_time funded_state
  /\ can_open_new_trade default_config 10 funded_state = false.
Proof.
  split_and!; try reflexivity.
  - vm_compute. lia.
  - vm_compute. discriminate.
Qed.

Lemma can_open_new_trade_iff cfg now st :
  can_open_new_trade cfg now st = true
  <-> trade_execution_enabled (controls st) = true
      /\ global_pause_active (controls st) = false
      /\ (size (active_trades st) < MAX_OPEN_TRADES cfg)%nat
      /\ 10 < now - last_trade_execution_time st.
Proof.
  unfold can_open_new_trade.
  rewrite !andb_true_iff, negb_true_iff, bool_decide_eq_true, Qltb_lt.
  tauto.
Qed.

(** C4, amended.  [can_open_new_trade] is [True] exactly when trade execution
    is enabled, the global pause is inactive, fewer than [MAX_OPEN_TRADES]
    trades are open and strictly more than 10 seconds have passed since the
    last successful open.  After a successful [open_trade] at time [now] it is
    [False] at [now] and at every reading up to [now + 10]; at a reading more
    than 10 seconds later it is [True] when nothing else blocks. *)
Theorem C4_can_open_new_trade_gate cfg now sym price rsi_value change src
    alert_number log_msg amount st st' :
  (forall tau s,
     can_open_new_trade cfg tau s = true
     <-> trade_execution_enabled (controls s) = true
         /\ global_pause_active (controls s) = false
         /\ (size (active_trades s) < MAX_OPEN_TRADES cfg)%nat
         /\ 10 < tau - last_trade_execution_time s)
  /\ (open_trade cfg now sym price rsi_value change src alert_number log_msg
                 amount st = (true, st') ->
      can_open_new_trade cfg now st' = false
      /\ (forall tau, tau - now <= 10 -> can_open_new_trade cfg tau st' = false)
      /\ (forall tau,
            10 < tau - now ->
            trade_execution_enabled (controls st') = true ->
            global_pause_active (controls st') = false ->
            (size (active_trades st') < MAX_OPEN_TRADES cfg)%nat ->
            can_open_new_trade cfg tau st' = true)).
Proof.
  split; [intros; apply can_open_new_trade_iff |].
  intros Ho. apply open_trade_true in Ho as (_ & _ & _ & Hlast & _).
  assert (Hno : forall tau, tau - now <= 10 ->
                            can_open_new_trade cfg tau st' = false).
  { intros tau Htau. apply not_true_iff_false. rewrite can_open_new_trade_iff.
    rewrite Hlast. intros (_ & _ & _ & H). lra. }
  split_and!.
  - apply Hno. lra.
  - exact Hno.
  - intros tau Htau He Hp Hs. apply can_open_new_trade_iff.
    rewrite Hlast. done.
Qed.

(** C4 on the funded store: a trade opened at time 50 blocks the gate at 50
    and at 60, and the gate reopens at 61. *)
Lemma C4_witness :
  exists st',
    open_trade default_config 50 "XUSDT" 100 (VNum 96) None "Bot" 1 None None
               funded_state = (true, st')
    /\ can_open_new_trade default_config 50 st' = false
    /\ can_open_new_trade default_config 60 st' = false
    /\ can_open_new_trade default_config 61 st' = true.
Proof.
  eexists. split; [vm_compute; reflexivity |].
  match goal with
  | |- can_open_new_trade _ _ ?s = _ /\ _ =>
      destruct (C4_can_open_new_trade_gate default_config 50 "XUSDT" 100
                  (VNum 96) None "Bot" 1 None None funded_state s)
        as [_ H]
  end.
  destruct (H ltac:(vm_compute; reflexivity)) as (H0 & H1 & H2).
  split; [exact H0 |]. split.
  - apply H1. vm_compute. discriminate.
  - apply H2; vm_compute; try reflexivity. lia.
Defined.

(** ** The bound on open trades *)

(** C1, as stated, fails: [open_trade] does not look at the number of open
    trades.  Entered with ten trades open and [MAX_OPEN_TRADES = 10], it
    succeeds on a fresh symbol and leaves eleven. *)
Lemma C1_counterexample :
  exists st',
    size (active_trades full_state) = 10%nat
    /\ MAX_OPEN_TRADES default_config = 10%nat
    /\ open_trade default_config 50 "XUSDT" 100 (VNum 96) None "Manual" 11
                  None None full_state = (true, st')
    /\ size (active_trades st') = 11%nat
    /\ ~ (size (active_trades st') <= MAX_OPEN_TRADES default_config)%nat.
Proof.
  eexists. split; [vm_compute; reflexivity |].
  split; [reflexivity |].
  split; [vm_compute; reflexivity |].
  split; [vm_compute; reflexivity |].
  vm_compute. lia.
Qed.

(** C1, amended.  A successful [open_trade] adds exactly one active trade.
    Hence the count afterwards is at most [MAX_OPEN_TRADES] whenever fewer
    than [MAX_OPEN_TRADES] trades were open on entry, which is the case
    whenever [can_open_new_trade] answered [True] in the state [open_trade]
    was entered in.  The bound is the gate's, not [open_trade]'s. *)
Theorem C1_open_trade_count cfg now sym price rsi_value change src
    alert_number log_msg amount st st' :
  open_trade cfg now sym price rsi_value change src alert_number log_msg
             amount st = (true, st') ->
  size (active_trades st') = S (size (active_trades st))
  /\ ((size (active_trades st) < MAX_OPEN_TRADES cfg)%nat ->
      (size (active_trades st') <= MAX_OPEN_TRADES cfg)%nat)
  /\ (forall tau,
        can_open_new_trade cfg tau st = true ->
        (size (active_trades st') <= MAX_OPEN_TRADES cfg)%nat).
Proof.
  intros Ho. apply open_trade_true in Ho as (Hnone & _ & Hact & _).
  assert (Hsz : size (active_trades st') = S (size (active_trades st))).
  { rewrite Hact. by apply map_size_insert_None. }
  split_and!; [done | lia |].
  intros tau Hc. apply can_open_new_trade_iff in Hc as (_ & _ & Hlt & _). lia.
Qed.

(** C1 on the funded store with no open trade: one trade afterwards. *)
Lemma C1_witness :
  exists st',
    open_trade default_config 50 "XUSDT" 100 (VNum 96) None "Bot" 1 None None
               funded_state = (true, st')
    /\ size (active_trades st') = 1%nat
    /\ (size (active_trades st') <= MAX_OPEN_TRADES default_config)%nat.
Proof.
  eexists. split; [vm_compute; reflexivity |].
  match goal with
  | |- size (active_trades ?s) = _ /\ _ =>
      destruct (C1_open_trade_count default_config 50 "XUSDT" 100 (VNum 96)
                  None "Bot" 1 None None funded_state s
                  ltac:(vm_compute; reflexivity)) as (H1 & H2 & _)
  end.
  split; [exact H1 |]. apply H2. vm_compute. lia.
Defined.

(** ** Refused opens *)

(** C3, as stated, fails in the insufficient-funds case: [open_trade] returns
    [False] but first writes a ["SKIP: ..."] line to the alert log, so the
    store is not left unchanged. *)
Lemma C3_counterexample :
  exists st',
    active_trades initial_state !! "XUSDT" = None
    /\ open_trade default_config 50 "XUSDT" 100 (VNum 96) None "Bot" 1
                  None None initial_state = (false, st')
    /\ alert_log initial_state = []
    /\ alert_log st'
       = [{| log_time := 50; log_symbol := "SKIP: XUSDT";
             log_rsi := MsgText "Insufficient Funds" |}]
    /\ st' <> initial_state.
Proof.
  eexists. split; [reflexivity |].
  split; [vm_compute; reflexivity |].
  split; [reflexivity |].
  split; [vm_compute; reflexivity |].
  intros H. apply (f_equal alert_log) in H. vm_compute in H. discriminate.
Qed.

(** C3, amended.  [open_trade] returns [False] in exactly two cases: the
    symbol is already an active trade, or the source is not Live and the
    balance is below the resolved trade amount.  In the first case the whole
    store is unchanged.  In the second case a ["SKIP: <symbol>"] line with the
    text ["Insufficient Funds"] is put at the head of the alert log (cut to 50
    lines) and everything else (active trades, balance, statistics, last-open
    time, control flags, event queue) is unchanged. *)
Theorem C3_open_trade_refusals cfg now sym price rsi_value change src
    alert_number log_msg amount st :
  let r := open_trade cfg now sym price rsi_value change src alert_number
                      log_msg amount st in
  (r.1 = false
     <-> is_Some (active_trades st !! sym)
         \/ insufficient_funds cfg src amount st)
  /\ (is_Some (active_trades st !! sym) -> r = (false, st))
  /\ (active_trades st !! sym = None ->
      insufficient_funds cfg src amount st ->
      r.1 = false
      /\ alert_log r.2
         = take 50 ({| log_time := now; log_symbol := "SKIP: " +:+ sym;
                       log_rsi := MsgText "Insufficient Funds" |}
                    :: alert_log st)
      /\ active_trades r.2 = active_trades st
      /\ portfolio_balance r.2 = portfolio_balance st
      /\ global_stats r.2 = global_stats st
      /\ last_trade_execution_time r.2 = last_trade_execution_time st
      /\ controls r.2 = controls st
      /\ cooldowned_coins r.2 = cooldowned_coins st
      /\ event_queue r.2 = event_queue st).
Proof.
  intros r. subst r. split_and!.
  - split.
    + destruct (open_trade _ _ _ _ _ _ _ _ _ _ _) as [[] st'] eqn:Ho;
        [intros [=] |].
      intros _. apply open_trade_false in Ho as [? | [_ ?]]; auto.
    + intros [[t Ht] | Hi].
      * by erewrite open_trade_duplicate.
      * destruct (active_trades st !! sym) eqn:Ha.
        -- by erewrite open_trade_duplicate.
        -- by rewrite open_trade_insufficient.
  - intros [t Ht]. by erewrite open_trade_duplicate.
  - intros Ha Hi. rewrite open_trade_insufficient by done. done.
Qed.

(** C3 on the empty, unfunded store: the open is refused for lack of funds
    and only the alert log grows. *)
Lemma C3_witness :
  let r := open_trade default_config 50 "XUSDT" 100 (VNum 96) None "Bot" 1
                      None None initial_state in
  r.1 = false
  /\ active_trades r.2 = active_trades initial_state
  /\ event_queue r.2 = event_queue initial_state.
Proof.
  destruct (C3_open_trade_refusals default_config 50 "XUSDT" 100 (VNum 96)
              None "Bot" 1 None None initial_state) as (_ & _ & H).
  assert (Hi : insufficient_funds default_config "Bot" None initial_state).
  { split; [reflexivity | vm_compute; reflexivity]. }
  destruct (H eq_refl Hi) as (H1 & _ & H3 & _ & _ & _ & _ & _ & H9).
  split; [exact H1 |]. split; [exact H3 | exact H9].
Defined.

(** ** The breaker scan *)

(** The read inside [check_for_global_pause] fails whatever the table
    holds, so the method returns the store as it found it. *)
Lemma check_for_global_pause_skips cfg now table st :
  check_for_global_pause cfg now table st = st.
Proof. reflexivity. Qed.

Lemma three_losses_recent : Forall (recent_loss 100000) three_losses.
Proof.
  repeat constructor; eexists _, _;
    (split; [reflexivity |]); (split; [reflexivity |]);
    (split; reflexivity).
Qed.

(** C2.  [check_for_global_pause], as written, never trips the breaker.
    With a loss limit of 1 and a trades table of three losing trades inside
    the trailing 24 hours, on a store whose breaker is not tripped and whose
    trade execution is enabled, the method returns the store as it found
    it: [global_pause_active] stays cleared, [trade_execution_enabled] stays
    set and no event is published.  The same holds for every configuration,
    clock, table and store: the read [self._read_db_to_df()] lacks the
    required [query], and the [except Exception] of the method swallows the
    [TypeError]. *)
Theorem C2_check_for_global_pause_never_trips :
  LOSS_TRADES_LIMIT_24H default_config = 1%nat
  /\ Forall (recent_loss 100000) three_losses
  /\ global_pause_active (controls funded_state) = false
  /\ trade_execution_enabled (controls funded_state) = true
  /\ (let st' := check_for_global_pause default_config 100000 three_losses
                                        funded_state in
      global_pause_active (controls st') = false
      /\ trade_execution_enabled (controls st') = true
      /\ event_queue st' = [])
  /\ forall cfg now table st, check_for_global_pause cfg now table st = st.
Proof.
  split; [reflexivity |].
  split; [exact three_losses_recent |].
  split; [reflexivity |].
  split; [reflexivity |].
  split; [by split_and! |].
  apply check_for_global_pause_skips.
Qed.

(** ** The paper monitor *)

Lemma update_trade_pnl_frame sym pct usdt rsi st :
  let st' := update_trade_pnl sym pct usdt rsi st in
  dom (active_trades st') = dom (active_trades st)
  /\ size (active_trades st') = size (active_trades st)
  /\ event_queue st' = event_queue st
  /\ portfolio_balance st' = portfolio_balance st
  /\ global_stats st' = global_stats st
  /\ alert_log st' = alert_log st
  /\ controls st' = controls st
  /\ cooldowned_coins st' = cooldowned_coins st
  /\ coin_data st' = coin_data st.
Proof.
  unfold update_trade_pnl.
  destruct (active_trades st !! sym) eqn:Ht; simpl; [| done].
  split_and!; try done.
  - by apply dom_insert_lookup_L.
  - by apply map_size_insert_Some.
Qed.

Lemma Qeq_bool_false (a b : Q) : Qeq_bool a b = false <-> ~ a == b.
Proof.
  rewrite <- not_true_iff_false. by rewrite Qeq_bool_iff.
Qed.

(** What a tick computes and stores when it has a price and the pause is on. *)
Lemma monitor_paper_trade_paused cfg now sym t st c :
  global_pause_active (controls st) = true ->
  coin_data st !! sym = Some c ->
  ~ price c == 0 ->
  ~ entry_price t == 0 ->
  _monitor_paper_trade cfg now sym t st
  = Some (update_trade_pnl sym (paper_pnl_percent t (price c))
            (paper_pnl_usdt t (price c)) (rsi_data st !! sym) st).
Proof.
  intros Hp Hc Hpr He. unfold _monitor_paper_trade. rewrite Hc. simpl.
  apply Qeq_bool_false in Hpr, He. rewrite Hpr, He.
  destruct (update_trade_pnl_frame sym (paper_pnl_percent t (price c))
              (paper_pnl_usdt t (price c)) (rsi_data st !! sym) st)
    as (_ & _ & _ & _ & _ & _ & Hctl & _).
  rewrite Hctl, Hp. reflexivity.
Qed.

(** C7. While [global_pause_active] is set, a paper-monitoring tick closes
    nothing, whatever the pnl and the indicator are: the set of active trades
    is the same after the tick, no event is published (so no trade-closed and
    no cooldown event), and balance, statistics and alert log are untouched.
    A tick that has a price for the symbol (and a trade with a non-zero entry
    price) still writes the recomputed pnl through [update_trade_pnl]. *)
Theorem C7_no_exit_while_paused cfg now sym t st :
  global_pause_active (controls st) = true ->
  (forall st',
     _monitor_paper_trade cfg now sym t st = Some st' ->
     dom (active_trades st') = dom (active_trades st)
     /\ event_queue st' = event_queue st
     /\ portfolio_balance st' = portfolio_balance st
     /\ global_stats st' = global_stats st
     /\ alert_log st' = alert_log st
     /\ global_pause_active (controls st') = true)
  /\ (forall c,
        coin_data st !! sym = Some c ->
        ~ price c == 0 ->
        ~ entry_price t == 0 ->
        _monitor_paper_trade cfg now sym t st
        = Some (update_trade_pnl sym (paper_pnl_percent t (price c))
                  (paper_pnl_usdt t (price c)) (rsi_data st !! sym) st)).
Proof.
  intros Hp. split.
  - intros st'. unfold _monitor_paper_trade.
    destruct (coin_data st !! sym) as [c |] eqn:Hc; simpl;
      [| intros [= <-]; done].
    destruct (Qeq_bool (price c) 0); [intros [= <-]; done |].
    destruct (Qeq_bool (entry_price t) 0); [intros [=] |].
    destruct (update_trade_pnl_frame sym (paper_pnl_percent t (price c))
                (paper_pnl_usdt t (price c)) (rsi_data st !! sym) st)
      as (Hd & _ & He & Hb & Hg & Ha & Hctl & _).
    rewrite Hctl, Hp. simpl. intros [= <-].
    rewrite Hctl. done.
  - intros c Hc Hpr He. by apply monitor_paper_trade_paused.
Qed.

(** C7 on [paused_profit_state]: the take-profit condition and the
    signal-reversal condition both hold, the tick keeps the trade open and
    records a pnl of 20 percent. *)
Lemma C7_witness :
  Qle_bool (TAKE_PROFIT_PERCENT default_config)
           (paper_pnl_percent sample_trade 90) = true
  /\ Qle_bool 60 (TRADE_CLOSE_RSI default_config)
     && Qltb 0 (paper_pnl_usdt sample_trade 90) = true
  /\ exists st' t',
       _monitor_paper_trade default_config 7 "XUSDT" sample_trade
                           paused_profit_state = Some st'
       /\ active_trades st' !! "XUSDT" = Some t'
       /\ pnl_percent t' == 20
       /\ event_queue st' = [].
Proof.
  split; [reflexivity |]. split; [reflexivity |].
  destruct (C7_no_exit_while_paused default_config 7 "XUSDT" sample_trade
              paused_profit_state eq_refl) as [Hframe Hupd].
  specialize (Hupd {| symbol := "XUSDT"; price := 90; change_24h := 20;
                      high_24h := 120 |} eq_refl).
  assert (H1 : ~ 90 == 0) by (vm_compute; discriminate).
  assert (H2 : ~ entry_price sample_trade == 0) by (vm_compute; discriminate).
  specialize (Hupd H1 H2).
  eexists _, _. split; [exact Hupd |].
  split; [vm_compute; reflexivity |].
  split; [vm_compute; reflexivity |].
  destruct (Hframe _ Hupd) as (_ & He & _). exact He.
Defined.

(** ** The paper round trip *)

Lemma with_pnl_fields pct usdt rsi t :
  pnl_percent (with_pnl pct usdt rsi t) = pct
  /\ pnl_usdt (with_pnl pct usdt rsi t) = usdt
  /\ source (with_pnl pct usdt rsi t) = source t.
Proof. by destruct rsi as [[r | s] |]. Qed.

Lemma close_trade_absent cfg now sym reason cp er st :
  active_trades st !! sym = None ->
  close_trade cfg now sym reason cp er st = st.
Proof. intros H. unfold close_trade. by rewrite H. Qed.






(** ** Sorting in descending order *)

Section SortedDescFacts.

Context {A : Type} (key : A -> Q).

Lemma insert_desc_perm x l : insert_desc key x l ≡ₚ x :: l.
Proof.
  induction l as [| y l IH]; simpl; [done |].
  destruct (Qle_bool (key y) (key x)); [done |].
  rewrite IH. apply Permutation_swap.
Qed.

Lemma sorted_desc_perm l : sorted_desc key l ≡ₚ l.
Proof.
  induction l as [| x l IH]; simpl; [done |].
  by rewrite insert_desc_perm, IH.
Qed.

Lemma sorted_desc_length l : length (sorted_desc key l) = length l.
Proof. by rewrite sorted_desc_perm. Qed.

Lemma desc_trans a b c : desc key a b -> desc key b c -> desc key a c.
Proof. unfold desc. intros Hab Hbc. by apply Qle_trans with (key b). Qed.

Lemma insert_desc_sorted x l :
  StronglySorted (desc key) l ->
  StronglySorted (desc key) (insert_desc key x l).
Proof.
  induction 1 as [| y l Hs IH Hall]; simpl.
  - repeat constructor.
  - destruct (Qle_bool (key y) (key x)) eqn:E.
    + apply Qle_bool_iff in E.
      constructor; [by constructor |].
      constructor; [exact E |].
      eapply Forall_impl; [exact Hall |].
      intros z Hz. by apply desc_trans with y.
    + constructor; [exact IH |].
      rewrite insert_desc_perm. constructor; [| exact Hall].
      unfold desc. apply Qlt_le_weak, Qltb_lt. unfold Qltb. by rewrite E.
Qed.

Lemma sorted_desc_sorted l : StronglySorted (desc key) (sorted_desc key l).
Proof.
  induction l as [| x l IH]; simpl; [constructor |].
  by apply insert_desc_sorted.
Qed.

(** In a list in descending order an earlier item has the larger key. *)
Lemma desc_lookup l i j a b :
  StronglySorted (desc key) l ->
  (i <= j)%nat -> l !! i = Some a -> l !! j = Some b -> key b <= key a.
Proof.
  intros Hs. revert i j. induction Hs as [| x l Hs IH Hall]; intros i j Hij.
  - by rewrite lookup_nil.
  - destruct i as [| i], j as [| j]; simpl; try lia.
    + intros [= <-] [= <-]. apply Qle_refl.
    + intros [= <-] Hb. rewrite Forall_forall in Hall.
      apply Hall. by eapply list_elem_of_lookup_2.
    + apply IH. lia.
Qed.

End SortedDescFacts.

Lemma filter_all {A} (P : A -> Prop) `{!forall x, Decision (P x)} (l : list A) :
  Forall P l -> filter P l = l.
Proof.
  induction 1 as [| x l Hx _ IH]; [done |].
  by rewrite filter_cons_True, IH.
Qed.

Lemma filter_none {A} (P : A -> Prop) `{!forall x, Decision (P x)}
    (l : list A) :
  Forall (fun x => ~ P x) l -> filter P l = [].
Proof.
  induction 1 as [| x l Hx _ IH]; [done |].
  by rewrite filter_cons_False, IH.
Qed.

(** ** The watch list *)

Lemma initial_state_wf : coin_data_wf initial_state.
Proof. apply map_Forall_empty. Qed.

Lemma update_market_data_wf data_list st :
  coin_data_wf st -> coin_data_wf (update_market_data data_list st).
Proof.
  unfold coin_data_wf, update_market_data. simpl.
  generalize (coin_data st). induction data_list as [| d l IH]; intros m Hm.
  - done.
  - simpl. apply IH.
    destruct (tk_s d) as [s |]; [| done].
    destruct (ends_with "USDT" s); [| done].
    by apply map_Forall_insert_2.
Qed.

Section SymbolsToMonitor.

Variable cfg : config.
Variable st : state.

Hypothesis Hwf : coin_data_wf st.
Hypothesis Hbase :
  map_Forall (fun _ c => RSI_HOT_COIN_THRESHOLD cfg <= change_24h c)
             (coin_data st).
Hypothesis Hmany : (MAX_COINS_TO_MONITOR < size (coin_data st))%nat.
Hypothesis Hno_trades : active_trades st = ∅.
Hypothesis Hno_cooldowns : cooldowned_coins st = ∅.

Lemma all_coins_sorted_elem c :
  c ∈ all_coins_sorted st <-> coin_data st !! symbol c = Some c.
Proof using Hwf.
  unfold all_coins_sorted. rewrite sorted_desc_perm, list_elem_of_fmap. split.
  - intros [[k c'] [-> Hin]]. apply elem_of_map_to_list in Hin. simpl.
    by rewrite (Hwf k c' Hin).
  - intros H. exists (symbol c, c). split; [done |].
    by apply elem_of_map_to_list.
Qed.

Lemma all_coins_sorted_length :
  length (all_coins_sorted st) = size (coin_data st).
Proof.
  unfold all_coins_sorted.
  by rewrite sorted_desc_length, length_fmap, length_map_to_list.
Qed.

Lemma all_coins_sorted_desc :
  StronglySorted (desc change_24h) (all_coins_sorted st).
Proof. apply sorted_desc_sorted. Qed.

Lemma all_coins_sorted_symbols_NoDup : NoDup (symbol <$> all_coins_sorted st).
Proof using Hwf.
  unfold all_coins_sorted. rewrite sorted_desc_perm.
  rewrite <- list_fmap_compose.
  replace (symbol ∘ snd <$> map_to_list (coin_data st))
    with (fst <$> map_to_list (coin_data st)).
  { apply NoDup_fst_map_to_list. }
  apply Forall_fmap_ext, Forall_forall. intros [k c] Hin. simpl.
  apply elem_of_map_to_list in Hin. symmetry. by apply Hwf.
Qed.

Lemma hot_coins_all : hot_coins_above_base cfg st = all_coins_sorted st.
Proof using Hwf Hbase.
  apply filter_all, Forall_forall. intros c Hc.
  apply all_coins_sorted_elem in Hc. by eapply Hbase.
Qed.

(** The effective threshold is the change of the coin ranked 100th. *)
Lemma dynamic_threshold_rank :
  exists c,
    all_coins_sorted st !! (MAX_COINS_TO_MONITOR - 1)%nat = Some c
    /\ dynamic_threshold cfg st = change_24h c.
Proof using Hwf Hbase Hmany.
  unfold dynamic_threshold. rewrite hot_coins_all, all_coins_sorted_length.
  rewrite bool_decide_eq_true_2 by done.
  destruct (lookup_lt_is_Some_2 (all_coins_sorted st)
              (MAX_COINS_TO_MONITOR - 1)) as [c Hc].
  { rewrite all_coins_sorted_length. unfold MAX_COINS_TO_MONITOR in *. lia. }
  exists c. by rewrite Hc.
Qed.

Lemma final_hot_coins_NoDup : NoDup (final_hot_coins cfg st).
Proof using Hwf Hbase.
  unfold final_hot_coins. rewrite hot_coins_all.
  eapply sublist_NoDup; [apply all_coins_sorted_symbols_NoDup |].
  apply fmap_sublist, sublist_filter.
Qed.

Lemma get_symbols_to_monitor_perm :
  get_symbols_to_monitor cfg st ≡ₚ final_hot_coins cfg st.
Proof using Hwf Hbase Hno_trades Hno_cooldowns.
  unfold get_symbols_to_monitor, symbols_set.
  rewrite sorted_desc_perm, Hno_trades, Hno_cooldowns, !dom_empty_L.
  rewrite !(left_id_L ∅ (∪)).
  apply elements_list_to_set, final_hot_coins_NoDup.
Qed.

Lemma final_hot_coins_elem s :
  s ∈ final_hot_coins cfg st
  <-> exists c, coin_data st !! s = Some c
                /\ dynamic_threshold cfg st <= change_24h c.
Proof using Hwf Hbase.
  unfold final_hot_coins. rewrite hot_coins_all, list_elem_of_fmap. split.
  - intros (c & -> & Hin). apply list_elem_of_filter in Hin as [Hge Hin].
    exists c. split; [| done]. by apply all_coins_sorted_elem.
  - intros (c & Hc & Hge). exists c.
    assert (symbol c = s) as <- by (by apply (Hwf s c)).
    split; [done |]. apply list_elem_of_filter. split; [done |].
    by apply all_coins_sorted_elem.
Qed.

(** The first 100 coins of the ranking pass the raised threshold. *)
Lemma final_hot_coins_length_ge :
  (MAX_COINS_TO_MONITOR <= length (final_hot_coins cfg st))%nat.
Proof using Hwf Hbase Hmany.
  destruct dynamic_threshold_rank as (c & Hc & Hdyn).
  unfold final_hot_coins. rewrite hot_coins_all, length_fmap.
  rewrite <- (take_drop MAX_COINS_TO_MONITOR (all_coins_sorted st)) at 1.
  rewrite filter_app, length_app, filter_all.
  - rewrite length_take_le; [lia |].
    rewrite all_coins_sorted_length. lia.
  - apply Forall_lookup. intros i x Hx.
    apply lookup_take_Some in Hx as [Hx Hi]. rewrite Hdyn.
    apply (desc_lookup change_24h (all_coins_sorted st) i
             (MAX_COINS_TO_MONITOR - 1) x c);
      [apply all_coins_sorted_desc | lia | done | done].
Qed.

(** When the coin ranked 101st is strictly below the one ranked 100th, no
    coin beyond the 100th passes. *)
Lemma final_hot_coins_length_eq c100 c101 :
  all_coins_sorted st !! (MAX_COINS_TO_MONITOR - 1)%nat = Some c100 ->
  all_coins_sorted st !! MAX_COINS_TO_MONITOR = Some c101 ->
  change_24h c101 < change_24h c100 ->
  length (final_hot_coins cfg st) = MAX_COINS_TO_MONITOR.
Proof using Hwf Hbase Hmany.
  intros H100 H101 Hlt.
  destruct dynamic_threshold_rank as (c & Hc & Hdyn).
  assert (c = c100) as -> by congruence.
  pose proof final_hot_coins_length_ge as Hge.
  unfold final_hot_coins in *. rewrite hot_coins_all, length_fmap in *.
  rewrite <- (take_drop MAX_COINS_TO_MONITOR (all_coins_sorted st)) in Hge |- *.
  rewrite filter_app, length_app in Hge |- *.
  rewrite (filter_none _ (drop _ _)) in Hge |- *.
  - simpl in *. pose proof (length_filter
      (fun c0 => dynamic_threshold cfg st <= change_24h c0)
      (take MAX_COINS_TO_MONITOR (all_coins_sorted st))) as Hle.
    rewrite length_take in Hle. lia.
  - apply Forall_lookup. intros i x Hx. rewrite lookup_drop in Hx.
    rewrite Hdyn. intros Hbad.
    assert (change_24h x <= change_24h c101).
    { apply (desc_lookup change_24h (all_coins_sorted st)
               MAX_COINS_TO_MONITOR (MAX_COINS_TO_MONITOR + i) c101 x);
        [apply all_coins_sorted_desc | lia | done | done]. }
    lra.
  - apply Forall_lookup. intros i x Hx. rewrite lookup_drop in Hx.
    rewrite Hdyn. intros Hbad.
    assert (change_24h x <= change_24h c101).
    { apply (desc_lookup change_24h (all_coins_sorted st)
               MAX_COINS_TO_MONITOR (MAX_COINS_TO_MONITOR + i) c101 x);
        [apply all_coins_sorted_desc | lia | done | done]. }
    lra.
Qed.

End SymbolsToMonitor.

(** C5, as stated, fails on the cap: when coins tie with the coin ranked
    100th they all pass the raised threshold.  With 150 coins at the same
    change, the threshold is that change and all 150 symbols are returned. *)
Lemma C5_counterexample :
  size (coin_data rally_state) = 150%nat
  /\ coin_data_wf rally_state
  /\ map_Forall
       (fun _ c => RSI_HOT_COIN_THRESHOLD default_config <= change_24h c)
       (coin_data rally_state)
  /\ active_trades rally_state = ∅
  /\ cooldowned_coins rally_state = ∅
  /\ dynamic_threshold default_config rally_state = 20
  /\ length (get_symbols_to_monitor default_config rally_state) = 150%nat
  /\ ~ (length (get_symbols_to_monitor default_config rally_state) <= 100)%nat.
Proof.
  split; [vm_compute; reflexivity |].
  split.
  { unfold coin_data_wf. apply (bool_decide_unpack _). vm_compute. exact I. }
  split.
  { apply (bool_decide_unpack _). vm_compute. exact I. }
  split; [reflexivity |]. split; [reflexivity |].
  split; [vm_compute; reflexivity |].
  assert (H : length (get_symbols_to_monitor default_config rally_state)
              = 150%nat) by (vm_compute; reflexivity).
  split; [exact H |]. rewrite H. lia.
Qed.

(** C5, amended.  For a coin-data map of 150 coins, each stored under its own
    symbol and each with a 24h change at or above the base threshold, and no
    trades or cooldowns: the effective threshold is the change of the coin
    ranked 100th (at or above the base threshold); the returned list holds,
    without repetition, exactly the symbols whose change is at or above that
    threshold; it has at least 100 and at most 150 entries, and exactly 100
    when the coin ranked 101st is strictly below the one ranked 100th; it is
    in descending order of 24h change; every entry is at or above the
    threshold and the last, lowest entry has a change equal to it. *)
Theorem C5_watch_list_dynamic_threshold cfg st :
  coin_data_wf st ->
  size (coin_data st) = 150%nat ->
  map_Forall (fun _ c => RSI_HOT_COIN_THRESHOLD cfg <= change_24h c)
             (coin_data st) ->
  active_trades st = ∅ ->
  cooldowned_coins st = ∅ ->
  let thr := dynamic_threshold cfg st in
  let l := get_symbols_to_monitor cfg st in
  (exists c100,
     all_coins_sorted st !! 99%nat = Some c100
     /\ thr = change_24h c100
     /\ RSI_HOT_COIN_THRESHOLD cfg <= thr)
  /\ (forall s,
        s ∈ l <-> exists c, coin_data st !! s = Some c /\ thr <= change_24h c)
  /\ NoDup l
  /\ (100 <= length l <= 150)%nat
  /\ (forall c100 c101,
        all_coins_sorted st !! 99%nat = Some c100 ->
        all_coins_sorted st !! 100%nat = Some c101 ->
        change_24h c101 < change_24h c100 ->
        length l = 100%nat)
  /\ StronglySorted (desc (change_of st)) l
  /\ Forall (fun s => thr <= change_of st s) l
  /\ (exists s, last l = Some s /\ change_of st s == thr).
Proof.
  intros Hwf Hsize Hbase Hnt Hnc thr l.
  assert (Hmany : (MAX_COINS_TO_MONITOR < size (coin_data st))%nat)
    by (rewrite Hsize; unfold MAX_COINS_TO_MONITOR; lia).
  pose proof (get_symbols_to_monitor_perm cfg st Hwf Hbase Hnt Hnc) as Hperm.
  fold l in Hperm.
  destruct (dynamic_threshold_rank cfg st Hwf Hbase Hmany)
    as (c100 & Hc & Hthr).
  fold thr in Hthr. change (MAX_COINS_TO_MONITOR - 1)%nat with 99%nat in Hc.
  assert (Hc_in : coin_data st !! symbol c100 = Some c100).
  { apply all_coins_sorted_elem; [done |]. by eapply list_elem_of_lookup_2. }
  assert (Hmem : forall s,
             s ∈ l <-> exists c, coin_data st !! s = Some c
                                 /\ thr <= change_24h c).
  { intros s. rewrite Hperm. by apply final_hot_coins_elem. }
  assert (Hlen : (100 <= length l <= 150)%nat).
  { rewrite Hperm. split.
    - by apply final_hot_coins_length_ge.
    - unfold final_hot_coins. rewrite length_fmap.
      etrans; [apply length_filter |].
      rewrite hot_coins_all, all_coins_sorted_length by done. lia. }
  assert (Hsorted : StronglySorted (desc (change_of st)) l)
    by apply sorted_desc_sorted.
  assert (Hall : Forall (fun s => thr <= change_of st s) l).
  { apply Forall_forall. intros s Hs. apply Hmem in Hs as (c & Hs & Hge).
    unfold change_of. by rewrite Hs. }
  assert (H100 : symbol c100 ∈ l /\ change_of st (symbol c100) = thr).
  { split.
    - apply Hmem. exists c100. split; [done |]. rewrite Hthr. apply Qle_refl.
    - unfold change_of. by rewrite Hc_in. }
  split.
  { exists c100. split; [done |]. split; [done |].
    rewrite Hthr. by eapply Hbase. }
  split; [exact Hmem |].
  split.
  { rewrite Hperm. by apply final_hot_coins_NoDup. }
  split; [exact Hlen |].
  split.
  { intros c100' c101 H1 H2 Hlt. rewrite Hperm.
    by eapply final_hot_coins_length_eq. }
  split; [exact Hsorted |].
  split; [exact Hall |].
  destruct H100 as [Hin Hch].
  apply list_elem_of_lookup in Hin as [i Hi].
  destruct (lookup_lt_is_Some_2 l (pred (length l))) as [s Hs]; [lia |].
  exists s. split; [by rewrite last_lookup |].
  apply Qle_antisym.
  - rewrite <- Hch.
    apply (desc_lookup (change_of st) l i (pred (length l)) _ s Hsorted);
      [| done | done].
    apply lookup_lt_Some in Hi. lia.
  - rewrite Forall_forall in Hall. apply Hall.
    by eapply list_elem_of_lookup_2.
Qed.

(** C5 on [ladder_state], where no two coins tie: the threshold is raised
    from 10 to 61 and exactly 100 symbols are returned. *)
Lemma C5_witness :
  dynamic_threshold default_config ladder_state == 61
  /\ (100 <= length (get_symbols_to_monitor default_config ladder_state)
      <= 150)%nat
  /\ length (get_symbols_to_monitor default_config ladder_state) = 100%nat.
Proof.
  assert (Hwf : coin_data_wf ladder_state)
    by (unfold coin_data_wf; apply (bool_decide_unpack _); vm_compute; exact I).
  assert (Hbase : map_Forall
                    (fun _ c => RSI_HOT_COIN_THRESHOLD default_config
                                <= change_24h c) (coin_data ladder_state))
    by (unfold coin_data_wf; apply (bool_decide_unpack _); vm_compute; exact I).
  assert (Hsize : size (coin_data ladder_state) = 150%nat)
    by (vm_compute; reflexivity).
  destruct (C5_watch_list_dynamic_threshold default_config ladder_state
              Hwf Hsize Hbase eq_refl eq_refl)
    as (_ & _ & _ & Hlen & Hexact & _).
  split; [vm_compute; reflexivity |]. split; [exact Hlen |].
  eapply Hexact.
  - vm_compute. reflexivity.
  - vm_compute. reflexivity.
  - vm_compute. reflexivity.
Defined.

(** * Further properties of the store *)

(** ** Invariants of call sequences *)

Ltac unfold_calls :=
  unfold run_call, handle_rsi_update, manual_trade, _monitor_paper_trade,
    live_monitor_iteration, toggle_control, discard_trade,
    update_rsi_value, update_portfolio_balance, update_market_data,
    restore_live_trade, open_trade, close_trade, update_trade_pnl,
    activate_global_pause, lift_global_pause, handle_add_to_cooldown,
    handle_remove_from_cooldown, add_alert_log, default in *.

Ltac crush_call :=
  unfold_calls; simpl in *;
  repeat (first [case_match | progress simplify_eq | progress simpl in *]).

(** A property kept by every permitted call is kept by every sequence of
    permitted calls. *)
Lemma run_calls_invariant cfg fmt (P : state -> Prop) (ok : call -> Prop) :
  (forall st c, ok c -> P st -> P (run_call cfg fmt st c)) ->
  forall cs st, Forall ok cs -> P st -> P (run_calls cfg fmt cs st).
Proof.
  intros Hstep cs. unfold run_calls.
  induction cs as [| c cs IH]; intros st Hok HP; [done |].
  inversion Hok; subst. simpl. apply IH; [done |]. by apply Hstep.
Qed.

Lemma run_calls_app cfg fmt cs1 cs2 st :
  run_calls cfg fmt (cs1 ++ cs2) st
  = run_calls cfg fmt cs2 (run_calls cfg fmt cs1 st).
Proof. unfold run_calls. apply foldl_app. Qed.

Lemma realize_stats_net pnl g :
  global_profit_usdt (realize_stats pnl g)
  - global_loss_usdt (realize_stats pnl g)
  == global_profit_usdt g - global_loss_usdt g + pnl.
Proof.
  unfold realize_stats. destruct (Qle_bool 0 pnl) eqn:E; simpl.
  - lra.
  - assert (pnl < 0) by (apply Qltb_lt; unfold Qltb; by rewrite E).
    rewrite Qabs_neg by lra. lra.
Qed.

Lemma run_call_ledger cfg fmt st c :
  ~ sets_balance c -> ledger_base (run_call cfg fmt st c) == ledger_base st.
Proof.
  intros Hc. unfold ledger_base.
  destruct c; simpl in Hc; try tauto; crush_call; try reflexivity.
  all: rewrite realize_stats_net; lra.
Qed.

(** The books balance.  Over any sequence of calls that does not set the
    balance explicitly, the balance minus the net realised pnl (cumulative
    profit minus cumulative loss) stays the same: the balance moves only by
    pnl that the statistics account for. *)
Theorem ledger_base_preserved cfg fmt cs st :
  Forall (fun c => ~ sets_balance c) cs ->
  ledger_base (run_calls cfg fmt cs st) == ledger_base st.
Proof.
  intros Hcs.
  apply (run_calls_invariant cfg fmt
           (fun s => ledger_base s == ledger_base st)
           (fun c => ~ sets_balance c)); [| done | reflexivity].
  intros s c Hc Hs. by rewrite run_call_ledger.
Qed.

Lemma realize_stats_le pnl g :
  global_profit_usdt g <= global_profit_usdt (realize_stats pnl g)
  /\ global_loss_usdt g <= global_loss_usdt (realize_stats pnl g)
  /\ (profitable_trades g <= profitable_trades (realize_stats pnl g))%nat
  /\ (loss_trades g <= loss_trades (realize_stats pnl g))%nat.
Proof.
  unfold realize_stats. destruct (Qle_bool 0 pnl) eqn:E; simpl.
  - apply Qle_bool_iff in E. split_and!; try lia; lra.
  - pose proof (Qabs_nonneg pnl). split_and!; try lia; lra.
Qed.

Lemma stats_le_refl st : stats_le st st.
Proof. unfold stats_le. split_and!; try lia; apply Qle_refl. Qed.

Lemma stats_le_trans st1 st2 st3 :
  stats_le st1 st2 -> stats_le st2 st3 -> stats_le st1 st3.
Proof.
  unfold stats_le. intros (? & ? & ? & ?) (? & ? & ? & ?).
  split_and!; try lia; eapply Qle_trans; eauto.
Qed.

Lemma run_call_stats_le cfg fmt st c : stats_le st (run_call cfg fmt st c).
Proof.
  unfold stats_le.
  destruct c; crush_call;
    first [ apply realize_stats_le
          | split_and!; first [lia | apply Qle_refl] ].
Qed.

(** [ledger_base_preserved] on [sample_calls]: the balance went from 1000
    to [1000 + 3 * 2 * (10/100)] and the statistics account for it. *)
Lemma ledger_base_preserved_witness :
  let st' := run_calls default_config sample_rsi_message sample_calls
                       round_trip_state in
  portfolio_balance st' == 1000 + 3 * 2 * (10 / 100)
  /\ ledger_base st' == ledger_base round_trip_state.
Proof.
  split; [vm_compute; reflexivity |].
  apply (ledger_base_preserved default_config sample_rsi_message sample_calls
           round_trip_state).
  unfold sample_calls. repeat constructor; simpl; tauto.
Defined.

(** The statistics only accumulate.  Over any sequence of calls, cumulative
    profit, cumulative loss, the win count and the loss count never
    decrease. *)
Theorem stats_monotone cfg fmt cs st :
  stats_le st (run_calls cfg fmt cs st).
Proof.
  apply (run_calls_invariant cfg fmt (fun s => stats_le st s)
           (fun _ => True)).
  - intros s c _ Hs. eapply stats_le_trans; [exact Hs |].
    apply run_call_stats_le.
  - by apply Forall_forall.
  - apply stats_le_refl.
Qed.

Lemma run_call_alert_log cfg fmt st c :
  alert_log (run_call cfg fmt st c) = alert_log st
  \/ exists e, alert_log (run_call cfg fmt st c) = take 50 (e :: alert_log st).
Proof. destruct c; crush_call; eauto. Qed.

(** The alert log is a bounded ring.  Every call leaves the log as it was or
    puts exactly one line at its head and cuts it to 50 lines; so over any
    sequence of calls a log of at most 50 lines stays at most 50 lines. *)
Theorem alert_log_bounded cfg fmt cs st :
  (forall c s,
     alert_log (run_call cfg fmt s c) = alert_log s
     \/ exists e, alert_log (run_call cfg fmt s c) = take 50 (e :: alert_log s))
  /\ ((length (alert_log st) <= 50)%nat ->
      (length (alert_log (run_calls cfg fmt cs st)) <= 50)%nat).
Proof.
  split; [intros; apply run_call_alert_log |].
  intros H0.
  apply (run_calls_invariant cfg fmt
           (fun s => (length (alert_log s) <= 50)%nat) (fun _ => True));
    [| by apply Forall_forall | done].
  intros s c _ Hs.
  destruct (run_call_alert_log cfg fmt s c) as [-> | [e ->]]; [done |].
  rewrite length_take. lia.
Qed.

Lemma run_call_coin_data cfg fmt st c :
  coin_data (run_call cfg fmt st c) = coin_data st
  \/ exists l, run_call cfg fmt st c = update_market_data l st.
Proof. destruct c; try (right; by eexists); left; crush_call; done. Qed.

(** Every coin is stored under its own symbol, whatever is called: over any
    sequence of calls, [coin_data] keeps each entry under the key that its
    [symbol] field names. *)
Theorem coin_data_wf_preserved cfg fmt cs st :
  coin_data_wf st -> coin_data_wf (run_calls cfg fmt cs st).
Proof.
  intros H0.
  apply (run_calls_invariant cfg fmt coin_data_wf (fun _ => True));
    [| by apply Forall_forall | done].
  intros s c _ Hs.
  destruct (run_call_coin_data cfg fmt s c) as [Heq | [l ->]].
  - unfold coin_data_wf. by rewrite Heq.
  - by apply update_market_data_wf.
Qed.


(** [alert_log_bounded] on [sample_calls]: two lines were logged, the entry
    and the close. *)
Lemma alert_log_bounded_witness :
  let st' := run_calls default_config sample_rsi_message sample_calls
                       round_trip_state in
  length (alert_log st') = 2%nat /\ (length (alert_log st') <= 50)%nat.
Proof.
  split; [vm_compute; reflexivity |].
  apply (alert_log_bounded default_config sample_rsi_message sample_calls
           round_trip_state).
  vm_compute. lia.
Defined.

(** [coin_data_wf_preserved] on [sample_calls]. *)
Lemma coin_data_wf_preserved_witness :
  coin_data_wf round_trip_state
  /\ coin_data_wf
       (run_calls default_config sample_rsi_message sample_calls
                  round_trip_state).
Proof.
  assert (H0 : coin_data_wf round_trip_state).
  { unfold coin_data_wf. apply (bool_decide_unpack _). vm_compute. exact I. }
  split; [exact H0 |].
  apply (coin_data_wf_preserved default_config sample_rsi_message sample_calls
           round_trip_state H0).
Defined.

Lemma with_pnl_marks pct usdt rsi t :
  marks_ok t -> marks_ok (with_pnl pct usdt rsi t).
Proof.
  unfold marks_ok. intros [H1 H2].
  destruct rsi as [[r | s] |]; simpl; try done.
  rewrite !Qltb_min. split; (eapply Qle_trans; [apply Q.le_min_l | done]).
Qed.

Lemma new_trade_marks cfg now p rsi src alert amt :
  marks_ok (new_trade cfg now p rsi src alert amt).
Proof. unfold marks_ok. simpl. split; apply Qle_refl. Qed.

Ltac fold_with_pnl :=
  repeat match goal with
  | |- context [ {| alert_num := alert_num ?t; entry_price := _;
                    entry_time := _; entry_rsi := _; trade_amount := _;
                    leverage := _; pnl_percent := ?p; pnl_usdt := ?u;
                    source := _; max_neg_pnl_pct := _;
                    max_neg_pnl_usdt := _;
                    max_neg_rsi := if Qltb ?r _ then _ else _ |} ] =>
      change {| alert_num := alert_num t; entry_price := entry_price t;
                entry_time := entry_time t; entry_rsi := entry_rsi t;
                trade_amount := trade_amount t; leverage := leverage t;
                pnl_percent := p; pnl_usdt := u; source := source t;
                max_neg_pnl_pct :=
                  if Qltb p (max_neg_pnl_pct t) then p
                  else max_neg_pnl_pct t;
                max_neg_pnl_usdt :=
                  if Qltb u (max_neg_pnl_usdt t) then u
                  else max_neg_pnl_usdt t;
                max_neg_rsi :=
                  if Qltb r (max_neg_rsi t) then r else max_neg_rsi t |}
        with (with_pnl p u (Some (VNum r)) t)
  | |- context [ {| alert_num := alert_num ?t; entry_price := _;
                    entry_time := _; entry_rsi := _; trade_amount := _;
                    leverage := _; pnl_percent := ?p; pnl_usdt := ?u;
                    source := _; max_neg_pnl_pct := max_neg_pnl_pct ?t;
                    max_neg_pnl_usdt := _; max_neg_rsi := _ |} ] =>
      change {| alert_num := alert_num t; entry_price := entry_price t;
                entry_time := entry_time t; entry_rsi := entry_rsi t;
                trade_amount := trade_amount t; leverage := leverage t;
                pnl_percent := p; pnl_usdt := u; source := source t;
                max_neg_pnl_pct := max_neg_pnl_pct t;
                max_neg_pnl_usdt := max_neg_pnl_usdt t;
                max_neg_rsi := max_neg_rsi t |}
        with (with_pnl p u None t)
  end.

Lemma run_call_marks cfg fmt st c :
  map_Forall (fun _ t => marks_ok t) (active_trades st) ->
  map_Forall (fun _ t => marks_ok t) (active_trades (run_call cfg fmt st c)).
Proof.
  intros Hs.
  destruct c; unfold_calls; simpl in *;
    repeat (first [case_match | progress simplify_eq]); simpl;
    fold_with_pnl;
    repeat (first [ apply map_Forall_delete | apply map_Forall_insert_2
                  | apply with_pnl_marks | apply new_trade_marks ]);
    try done; try (by eapply Hs).
  all: unfold marks_ok; simpl; split; apply Qle_refl.
Qed.

(** No pnl watermark is ever above zero.  If every open trade has its two
    pnl watermarks at or below zero, so has every open trade after any
    sequence of calls: trades are entered with watermarks at 0 and the
    watermarks only move down. *)
Theorem watermarks_never_positive cfg fmt cs st :
  map_Forall (fun _ t => marks_ok t) (active_trades st) ->
  map_Forall (fun _ t => marks_ok t)
             (active_trades (run_calls cfg fmt cs st)).
Proof.
  intros H0.
  apply (run_calls_invariant cfg fmt
           (fun s => map_Forall (fun _ t => marks_ok t) (active_trades s))
           (fun _ => True)); [| by apply Forall_forall | done].
  intros s c _ Hs. by apply run_call_marks.
Qed.

(** [watermarks_never_positive] on [losing_calls]: the open trade ends with
    a pnl watermark of -20 percent. *)
Lemma watermarks_never_positive_witness :
  exists t,
    active_trades
      (run_calls default_config sample_rsi_message losing_calls
                 round_trip_state) !! "XUSDT" = Some t
    /\ max_neg_pnl_pct t == -20
    /\ marks_ok t.
Proof.
  eexists. split; [vm_compute; reflexivity |].
  split; [vm_compute; reflexivity |].
  assert (H0 : map_Forall (fun _ t => marks_ok t)
                 (active_trades round_trip_state))
    by apply map_Forall_empty.
  pose proof (watermarks_never_positive default_config sample_rsi_message
                losing_calls round_trip_state H0) as H.
  apply (H "XUSDT"). vm_compute. reflexivity.
Defined.

Lemma with_pnl_entry_data pct usdt rsi t :
  entry_data (with_pnl pct usdt rsi t) = entry_data t.
Proof. by destruct rsi as [[r | s] |]. Qed.

Ltac map_lookup_cases :=
  repeat match goal with
  | H : context [ <[?i := _]> _ !! ?j ] |- _ =>
      rewrite lookup_insert in H; case_decide; simplify_eq
  | H : context [ delete ?i _ !! ?j ] |- _ =>
      rewrite lookup_delete in H; case_decide; simplify_eq
  end.

(** No call rewrites the entry data of a trade that stays open: if a symbol
    has an open trade before a call and one after it, the two records agree
    on alert number, entry price, entry time, entry indicator, amount,
    leverage and source. *)
Theorem entry_data_immutable cfg fmt st c sym t t' :
  active_trades st !! sym = Some t ->
  active_trades (run_call cfg fmt st c) !! sym = Some t' ->
  entry_data t' = entry_data t.
Proof.
  intros Ht Ht'.
  destruct c; unfold_calls; simpl in *;
    repeat (first [case_match | progress simplify_eq]); simpl in *;
    fold_with_pnl; map_lookup_cases;
    rewrite ?with_pnl_entry_data; first [reflexivity | congruence].
Qed.

(** [entry_data_immutable] on a tick of [flat_trade_state]'s trade. *)
Lemma entry_data_immutable_witness :
  exists t',
    active_trades
      (run_call default_config sample_rsi_message flat_trade_state
         (CallUpdateTradePnl "XUSDT" (-5) (-1) (Some (VNum 70))))
      !! "XUSDT" = Some t'
    /\ pnl_percent t' = -5
    /\ entry_data t' = entry_data sample_trade.
Proof.
  eexists. split; [vm_compute; reflexivity |].
  split; [reflexivity |].
  apply (entry_data_immutable default_config sample_rsi_message
           flat_trade_state
           (CallUpdateTradePnl "XUSDT" (-5) (-1) (Some (VNum 70))) "XUSDT").
  - reflexivity.
  - vm_compute. reflexivity.
Defined.

(** ** What the bus is told *)

Lemma run_call_published cfg fmt st c :
  exists es,
    event_queue (run_call cfg fmt st c) = event_queue st ++ es
    /\ (forall sym,
          is_Some (active_trades st !! sym) ->
          active_trades (run_call cfg fmt st c) !! sym = None ->
          exists r e, ADD_TO_COOLDOWN sym r e ∈ es)
    /\ (~ is_restore c ->
        forall sym t',
          active_trades (run_call cfg fmt st c) !! sym = Some t' ->
          (exists t, active_trades st !! sym = Some t
                     /\ entry_data t' = entry_data t)
          \/ TRADE_OPENED t' ∈ es).
Proof.
  destruct c; crush_call;
    (eexists; split;
     [ first [ symmetry; apply app_nil_r
             | rewrite <- ?app_assoc; reflexivity ] |]).
  all: simpl; split.
  all: try (intros sym' [t0' Hs'] Hn'; map_lookup_cases;
            first [ congruence
                  | do 2 eexists; rewrite !elem_of_cons; eauto 10 ]).
  all: try (intros Hnr sym' t0' Hs'; simpl in Hnr; try tauto;
            fold_with_pnl; map_lookup_cases;
            first [ by right; rewrite !elem_of_cons; eauto 10
                  | left; eexists; split; [eassumption |];
                    by rewrite ?with_pnl_entry_data
                  | by left; eauto ]).
Qed.

(** Changes of the open trades are announced on the bus.  Over any sequence
    of calls the queue from before is kept as a prefix of the queue
    afterwards, and the events added behind it include: for every symbol
    that had an open trade before and has none after, a cooldown-add event
    for that symbol; and, when the sequence has no [restore_live_trade], for
    every trade open afterwards that does not carry the entry data of a
    trade open on its symbol before, a trade-opened event with that entry
    data. *)
Theorem trade_changes_are_published cfg fmt cs st :
  exists es,
    event_queue (run_calls cfg fmt cs st) = event_queue st ++ es
    /\ (forall sym,
          is_Some (active_trades st !! sym) ->
          active_trades (run_calls cfg fmt cs st) !! sym = None ->
          exists r e, ADD_TO_COOLDOWN sym r e ∈ es)
    /\ (Forall (fun c => ~ is_restore c) cs ->
        forall sym t',
          active_trades (run_calls cfg fmt cs st) !! sym = Some t' ->
          (exists t, active_trades st !! sym = Some t
                     /\ entry_data t' = entry_data t)
          \/ exists t0, TRADE_OPENED t0 ∈ es
                        /\ entry_data t0 = entry_data t').
Proof.
  revert st. induction cs as [| c cs IH]; intros st.
  - exists []. unfold run_calls. simpl. split_and!.
    + by rewrite app_nil_r.
    + intros sym [t Ht] Hn. congruence.
    + intros _ sym t' Ht. left. eauto.
  - destruct (run_call_published cfg fmt st c) as (es1 & Hq1 & Hr1 & Ho1).
    destruct (IH (run_call cfg fmt st c)) as (es2 & Hq2 & Hr2 & Ho2).
    change (run_calls cfg fmt (c :: cs) st)
      with (run_calls cfg fmt cs (run_call cfg fmt st c)).
    exists (es1 ++ es2). split_and!.
    + by rewrite Hq2, Hq1, app_assoc.
    + intros sym Hs Hn.
      destruct (active_trades (run_call cfg fmt st c) !! sym) as [t1 |] eqn:H1.
      * destruct (Hr2 sym) as (r & e & Hin); [by rewrite H1 | done |].
        exists r, e. apply elem_of_app. by right.
      * destruct (Hr1 sym Hs H1) as (r & e & Hin).
        exists r, e. apply elem_of_app. by left.
    + intros Hcs sym t' Ht'. apply Forall_cons in Hcs as [Hc Hcs].
      destruct (Ho2 Hcs sym t' Ht') as [(t1 & Ht1 & He1) | (t0 & Hin & He)].
      * destruct (Ho1 Hc sym t1 Ht1) as [(t & Ht & He) | Hin].
        -- left. exists t. split; [done | congruence].
        -- right. exists t1. split; [| done]. apply elem_of_app. by left.
      * right. exists t0. split; [| done]. apply elem_of_app. by right.
Qed.

(** [trade_changes_are_published] on [losing_calls]: the trade the engine
    entered on ["XUSDT"] was announced. *)
Lemma trade_changes_are_published_witness :
  exists es t0,
    event_queue (run_calls default_config sample_rsi_message losing_calls
                   round_trip_state)
    = event_queue round_trip_state ++ es
    /\ TRADE_OPENED t0 ∈ es /\ entry_price t0 = 90.
Proof.
  destruct (trade_changes_are_published default_config sample_rsi_message
              losing_calls round_trip_state) as (es & Hq & _ & Ho).
  destruct (active_trades
              (run_calls default_config sample_rsi_message losing_calls
                 round_trip_state) !! "XUSDT") as [t' |] eqn:Ht';
    [| vm_compute in Ht'; discriminate].
  assert (Hp : entry_price t' = 90)
    by (vm_compute in Ht'; by injection Ht' as <-).
  destruct (Ho (ltac:(unfold losing_calls; repeat constructor; simpl; tauto))
              "XUSDT" t' Ht') as [(t & Ht & _) | (t0 & Hin & He)].
  - vm_compute in Ht. discriminate.
  - exists es, t0. split; [exact Hq |]. split; [exact Hin |].
    unfold entry_data in He. injection He as _ He _ _ _ _ _.
    by rewrite He.
Defined.

(** ** The breaker over call sequences *)

Lemma run_call_pause_set cfg fmt st c :
  global_pause_active (controls st) = false ->
  global_pause_active (controls (run_call cfg fmt st c)) = true ->
  is_activate c.
Proof.
  intros H0 H1.
  destruct c; simpl; try done; exfalso; crush_call; congruence.
Qed.

Lemma run_call_pause_cleared cfg fmt st c :
  global_pause_active (controls st) = true ->
  global_pause_active (controls (run_call cfg fmt st c)) = false ->
  lifts_pause c.
Proof.
  intros H0 H1.
  destruct c; simpl; try done; try (exfalso; crush_call; congruence).
  crush_call; try congruence.
  match goal with
  | H : _ && _ = true |- _ => apply andb_true_iff in H as [Hn Ha]
  end.
  split; by apply String.eqb_eq.
Qed.

Lemma run_call_exec_set cfg fmt st c :
  trade_execution_enabled (controls st) = false ->
  trade_execution_enabled (controls (run_call cfg fmt st c)) = true ->
  is_toggle c.
Proof.
  intros H0 H1.
  destruct c; simpl; try done; exfalso; crush_call; congruence.
Qed.

Lemma can_open_blocked_by_pause cfg now st :
  global_pause_active (controls st) = true ->
  can_open_new_trade cfg now st = false.
Proof.
  intros H. unfold can_open_new_trade. rewrite H. simpl.
  by rewrite andb_false_r.
Qed.

Lemma can_open_blocked_by_switch cfg now st :
  trade_execution_enabled (controls st) = false ->
  can_open_new_trade cfg now st = false.
Proof. intros H. unfold can_open_new_trade. by rewrite H. Qed.

(** The pause flag has one way in and one way out.  Over any sequence of
    calls without [activate_global_pause] an inactive pause stays inactive;
    over any sequence without [lift_global_pause] and without
    [toggle_control('global_pause_active', 'resume')] an active pause stays
    active, and [can_open_new_trade] answers [False] at every clock reading
    afterwards. *)
Theorem pause_flag_transitions cfg fmt cs st :
  (global_pause_active (controls st) = false ->
   Forall (fun c => ~ is_activate c) cs ->
   global_pause_active (controls (run_calls cfg fmt cs st)) = false)
  /\ (global_pause_active (controls st) = true ->
      Forall (fun c => ~ lifts_pause c) cs ->
      global_pause_active (controls (run_calls cfg fmt cs st)) = true
      /\ forall now,
           can_open_new_trade cfg now (run_calls cfg fmt cs st) = false).
Proof.
  split.
  - intros H0 Hcs.
    apply (run_calls_invariant cfg fmt
             (fun s => global_pause_active (controls s) = false)
             (fun c => ~ is_activate c)); [| done | done].
    intros s c Hc Hs.
    destruct (global_pause_active (controls (run_call cfg fmt s c))) eqn:E;
      [| done].
    exfalso. apply Hc. by eapply run_call_pause_set.
  - intros H0 Hcs.
    assert (Hp : global_pause_active (controls (run_calls cfg fmt cs st))
                 = true).
    { apply (run_calls_invariant cfg fmt
               (fun s => global_pause_active (controls s) = true)
               (fun c => ~ lifts_pause c)); [| done | done].
      intros s c Hc Hs.
      destruct (global_pause_active (controls (run_call cfg fmt s c))) eqn:E;
        [done |].
      exfalso. apply Hc. by eapply run_call_pause_cleared. }
    split; [done |]. intros now. by apply can_open_blocked_by_pause.
Qed.

(** [pause_flag_transitions] on [paused_calls]: the tick, the resume of
    every switch and the indicator event leave the breaker tripped and the
    gate closed, although trade execution was switched back on. *)
Lemma pause_flag_transitions_witness :
  let st' := run_calls default_config sample_rsi_message paused_calls
                       paused_profit_state in
  trade_execution_enabled (controls st') = true
  /\ global_pause_active (controls st') = true
  /\ can_open_new_trade default_config 100 st' = false.
Proof.
  split; [vm_compute; reflexivity |].
  destruct (pause_flag_transitions default_config sample_rsi_message
              paused_calls paused_profit_state) as [_ H].
  destruct H as [Hp Hg]; [reflexivity | |].
  - unfold paused_calls. repeat constructor; simpl; intros H; try done.
    destruct H as [H _]. discriminate.
  - split; [exact Hp | apply Hg].
Defined.

(** Re-arming is manual.  Once the breaker has tripped, over any sequence of
    calls that contains no [toggle_control], whether or not the pause is
    lifted in it, [trade_execution_enabled] stays cleared and
    [can_open_new_trade] answers [False] at every clock reading. *)
Theorem rearm_only_by_toggle cfg fmt cs n st :
  global_pause_active (controls st) = false ->
  Forall (fun c => ~ is_toggle c) cs ->
  let st' := run_calls cfg fmt cs (activate_global_pause cfg n st) in
  trade_execution_enabled (controls st') = false
  /\ forall now, can_open_new_trade cfg now st' = false.
Proof.
  intros H0 Hcs st'.
  assert (He : trade_execution_enabled (controls st') = false).
  { apply (run_calls_invariant cfg fmt
             (fun s => trade_execution_enabled (controls s) = false)
             (fun c => ~ is_toggle c)); [| done |].
    - intros s c Hc Hs.
      destruct (trade_execution_enabled (controls (run_call cfg fmt s c)))
        eqn:E; [| done].
      exfalso. apply Hc. by eapply run_call_exec_set.
    - unfold activate_global_pause. by rewrite H0. }
  split; [done |]. intros now. by apply can_open_blocked_by_switch.
Qed.

(** [rearm_only_by_toggle] on [rearm_calls]: the store was armed, the
    breaker tripped and was lifted, and the indicator event that would have
    opened a trade opens none. *)
Lemma rearm_only_by_toggle_witness :
  let st' := run_calls default_config sample_rsi_message rearm_calls
               (activate_global_pause default_config 1 round_trip_state) in
  trade_execution_enabled (controls round_trip_state) = true
  /\ global_pause_active (controls st') = false
  /\ trade_execution_enabled (controls st') = false
  /\ active_trades st' = ∅.
Proof.
  split; [reflexivity |]. split; [vm_compute; reflexivity |].
  split; [| vm_compute; reflexivity].
  apply (rearm_only_by_toggle default_config sample_rsi_message rearm_calls 1
           round_trip_state); [reflexivity |].
  unfold rearm_calls. repeat constructor; simpl; tauto.
Defined.

(** ** Closing, reopening and restoring *)


Lemma close_trade_removes cfg now sym reason cp er st :
  active_trades (close_trade cfg now sym reason cp er st) !! sym = None.
Proof.
  unfold close_trade. destruct (active_trades st !! sym) eqn:E; [| done].
  destruct (negb (is_live (source t))); simpl; apply lookup_delete_eq.
Qed.

(** Closing twice is closing once.  A second [close_trade] on the same
    symbol, whatever its reason, price and time, returns the store the first
    one left: nothing is realised twice and no further event is published. *)
Theorem close_trade_twice cfg now1 now2 sym r1 r2 cp1 cp2 er1 er2 st :
  close_trade cfg now2 sym r2 cp2 er2 (close_trade cfg now1 sym r1 cp1 er1 st)
  = close_trade cfg now1 sym r1 cp1 er1 st.
Proof. apply close_trade_absent, close_trade_removes. Qed.

Lemma close_trade_live cfg now sym reason cp er st t :
  active_trades st !! sym = Some t ->
  is_live (source t) = true ->
  let st' := close_trade cfg now sym reason cp er st in
  active_trades st' = delete sym (active_trades st)
  /\ portfolio_balance st' = portfolio_balance st
  /\ global_stats st' = global_stats st
  /\ last_trade_execution_time st' = last_trade_execution_time st
  /\ event_queue st'
     = event_queue st
       ++ [ADD_TO_COOLDOWN sym reason (now + DEFAULT_COOLDOWN_PERIOD cfg);
           TRADE_CLOSED t reason cp er (portfolio_balance st);
           STATS_UPDATED; PORTFOLIO_UPDATED].
Proof.
  intros Ht Hl. unfold close_trade. rewrite Ht, Hl. simpl.
  split_and!; try done. by rewrite <- !app_assoc.
Qed.

(** Open, then close with no tick in between.  The map of open trades is
    the one before the open and the balance is unchanged, whatever close
    price is passed: [close_trade] realises the stored running pnl, which is
    still 0.  For a source other than Live the round trip is nevertheless
    counted as a win; for a Live source the statistics are untouched.  The
    last-open time stays stamped. *)
Theorem open_then_close_restores cfg now0 now1 sym entry rsi_value change src
    alert log_msg amount reason cp er st st1 :
  open_trade cfg now0 sym entry rsi_value change src alert log_msg amount st
  = (true, st1) ->
  let st2 := close_trade cfg now1 sym reason cp er st1 in
  active_trades st2 = active_trades st
  /\ portfolio_balance st2 == portfolio_balance st
  /\ last_trade_execution_time st2 = now0
  /\ (is_live src = false ->
      profitable_trades (global_stats st2)
      = S (profitable_trades (global_stats st))
      /\ loss_trades (global_stats st2) = loss_trades (global_stats st)
      /\ global_profit_usdt (global_stats st2)
         == global_profit_usdt (global_stats st)
      /\ global_loss_usdt (global_stats st2)
         = global_loss_usdt (global_stats st))
  /\ (is_live src = true -> global_stats st2 = global_stats st).
Proof.
  intros Ho st2. subst st2. unfold open_trade in Ho.
  destruct (active_trades st !! sym) eqn:Hn; [done |].
  destruct (negb (is_live src) && Qltb _ _) eqn:Hf; [done |].
  injection Ho as <-.
  set (t := new_trade cfg now0 entry rsi_value src alert
              (resolve_trade_amount cfg amount st)).
  unfold close_trade. simpl. rewrite lookup_insert_eq. simpl.
  rewrite delete_insert_id by done.
  destruct (is_live src) eqn:Hl; simpl.
  - split_and!; try done; reflexivity.
  - split_and!; try done; try lra.
    intros _. unfold realize_stats. simpl.
    split_and!; try done; try lia; lra.
Qed.

(** [open_then_close_restores] on the funded store. *)
Lemma open_then_close_restores_witness :
  exists st1,
    open_trade default_config 50 "XUSDT" 100 (VNum 96) None "Manual" 1 None
               None funded_state = (true, st1)
    /\ active_trades
         (close_trade default_config 51 "XUSDT" (MsgText "Manual Close") 90
                      (VNum 0) st1) = ∅
    /\ profitable_trades
         (global_stats
            (close_trade default_config 51 "XUSDT" (MsgText "Manual Close")
                         90 (VNum 0) st1)) = 1%nat.
Proof.
  eexists.
  match goal with
  | |- ?o = (true, ?s) /\ _ =>
      assert (Ho : o = (true, s)) by (vm_compute; reflexivity)
  end.
  split; [exact Ho |].
  destruct (open_then_close_restores default_config 50 51 "XUSDT" 100
              (VNum 96) None "Manual" 1 None None (MsgText "Manual Close") 90
              (VNum 0) funded_state _ Ho) as (Ha & _ & _ & Hw & _).
  split; [exact Ha |].
  destruct (Hw eq_refl) as (Hp & _). exact Hp.
Defined.

(** A position restored from the exchange and closed again.
    [restore_live_trade] leaves an already open symbol alone; on a fresh
    symbol it adds one Live trade without publishing anything and without
    stamping the last-open time, and closing that trade gives back the map
    of open trades, the balance and the statistics from before. *)
Theorem restore_live_trade_round_trip cfg now0 now1 sym entry amount lev
    alert rsi reason cp er st :
  (is_Some (active_trades st !! sym) ->
   restore_live_trade now0 sym entry amount lev alert rsi st = st)
  /\ (active_trades st !! sym = None ->
      let st1 := restore_live_trade now0 sym entry amount lev alert rsi st in
      let st2 := close_trade cfg now1 sym reason cp er st1 in
      size (active_trades st1) = S (size (active_trades st))
      /\ event_queue st1 = event_queue st
      /\ last_trade_execution_time st1 = last_trade_execution_time st
      /\ active_trades st2 = active_trades st
      /\ portfolio_balance st2 = portfolio_balance st
      /\ global_stats st2 = global_stats st).
Proof.
  unfold restore_live_trade. split.
  - intros [t Ht]. by rewrite Ht.
  - intros Hn. rewrite Hn. simpl.
    split; [by apply map_size_insert_None |].
    split; [done |]. split; [done |].
    unfold close_trade. simpl. rewrite lookup_insert_eq. simpl.
    by rewrite delete_insert_id.
Qed.

(** [restore_live_trade_round_trip] on the funded store. *)
Lemma restore_live_trade_round_trip_witness :
  let st1 := restore_live_trade 5 "XUSDT" 100 3 2 7 (VStr "N/A")
                                funded_state in
  size (active_trades st1) = 1%nat
  /\ portfolio_balance
       (close_trade default_config 9 "XUSDT" (MsgText "Manual Close (Live)")
                    0 (VNum 0) st1) = 1000.
Proof.
  destruct (restore_live_trade_round_trip default_config 5 9 "XUSDT" 100 3 2 7
              (VStr "N/A") (MsgText "Manual Close (Live)") 0 (VNum 0)
              funded_state) as [_ H].
  destruct (H eq_refl) as (Hs & _ & _ & _ & Hb & _).
  split; [exact Hs | exact Hb].
Defined.

(** ** The control switches *)

Lemma get_control_name name c :
  is_Some (get_control name c) <-> name ∈ control_names.
Proof.
  unfold get_control, control_names. split.
  - intros [b Hb].
    repeat match type of Hb with
    | (if String.eqb name ?k then _ else _) = _ =>
        destruct (String.eqb name k) eqn:E;
          [apply String.eqb_eq in E; subst; set_solver | clear E]
    end.
    done.
  - intros H. rewrite !elem_of_cons in H.
    destruct H as [-> | [-> | [-> | [-> | [-> | [-> | [-> | H]]]]]]];
      try (simpl; eauto).
    by apply elem_of_nil in H.
Qed.

(** Read after toggle.  For a switch other than [global_pause_active],
    [toggle_control] makes the switch read [False] for the action ['pause']
    and [True] for any other action, and leaves every other switch as it
    was; a name that is neither ['all'] nor a switch changes nothing. *)
Theorem toggle_control_read name action st :
  name <> "all" ->
  (name ∈ control_names -> name <> "global_pause_active" ->
   get_control name (controls (toggle_control name action st))
   = Some (negb (String.eqb action "pause"))
   /\ forall name',
        name' <> name ->
        get_control name' (controls (toggle_control name action st))
        = get_control name' (controls st))
  /\ (name ∉ control_names -> toggle_control name action st = st).
Proof.
  intros Hall. apply String.eqb_neq in Hall. split.
  - intros Hin Hgp. apply String.eqb_neq in Hgp.
    pose proof (proj2 (get_control_name name (controls st)) Hin) as [b Hb].
    unfold toggle_control. rewrite Hall, Hb, Hgp. simpl.
    unfold control_names in Hin. rewrite !elem_of_cons in Hin.
    destruct Hin as [-> | [-> | [-> | [-> | [-> | [-> | [-> | H]]]]]]];
      try discriminate; try (by apply elem_of_nil in H).
    all: split; [reflexivity |].
    all: intros name' Hne; unfold get_control, set_control; simpl.
    all: repeat match goal with
         | |- context [String.eqb ?x ?k] =>
             is_var x; destruct (String.eqb x k) eqn:?
         end; try reflexivity.
    all: match goal with
         | H : String.eqb _ _ = true |- _ =>
             apply String.eqb_eq in H; congruence
         end.
  - intros Hnot. unfold toggle_control. rewrite Hall.
    destruct (get_control name (controls st)) eqn:E; [| done].
    exfalso. apply Hnot. apply (get_control_name name (controls st)). eauto.
Qed.

(** [toggle_control_read] on the initial store: switching the engine on. *)
Lemma toggle_control_read_witness :
  get_control "trade_execution_enabled" (controls initial_state) = Some false
  /\ get_control "trade_execution_enabled"
       (controls (toggle_control "trade_execution_enabled" "resume"
                    initial_state)) = Some true
  /\ toggle_control "no_such_switch" "resume" initial_state = initial_state.
Proof.
  split; [reflexivity |].
  destruct (toggle_control_read "trade_execution_enabled" "resume"
              initial_state ltac:(discriminate)) as [H _].
  destruct H as [Hr _]; [set_solver | discriminate |].
  split; [exact Hr |].
  apply (toggle_control_read "no_such_switch" "resume" initial_state
           ltac:(discriminate)).
  unfold control_names. rewrite !elem_of_cons.
  intros [H | [H | [H | [H | [H | [H | [H | H]]]]]]]; try discriminate.
  by apply elem_of_nil in H.
Defined.

(** The manual re-arm.  After the breaker has tripped and been lifted,
    [toggle_control('trade_execution_enabled', 'resume')] is what opens the
    gate again: [can_open_new_trade] then answers [True] exactly when fewer
    than [MAX_OPEN_TRADES] trades are open and more than 10 seconds have
    passed since the last open. *)
Theorem toggle_control_rearms_gate cfg n now st :
  global_pause_active (controls st) = false ->
  let st' := toggle_control "trade_execution_enabled" "resume"
               (lift_global_pause (activate_global_pause cfg n st)) in
  can_open_new_trade cfg now
    (lift_global_pause (activate_global_pause cfg n st)) = false
  /\ (can_open_new_trade cfg now st' = true
      <-> (size (active_trades st) < MAX_OPEN_TRADES cfg)%nat
          /\ 10 < now - last_trade_execution_time st).
Proof.
  intros H0 st'. subst st'.
  unfold activate_global_pause, lift_global_pause. rewrite H0. simpl.
  split; [reflexivity |].
  rewrite can_open_new_trade_iff. unfold toggle_control. simpl. tauto.
Qed.

(** [toggle_control_rearms_gate] on the funded store at clock reading 50. *)
Lemma toggle_control_rearms_gate_witness :
  can_open_new_trade default_config 50
    (toggle_control "trade_execution_enabled" "resume"
       (lift_global_pause
          (activate_global_pause default_config 1 funded_state))) = true.
Proof.
  destruct (toggle_control_rearms_gate default_config 1 50 funded_state
              eq_refl) as [_ H].
  apply H. split; [vm_compute; lia | vm_compute; reflexivity].
Defined.

(** ** The market feed *)

Lemma substring_all s : String.substring 0 (String.length s) s = s.
Proof. induction s as [| c s IH]; simpl; [done |]. by rewrite IH. Qed.

Lemma substring_append p s m :
  String.substring (String.length p) m (p +:+ s) = String.substring 0 m s.
Proof. induction p as [| c p IH]; simpl; [done |]. exact IH. Qed.

Lemma length_append p s :
  String.length (p +:+ s) = (String.length p + String.length s)%nat.
Proof. induction p as [| c p IH]; simpl; [done |]. by rewrite IH. Qed.

Lemma substring_split s k :
  (k <= String.length s)%nat ->
  s = String.substring 0 k s
      +:+ String.substring k (String.length s - k) s.
Proof.
  revert k. induction s as [| c s IH]; intros k Hk; simpl in *.
  - assert (k = 0%nat) as -> by lia. done.
  - destruct k as [| k]; simpl.
    + by rewrite substring_all.
    + change (String c s
              = String c (String.substring 0 k s
                          +:+ String.substring k (String.length s - k) s)).
      f_equal. apply IH. lia.
Qed.

(** [ends_with] is [str.endswith]: it holds exactly of the strings that are
    some prefix followed by the suffix. *)
Lemma ends_with_spec suffix s :
  ends_with suffix s = true <-> exists p, s = p +:+ suffix.
Proof.
  unfold ends_with. rewrite andb_true_iff, Nat.leb_le, String.eqb_eq. split.
  - intros [Hle Hsub].
    exists (String.substring 0 (String.length s - String.length suffix) s).
    pose proof (substring_split s (String.length s - String.length suffix))
      as H.
    replace (String.length s - (String.length s - String.length suffix))%nat
      with (String.length suffix) in H by lia.
    rewrite Hsub in H. apply H. lia.
  - intros [p ->]. rewrite length_append. split; [lia |].
    replace (String.length p + String.length suffix - String.length suffix)%nat
      with (String.length p) by lia.
    by rewrite substring_append, substring_all.
Qed.

Lemma market_fold_skip (s : string) (l : list ticker) (m : gmap string coin) :
  Forall (fun d => ~ ticker_for s d) l ->
  foldl (fun m d =>
           match tk_s d with
           | Some s0 =>
               if ends_with "USDT" s0
               then <[s0 := {| symbol := s0; price := tk_c d;
                               change_24h := tk_P d;
                               high_24h := tk_h d |}]> m
               else m
           | None => m
           end) m l !! s = m !! s.
Proof.
  intros Hl. revert m. induction Hl as [| d l Hd _ IH]; intros m; [done |].
  simpl. rewrite IH.
  destruct (tk_s d) as [s0 |] eqn:Es; [| done].
  destruct (ends_with "USDT" s0) eqn:Ee; [| done].
  apply lookup_insert_ne. intros ->. apply Hd. by split.
Qed.

(** What a feed batch does to one symbol.  A symbol for which the batch has
    no ticker passing the ['USDT'] filter keeps its entry (or its absence),
    so a symbol that does not end in ['USDT'] never enters [coin_data]; a
    symbol with such tickers ends up with the data of the last one, stored
    under its own name.  The call publishes one market-updated event and
    touches nothing else. *)
Theorem update_market_data_lookup data_list s st :
  let st' := update_market_data data_list st in
  (Forall (fun d => ~ ticker_for s d) data_list ->
   coin_data st' !! s = coin_data st !! s)
  /\ (ends_with "USDT" s = false -> coin_data st' !! s = coin_data st !! s)
  /\ (forall l1 d l2,
        data_list = l1 ++ d :: l2 ->
        ticker_for s d ->
        Forall (fun d' => ~ ticker_for s d') l2 ->
        coin_data st' !! s = Some (coin_of_ticker s d))
  /\ event_queue st' = event_queue st ++ [STATE_UPDATED_MARKET]
  /\ active_trades st' = active_trades st
  /\ rsi_data st' = rsi_data st
  /\ cooldowned_coins st' = cooldowned_coins st
  /\ portfolio_balance st' = portfolio_balance st
  /\ controls st' = controls st.
Proof.
  simpl. split_and!; try done.
  - apply market_fold_skip.
  - intros He. apply market_fold_skip, Forall_forall.
    intros d _ [_ Hd]. congruence.
  - intros l1 d l2 -> [Hs He] Hl2.
    rewrite foldl_app. simpl. rewrite market_fold_skip by done.
    rewrite Hs, He. apply lookup_insert_eq.
Qed.

(** [update_market_data_lookup] on a batch of three tickers: the second
    ["XUSDT"] ticker wins and ["XBTC"] is dropped. *)
Lemma update_market_data_lookup_witness :
  let batch :=
    [ {| tk_s := Some "XUSDT"; tk_c := 90; tk_P := 20; tk_h := 120 |};
      {| tk_s := Some "XBTC"; tk_c := 1; tk_P := 50; tk_h := 2 |};
      {| tk_s := Some "XUSDT"; tk_c := 81; tk_P := 12; tk_h := 120 |} ] in
  coin_data (update_market_data batch initial_state) !! "XBTC" = None
  /\ price <$> coin_data (update_market_data batch initial_state) !! "XUSDT"
     = Some 81.
Proof.
  intros batch.
  destruct (update_market_data_lookup batch "XBTC" initial_state)
    as (_ & H1 & _).
  destruct (update_market_data_lookup batch "XUSDT" initial_state)
    as (_ & _ & H2 & _).
  split.
  - rewrite H1 by reflexivity. reflexivity.
  - rewrite (H2 [ {| tk_s := Some "XUSDT"; tk_c := 90; tk_P := 20;
                     tk_h := 120 |};
                  {| tk_s := Some "XBTC"; tk_c := 1; tk_P := 50;
                     tk_h := 2 |} ]
               {| tk_s := Some "XUSDT"; tk_c := 81; tk_P := 12;
                  tk_h := 120 |} []).
    + reflexivity.
    + reflexivity.
    + split; reflexivity.
    + constructor.
Defined.

(** ** The watch list in general *)

Lemma dynamic_threshold_ge_base cfg st :
  RSI_HOT_COIN_THRESHOLD cfg <= dynamic_threshold cfg st.
Proof.
  unfold dynamic_threshold. case_bool_decide; [| apply Qle_refl].
  destruct (hot_coins_above_base cfg st !! (MAX_COINS_TO_MONITOR - 1)%nat)
    as [c |] eqn:E; [| apply Qle_refl].
  apply list_elem_of_lookup_2 in E. unfold hot_coins_above_base in E.
  by apply list_elem_of_filter in E as [E _].
Qed.

(** The watch list for any store.  The list has no repetition and is in
    descending order of 24h change (a symbol without coin data counting as
    0); it holds exactly the symbols with an open trade, the symbols with a
    cooldown entry, expired or not, and the hot coins, so symbols in flight
    stay monitored whatever their change.  The effective threshold is never
    below the base threshold and equals it when at most 100 coins qualify;
    with every coin stored under its own symbol, the hot coins are the coins
    whose change is at or above the effective threshold. *)
Theorem get_symbols_to_monitor_spec cfg st :
  let l := get_symbols_to_monitor cfg st in
  NoDup l
  /\ StronglySorted (desc (change_of st)) l
  /\ (forall s,
        s ∈ l <-> is_Some (active_trades st !! s)
                  \/ is_Some (cooldowned_coins st !! s)
                  \/ s ∈ final_hot_coins cfg st)
  /\ RSI_HOT_COIN_THRESHOLD cfg <= dynamic_threshold cfg st
  /\ ((length (hot_coins_above_base cfg st) <= MAX_COINS_TO_MONITOR)%nat ->
      dynamic_threshold cfg st = RSI_HOT_COIN_THRESHOLD cfg)
  /\ (coin_data_wf st ->
      forall s,
        s ∈ final_hot_coins cfg st
        <-> exists c, coin_data st !! s = Some c
                      /\ dynamic_threshold cfg st <= change_24h c).
Proof.
  simpl. split_and!.
  - unfold get_symbols_to_monitor. rewrite sorted_desc_perm.
    apply NoDup_elements.
  - apply sorted_desc_sorted.
  - intros s. unfold get_symbols_to_monitor, symbols_set.
    rewrite sorted_desc_perm, elem_of_elements, !elem_of_union, !elem_of_dom.
    rewrite elem_of_list_to_set. tauto.
  - apply dynamic_threshold_ge_base.
  - intros Hle. unfold dynamic_threshold.
    rewrite bool_decide_eq_false_2; [done | lia].
  - intros Hwf s. unfold final_hot_coins, hot_coins_above_base.
    rewrite list_elem_of_fmap. split.
    + intros (c & -> & Hin).
      apply list_elem_of_filter in Hin as [Hge Hin].
      apply list_elem_of_filter in Hin as [_ Hin].
      exists c. split; [| done]. by apply all_coins_sorted_elem.
    + intros (c & Hc & Hge). exists c.
      assert (symbol c = s) as <- by (by apply (Hwf s c)).
      split; [done |].
      apply list_elem_of_filter. split; [done |].
      apply list_elem_of_filter. split.
      * eapply Qle_trans; [apply dynamic_threshold_ge_base | exact Hge].
      * by apply all_coins_sorted_elem.
Qed.

(** [get_symbols_to_monitor_spec] on [in_flight_state], at a clock reading
    where the cooldown of ["YUSDT"] has expired: the symbol with the open
    trade and the one with the expired cooldown are both on the list, and
    the threshold is the base one. *)
Lemma get_symbols_to_monitor_spec_witness :
  is_on_cooldown 100 "YUSDT" in_flight_state = false
  /\ "YUSDT" ∈ get_symbols_to_monitor default_config in_flight_state
  /\ "ZUSDT" ∈ get_symbols_to_monitor default_config in_flight_state
  /\ dynamic_threshold default_config in_flight_state
     = RSI_HOT_COIN_THRESHOLD default_config.
Proof.
  destruct (get_symbols_to_monitor_spec default_config in_flight_state)
    as (_ & _ & Hmem & _ & Hbase & _).
  split; [reflexivity |].
  split; [apply Hmem; right; left; by eexists |].
  split; [apply Hmem; left; by eexists |].
  apply Hbase. vm_compute. lia.
Defined.

(** ** The engine's entry path *)

Lemma required_margin_ge cfg st :
  engine_trade_amount cfg st <= required_margin cfg st.
Proof.
  unfold required_margin.
  destruct (Qltb (engine_trade_amount cfg st) (51 / 10)) eqn:E.
  - apply Qltb_lt in E. lra.
  - apply Qle_refl.
Qed.

Lemma engine_amount_agrees cfg st :
  TRADE_AMOUNT_TYPE cfg = "fixed_usdt"
  \/ TRADE_AMOUNT_TYPE cfg = "percentage" ->
  resolve_trade_amount cfg None st = engine_trade_amount cfg st.
Proof.
  unfold resolve_trade_amount, engine_trade_amount. by intros [-> | ->].
Qed.

(** An event that is not eligible changes neither the store nor the alert
    counter, in paper and in live mode. *)
Lemma handle_rsi_update_not_eligible cfg live fmt now sym r exec st a :
  ~ eligible cfg now sym r st ->
  handle_rsi_update cfg live fmt now (sym, VNum r) exec st a = (st, a).
Proof.
  intros Hne. unfold handle_rsi_update. simpl.
  destruct (can_open_new_trade cfg now st) eqn:Hg; [| done].
  destruct (Qltb (RSI_ALERT_THRESHOLD cfg) r) eqn:Hr; [| done].
  destruct (active_trades st !! sym) as [t |] eqn:Ha.
  { rewrite bool_decide_eq_true_2 by eauto. done. }
  rewrite bool_decide_eq_false_2 by (by intros [? ?]).
  destruct (is_on_cooldown now sym st) eqn:Hc; [done |]. simpl.
  destruct (coin_data st !! sym) as [c |] eqn:Hcoin; [| done].
  destruct (Qltb (portfolio_balance st) (required_margin cfg st)) eqn:Hm;
    [done |].
  exfalso. apply Hne. unfold eligible. split_and!; try done.
  - by apply Qltb_lt.
  - by apply Qltb_ge.
Qed.

(** The paper entry.  With live trading off and the amount policy one of
    the two the code knows, an indicator event opens a trade exactly when it
    is eligible: the gate is open, the indicator is above the alert
    threshold, the symbol has no open trade, no unexpired cooldown and a
    known coin, and the balance covers [max(amount, 5.1)].  An eligible
    event opens one Bot trade at the coin's price, publishes one
    trade-opened event, stamps the last-open time and consumes one alert
    number; any other event, and any event whose indicator is not a number,
    leaves store and counter as they were. *)
Theorem handle_rsi_update_paper cfg fmt now sym r exec st a :
  TRADE_AMOUNT_TYPE cfg = "fixed_usdt"
  \/ TRADE_AMOUNT_TYPE cfg = "percentage" ->
  let res := handle_rsi_update cfg false fmt now (sym, VNum r) exec st a in
  (eligible cfg now sym r st ->
   exists c,
     coin_data st !! sym = Some c
     /\ let t := new_trade cfg now (price c) (VNum r) "Bot"
                   (get_next_alert_number a).1 (engine_trade_amount cfg st) in
        active_trades res.1 = <[sym := t]> (active_trades st)
        /\ event_queue res.1 = event_queue st ++ [TRADE_OPENED t]
        /\ last_trade_execution_time res.1 = now
        /\ portfolio_balance res.1 = portfolio_balance st
        /\ res.2 = (get_next_alert_number a).2)
  /\ (~ eligible cfg now sym r st -> res = (st, a))
  /\ (forall live s,
        handle_rsi_update cfg live fmt now (sym, VStr s) exec st a = (st, a)).
Proof.
  intros Hty res. subst res. split_and!.
  - intros (Hg & Hr & Ha & Hc & [c Hcoin] & Hm).
    exists c. split; [done |].
    unfold handle_rsi_update. simpl.
    apply Qltb_lt in Hr. apply Qltb_ge in Hm.
    rewrite Hg, Hr, Ha, Hc, Hcoin, Hm.
    rewrite bool_decide_eq_false_2 by (by intros [? ?]). simpl.
    unfold open_trade. rewrite Ha, (engine_amount_agrees cfg st Hty).
    assert (Hf : Qltb (portfolio_balance st) (engine_trade_amount cfg st)
                 = false).
    { apply Qltb_ge. apply Qltb_ge in Hm.
      eapply Qle_trans; [apply required_margin_ge | exact Hm]. }
    rewrite Hf. simpl. done.
  - apply handle_rsi_update_not_eligible.
  - done.
Qed.

(** [handle_rsi_update_paper] on [round_trip_state]: the event for
    ["XUSDT"] is eligible at clock reading 50 and opens the trade with alert
    number 1. *)
Lemma handle_rsi_update_paper_witness :
  eligible default_config 50 "XUSDT" 96 round_trip_state
  /\ exists t,
       active_trades
         (handle_rsi_update default_config false sample_rsi_message 50
            ("XUSDT", VNum 96) (ExecFailed "") round_trip_state
            fresh_alerts).1 !! "XUSDT" = Some t
       /\ alert_num t = 1%Z /\ entry_price t = 90.
Proof.
  assert (He : eligible default_config 50 "XUSDT" 96 round_trip_state).
  { unfold eligible. split_and!; try reflexivity.
    - by eexists.
    - vm_compute. discriminate. }
  split; [exact He |].
  destruct (handle_rsi_update_paper default_config sample_rsi_message 50
              "XUSDT" 96 (ExecFailed "") round_trip_state fresh_alerts
              (or_introl eq_refl)) as (H & _).
  destruct (H He) as (c & Hc & Hact & _).
  eexists. split; [rewrite Hact; apply lookup_insert_eq |].
  split; [reflexivity |].
  simpl. injection Hc as <-. reflexivity.
Defined.

(** Any open rate-limits the engine.  After a successful [open_trade] at
    time [now], by whatever caller, every indicator event up to 10 seconds
    later is ignored, for every symbol and in both modes. *)
Theorem engine_rate_limited cfg fmt now sym entry rsi_value change src alert
    log_msg amount st st1 :
  open_trade cfg now sym entry rsi_value change src alert log_msg amount st
  = (true, st1) ->
  forall live tau data exec a,
    tau - now <= 10 ->
    handle_rsi_update cfg live fmt tau data exec st1 a = (st1, a).
Proof.
  intros Ho live tau [s v] exec a Htau.
  apply open_trade_true in Ho as (_ & _ & _ & Hlast & _).
  destruct v as [r | s0]; [| done].
  apply handle_rsi_update_not_eligible.
  intros (Hg & _). apply can_open_new_trade_iff in Hg as (_ & _ & _ & Hg).
  rewrite Hlast in Hg. lra.
Qed.

(** [engine_rate_limited] after a manual open on a store that knows two
    coins: the event for the other coin, 10 seconds later, opens nothing. *)
Lemma engine_rate_limited_witness :
  exists st1,
    open_trade default_config 50 "XUSDT" 100 (VNum 96) None "Manual" 1 None
               None round_trip_state = (true, st1)
    /\ handle_rsi_update default_config false sample_rsi_message 60
         ("YUSDT", VNum 99) (ExecFailed "") st1 fresh_alerts
       = (st1, fresh_alerts).
Proof.
  eexists.
  match goal with
  | |- ?o = (true, ?s) /\ _ =>
      assert (Ho : o = (true, s)) by (vm_compute; reflexivity)
  end.
  split; [exact Ho |].
  apply (engine_rate_limited default_config sample_rsi_message 50 "XUSDT" 100
           (VNum 96) None "Manual" 1 None None round_trip_state _ Ho).
  vm_compute. discriminate.
Defined.

(** ** The monitors *)

(** One iteration of the live monitor.  On a symbol with no open trade the
    iteration does nothing and ends the loop.  On a Live trade it never
    changes balance or statistics; it ends the loop exactly when it closes
    the trade, which is exactly when the indicator is a number at or below
    [TRADE_CLOSE_RSI], the reported pnl is above 0.01 and the exchange
    closed the position; otherwise the trade stays open with the reported
    pnl written to it.  The global pause plays no part. *)
Theorem live_monitor_iteration_spec cfg now sym pnl close_result st :
  (active_trades st !! sym = None ->
   live_monitor_iteration cfg now sym pnl close_result st = (st, false))
  /\ (forall t,
        active_trades st !! sym = Some t ->
        is_live (source t) = true ->
        let res := live_monitor_iteration cfg now sym pnl close_result st in
        portfolio_balance res.1 = portfolio_balance st
        /\ global_stats res.1 = global_stats st
        /\ (res.2 = false <-> active_trades res.1 !! sym = None)
        /\ (res.2 = false
            <-> exists r,
                  rsi_data st !! sym = Some (VNum r)
                  /\ r <= TRADE_CLOSE_RSI cfg
                  /\ 1 / 100 < pnl.1
                  /\ close_result.1 = true)
        /\ (res.2 = true ->
            exists t',
              active_trades res.1 !! sym = Some t'
              /\ pnl_usdt t' = pnl.1 /\ pnl_percent t' = pnl.2)).
Proof.
  split.
  - intros Hn. unfold live_monitor_iteration. by rewrite Hn.
  - intros t Ht Hl res. subst res. unfold live_monitor_iteration. rewrite Ht.
    set (rsi := rsi_data st !! sym).
    set (st1 := update_trade_pnl sym pnl.2 pnl.1 rsi st).
    set (t1 := with_pnl pnl.2 pnl.1 rsi t).
    assert (Ht1 : active_trades st1 !! sym = Some t1).
    { unfold st1, update_trade_pnl. rewrite Ht. simpl.
      apply lookup_insert_eq. }
    destruct (with_pnl_fields pnl.2 pnl.1 rsi t) as (Hpct & Husdt & Hsrc).
    assert (Hl1 : is_live (source t1) = true)
      by (unfold t1; by rewrite Hsrc).
    destruct (update_trade_pnl_frame sym pnl.2 pnl.1 rsi st)
      as (_ & _ & _ & Hb & Hg & _).
    fold st1 in Hb, Hg.
    assert (Hopen : st1 = st1 ->
              portfolio_balance (st1, true).1 = portfolio_balance st
              /\ global_stats (st1, true).1 = global_stats st
              /\ ((st1, true).2 = false
                  <-> active_trades (st1, true).1 !! sym = None)
              /\ ((st1, true).2 = true ->
                  exists t',
                    active_trades (st1, true).1 !! sym = Some t'
                    /\ pnl_usdt t' = pnl.1 /\ pnl_percent t' = pnl.2)).
    { intros _. simpl. split_and!; try done.
      - split; [done | congruence].
      - intros _. exists t1. by rewrite Ht1. }
    destruct rsi as [[r | s] |] eqn:Hrsi.
    + destruct (Qle_bool r (TRADE_CLOSE_RSI cfg)) eqn:Hr; simpl.
      * destruct (Qltb (1 / 100) pnl.1) eqn:Hp; simpl.
        -- destruct close_result.1 eqn:Hc; simpl.
           ++ destruct (close_trade_live cfg now sym
                          (MsgRsiClose (TRADE_CLOSE_RSI cfg)) close_result.2
                          (VNum r) st1 t1 Ht1 Hl1)
                as (Hd & Hb' & Hg' & _).
              split_and!; try congruence.
              ** split; [| done]. intros _. rewrite Hd.
                 apply lookup_delete_eq.
              ** split; [| done]. intros _. exists r.
                 split_and!; try done.
                 --- by apply Qle_bool_iff.
                 --- by apply Qltb_lt.
           ++ destruct (Hopen eq_refl) as (? & ? & ? & ?).
              split_and!; try done.
              split; [done |]. intros (r' & _ & _ & _ & Hc'). congruence.
        -- destruct (Hopen eq_refl) as (? & ? & ? & ?).
           split_and!; try done.
           split; [done |]. intros (r' & Hr' & _ & Hp' & _).
           apply Qltb_lt in Hp'. congruence.
      * destruct (Hopen eq_refl) as (? & ? & ? & ?).
        split_and!; try done.
        split; [done |]. intros (r' & Hr' & Hle & _).
        injection Hr' as <-. apply Qle_bool_iff in Hle. congruence.
    + destruct (Hopen eq_refl) as (? & ? & ? & ?).
      split_and!; try done.
      split; [done |]. intros (r' & Hr' & _). discriminate.
    + destruct (Hopen eq_refl) as (? & ? & ? & ?).
      split_and!; try done.
      split; [done |]. intros (r' & Hr' & _). discriminate.
Qed.

(** [live_monitor_iteration_spec] on [paused_live_state]: the breaker is
    tripped and the Live trade is closed all the same, the balance staying
    at 1000. *)
Lemma live_monitor_iteration_spec_witness :
  let res := live_monitor_iteration default_config 9 "XUSDT" (2, 30)
               (true, 93) paused_live_state in
  global_pause_active (controls paused_live_state) = true
  /\ res.2 = false
  /\ active_trades res.1 !! "XUSDT" = None
  /\ portfolio_balance res.1 = 1000.
Proof.
  destruct (live_monitor_iteration_spec default_config 9 "XUSDT" (2, 30)
              (true, 93) paused_live_state) as [_ H].
  destruct (H (new_trade default_config 0 100 (VNum 96) "Live" 1 3)
              eq_refl eq_refl) as (Hb & _ & Hstop & Hrule & _).
  assert (Hs : (live_monitor_iteration default_config 9 "XUSDT" (2, 30)
                  (true, 93) paused_live_state).2 = false).
  { apply Hrule. exists 60. split; [reflexivity |].
    split; [vm_compute; discriminate |].
    split; [vm_compute; reflexivity | reflexivity]. }
  split; [reflexivity |]. split; [exact Hs |].
  split; [by apply Hstop | exact Hb].
Defined.

Lemma monitor_tick_cases cfg now sym t st st' :
  _monitor_paper_trade cfg now sym t st = Some st' ->
  st' = st
  \/ exists pct usdt rsi,
       st' = update_trade_pnl sym pct usdt rsi st
       \/ (global_pause_active (controls st) = false
           /\ exists reason cp er,
                st' = close_trade cfg now sym reason cp er
                        (update_trade_pnl sym pct usdt rsi st)).
Proof.
  unfold _monitor_paper_trade.
  destruct (price <$> coin_data st !! sym) as [p |]; [| intros [= <-]; auto].
  destruct (Qeq_bool p 0); [intros [= <-]; auto |].
  destruct (Qeq_bool (entry_price t) 0); [done |].
  set (pct := paper_pnl_percent t p). set (usdt := paper_pnl_usdt t p).
  set (rsi := rsi_data st !! sym).
  destruct (update_trade_pnl_frame sym pct usdt rsi st)
    as (_ & _ & _ & _ & _ & _ & Hctl & _).
  rewrite Hctl.
  destruct (global_pause_active (controls st)) eqn:Hp; simpl.
  { intros [= <-]. right. exists pct, usdt, rsi. by left. }
  destruct (Qle_bool (TAKE_PROFIT_PERCENT cfg) pct).
  { intros [= <-]. right. exists pct, usdt, rsi. right. eauto 10. }
  destruct rsi as [[r | s] |];
    try (intros [= <-]; right; exists pct, usdt; eexists; by left).
  destruct (Qle_bool r (TRADE_CLOSE_RSI cfg) && Qltb 0 usdt).
  - intros [= <-]. right. exists pct, usdt, (Some (VNum r)). right. eauto 10.
  - intros [= <-]. right. exists pct, usdt, (Some (VNum r)). by left.
Qed.

Lemma update_trade_pnl_other sym pct usdt rsi st s :
  s <> sym ->
  active_trades (update_trade_pnl sym pct usdt rsi st) !! s
  = active_trades st !! s.
Proof.
  intros Hne. unfold update_trade_pnl.
  destruct (active_trades st !! sym); [| done].
  simpl. by apply lookup_insert_ne.
Qed.

Lemma close_trade_other cfg now sym reason cp er st s :
  s <> sym ->
  active_trades (close_trade cfg now sym reason cp er st) !! s
  = active_trades st !! s.
Proof.
  intros Hne. unfold close_trade.
  destruct (active_trades st !! sym); [| done].
  destruct (negb (is_live (source t))); simpl; by apply lookup_delete_ne.
Qed.

Lemma close_trade_dom cfg now sym reason cp er st :
  dom (active_trades (close_trade cfg now sym reason cp er st))
  ⊆ dom (active_trades st).
Proof.
  intros s. rewrite !elem_of_dom.
  destruct (decide (s = sym)) as [-> | Hne].
  - rewrite close_trade_removes. by intros [? ?].
  - by rewrite close_trade_other.
Qed.

Lemma monitor_tick_frame cfg now sym t st st' :
  _monitor_paper_trade cfg now sym t st = Some st' ->
  dom (active_trades st') ⊆ dom (active_trades st)
  /\ (forall s, s <> sym -> active_trades st' !! s = active_trades st !! s)
  /\ controls st' = controls st
  /\ (global_pause_active (controls st) = true ->
      dom (active_trades st') = dom (active_trades st)
      /\ event_queue st' = event_queue st
      /\ portfolio_balance st' = portfolio_balance st
      /\ global_stats st' = global_stats st).
Proof.
  intros Hm.
  destruct (monitor_tick_cases _ _ _ _ _ _ Hm)
    as [-> | (pct & usdt & rsi & [-> | (Hp & reason & cp & er & ->)])].
  - done.
  - destruct (update_trade_pnl_frame sym pct usdt rsi st)
      as (Hd & _ & He & Hb & Hg & _ & Hc & _).
    split_and!; try done.
    + by rewrite Hd.
    + intros s Hs. by apply update_trade_pnl_other.
  - destruct (update_trade_pnl_frame sym pct usdt rsi st)
      as (Hd & _ & He & Hb & Hg & _ & Hc & _).
    split_and!.
    + etrans; [apply close_trade_dom |]. by rewrite Hd.
    + intros s Hs. rewrite close_trade_other by done.
      by apply update_trade_pnl_other.
    + rewrite <- Hc. unfold close_trade.
      destruct (active_trades _ !! sym); [| done].
      by destruct (negb (is_live (source t0))).
    + congruence.
Qed.

(** The paper sweep.  Whatever list of trades is swept, the sweep opens
    nothing, leaves every trade whose symbol is not on the list exactly as
    it was, and, while the breaker is tripped, closes nothing: the open
    symbols, the event queue, the balance and the statistics are those from
    before.  The list [TradingService.run] collects holds no Live trade, so
    its sweep leaves every Live trade untouched. *)
Theorem sweep_paper_trades_frame cfg now l st :
  let st' := sweep_paper_trades cfg now l st in
  dom (active_trades st') ⊆ dom (active_trades st)
  /\ (forall s, s ∉ l.*1 -> active_trades st' !! s = active_trades st !! s)
  /\ (global_pause_active (controls st) = true ->
      dom (active_trades st') = dom (active_trades st)
      /\ event_queue st' = event_queue st
      /\ portfolio_balance st' = portfolio_balance st
      /\ global_stats st' = global_stats st)
  /\ (forall s t,
        active_trades st !! s = Some t ->
        is_live (source t) = true ->
        active_trades (sweep_paper_trades cfg now (paper_trades st) st) !! s
        = Some t).
Proof.
  assert (Hgen : forall l st,
            let st' := sweep_paper_trades cfg now l st in
            dom (active_trades st') ⊆ dom (active_trades st)
            /\ (forall s, s ∉ l.*1 ->
                          active_trades st' !! s = active_trades st !! s)
            /\ (global_pause_active (controls st) = true ->
                dom (active_trades st') = dom (active_trades st)
                /\ event_queue st' = event_queue st
                /\ portfolio_balance st' = portfolio_balance st
                /\ global_stats st' = global_stats st)).
  { clear l st. induction l as [| [sym t] l IH]; intros st; simpl.
    - done.
    - destruct (_monitor_paper_trade cfg now sym t st) as [st1 |] eqn:Hm;
        [| done].
      destruct (monitor_tick_frame _ _ _ _ _ _ Hm) as (Hd & Ho & Hc & Hp).
      destruct (IH st1) as (Hd' & Ho' & Hp').
      split_and!.
      + by etrans.
      + intros s Hs. rewrite not_elem_of_cons in Hs. destruct Hs as [Hs1 Hs2].
        rewrite Ho' by done. by apply Ho.
      + intros Hpause.
        destruct (Hp Hpause) as (H1 & H2 & H3 & H4).
        destruct Hp' as (H1' & H2' & H3' & H4'); [by rewrite Hc |].
        split_and!; congruence. }
  destruct (Hgen l st) as (H1 & H2 & H3).
  split_and!; try done.
  intros s t Ht Hl.
  destruct (Hgen (paper_trades st) st) as (_ & Ho & _).
  rewrite Ho; [done |].
  intros Hin. apply list_elem_of_fmap in Hin as ([s' t'] & -> & Hin).
  unfold paper_trades in Hin. apply list_elem_of_filter in Hin as [Hf Hin].
  apply elem_of_map_to_list in Hin. simpl in *. congruence.
Qed.

(** [sweep_paper_trades_frame] on [mixed_state]: the sweep takes the profit
    of the paper trade and leaves the Live trade open. *)
Lemma sweep_paper_trades_frame_witness :
  let st' := sweep_paper_trades default_config 9 (paper_trades mixed_state)
                                mixed_state in
  active_trades st' !! "XUSDT" = None
  /\ is_Some (active_trades st' !! "LUSDT").
Proof.
  split; [vm_compute; reflexivity |].
  destruct (sweep_paper_trades_frame default_config 9
              (paper_trades mixed_state) mixed_state) as (_ & _ & _ & H).
  eexists. apply H; [vm_compute|]; reflexivity.
Defined.

(** ** The cooldown after a close *)

Lemma foldl_dispatch_other sym q st :
  Forall (fun e => cooldown_target e <> Some sym) q ->
  cooldowned_coins (foldl dispatch st q) !! sym = cooldowned_coins st !! sym.
Proof.
  revert st. induction q as [| e q IH]; intros st Hq; [done |].
  apply Forall_cons in Hq as [He Hq]. simpl. rewrite IH by done.
  destruct e; simpl in *; try done.
  - apply lookup_insert_ne. congruence.
  - apply lookup_delete_ne. congruence.
Qed.

Lemma foldl_dispatch_frame q st :
  active_trades (foldl dispatch st q) = active_trades st
  /\ portfolio_balance (foldl dispatch st q) = portfolio_balance st
  /\ global_stats (foldl dispatch st q) = global_stats st
  /\ controls (foldl dispatch st q) = controls st
  /\ coin_data (foldl dispatch st q) = coin_data st
  /\ rsi_data (foldl dispatch st q) = rsi_data st
  /\ alert_log (foldl dispatch st q) = alert_log st.
Proof.
  revert st. induction q as [| e q IH]; intros st; [done |].
  simpl. destruct (IH (dispatch st e)) as (-> & -> & -> & -> & -> & -> & ->).
  by destruct e.
Qed.

Lemma dispatch_commute st e1 e2 :
  (forall s, cooldown_target e1 = Some s -> cooldown_target e2 <> Some s) ->
  dispatch (dispatch st e1) e2 = dispatch (dispatch st e2) e1.
Proof.
  intros Hne.
  destruct e1, e2; simpl in *; try done;
    unfold handle_add_to_cooldown, handle_remove_from_cooldown,
      set_cooldowned_coins; simpl; f_equal.
  - apply insert_insert_ne. intros ->. by eapply Hne.
  - apply delete_insert_ne. intros ->. by eapply Hne.
  - symmetry. apply delete_insert_ne. intros ->. by eapply Hne.
  - apply delete_delete.
Qed.

Lemma omap_target_cons e q :
  omap cooldown_target (e :: q)
  = match cooldown_target e with
    | Some s => s :: omap cooldown_target q
    | None => omap cooldown_target q
    end.
Proof. done. Qed.

Lemma foldl_dispatch_perm l l' :
  l ≡ₚ l' ->
  NoDup (omap cooldown_target l) ->
  forall st, foldl dispatch st l = foldl dispatch st l'.
Proof.
  intros Hp.
  induction Hp as [| e l l' Hp IH | e1 e2 l | l l' l'' H1 IH1 H2 IH2];
    intros Hnd st.
  - done.
  - simpl. apply IH. rewrite omap_target_cons in Hnd.
    destruct (cooldown_target e); [by apply NoDup_cons in Hnd as [_ ?] |].
    done.
  - simpl. f_equal. apply dispatch_commute. intros s H1 H2.
    rewrite !omap_target_cons, H1, H2 in Hnd.
    apply NoDup_cons in Hnd as [Hin _]. apply Hin. by left.
  - etrans; [by apply IH1 | apply IH2]. by rewrite <- H1.
Qed.

(** Delivery of a queue that holds no indicator event.  The handlers of
    the queued events, in whatever order their threads run, write nothing
    but [cooldowned_coins] and leave the queue empty; a symbol no queued
    event names keeps its cooldown entry; and when no two queued cooldown
    events name the same symbol, the store after delivery does not depend
    on the order the threads ran in. *)
Theorem deliver_order_irrelevant st order :
  Forall no_rsi_event (event_queue st) ->
  order ≡ₚ event_queue st ->
  let st' := deliver order st in
  event_queue st' = []
  /\ active_trades st' = active_trades st
  /\ portfolio_balance st' = portfolio_balance st
  /\ global_stats st' = global_stats st
  /\ controls st' = controls st
  /\ (forall sym,
        Forall (fun e => cooldown_target e <> Some sym) (event_queue st) ->
        cooldowned_coins st' !! sym = cooldowned_coins st !! sym)
  /\ (NoDup (omap cooldown_target (event_queue st)) ->
      st' = process_events st).
Proof.
  intros _ Hp st'. subst st'. unfold deliver.
  destruct (foldl_dispatch_frame order st) as (Ha & Hb & Hg & Hc & _).
  split_and!; try done.
  - intros sym Hq. simpl. apply foldl_dispatch_other. by rewrite Hp.
  - intros Hnd. unfold process_events. f_equal.
    apply foldl_dispatch_perm; [done |]. by rewrite Hp.
Qed.

(** [deliver_order_irrelevant] on the store after a close: delivering its
    four events in reverse gives the store of the FIFO delivery. *)
Lemma deliver_order_irrelevant_witness :
  let st := close_trade default_config 100 "XUSDT" (MsgText "Manual Close")
              100 (VNum 0) flat_trade_state in
  deliver (reverse (event_queue st)) st = process_events st.
Proof.
  apply (deliver_order_irrelevant
           (close_trade default_config 100 "XUSDT" (MsgText "Manual Close")
              100 (VNum 0) flat_trade_state)).
  - vm_compute. repeat constructor.
  - apply reverse_Permutation.
  - vm_compute. apply NoDup_singleton.
Defined.

Lemma deliver_single_add sym reason cd_end order q1 q2 st :
  order ≡ₚ q1 ++ ADD_TO_COOLDOWN sym reason cd_end :: q2 ->
  Forall (fun e => cooldown_target e <> Some sym) (q1 ++ q2) ->
  cooldowned_coins (deliver order st) !! sym
  = Some {| cd_reason := reason; end_time := cd_end |}.
Proof.
  intros Hp Hq.
  assert (Hin : ADD_TO_COOLDOWN sym reason cd_end ∈ order).
  { rewrite Hp. set_solver. }
  apply list_elem_of_split in Hin as (l1 & l2 & ->).
  rewrite <- !Permutation_middle in Hp.
  apply Permutation_cons_inv in Hp.
  rewrite <- Hp in Hq. apply Forall_app in Hq as [_ Hq2].
  unfold deliver. simpl. rewrite foldl_app. simpl.
  rewrite foldl_dispatch_other by done. simpl.
  apply lookup_insert_eq.
Qed.



(** ** Alert numbers *)

(** Successive calls of [get_next_alert_number] hand out consecutive
    numbers: the [i]-th call returns the first number plus [i].  The first
    number is one more than the number in the counter file when the file
    holds one; only without a file is it one more than the largest alert id
    of the trades table (or 1 on an empty table). *)
Theorem alert_numbers_consecutive n a :
  next_alert_numbers n a
  = (fun i => ((get_next_alert_number a).1 + Z.of_nat i)%Z) <$> seq 0 n
  /\ (forall k, counter_file a = Some (Some k) ->
                (get_next_alert_number a).1 = (k + 1)%Z)
  /\ (counter_file a = None ->
      (get_next_alert_number a).1 = (default 0%Z (max_alert_id a) + 1)%Z).
Proof.
  split_and!.
  - revert a. induction n as [| n IH]; intros a; [done |].
    simpl next_alert_numbers. rewrite IH. simpl seq. rewrite fmap_cons.
    f_equal; [simpl; lia |].
    rewrite <- fmap_S_seq, <- list_fmap_compose.
    apply list_fmap_ext. intros i x _. simpl. lia.
  - intros k Hk. unfold get_next_alert_number. by rewrite Hk.
  - intros Hk. unfold get_next_alert_number. rewrite Hk.
    by destruct (max_alert_id a).
Qed.

(** ** Cooldowns restored at start-up *)

Lemma cooldowns_fold_lookup rows (m : gmap string cooldown) sym c :
  foldl (fun m r =>
           match row_exit_date r with
           | Some e => <[row_symbol r := {| cd_reason := MsgText (row_reason r);
                                            end_time := e |}]> m
           | None => m
           end) m rows !! sym = Some c ->
  m !! sym = Some c
  \/ exists r, r ∈ rows /\ row_symbol r = sym
               /\ row_exit_date r = Some (end_time c)
               /\ cd_reason c = MsgText (row_reason r).
Proof.
  revert m. induction rows as [| r rows IH]; intros m; simpl; [auto |].
  intros H. apply IH in H as [H | (r' & Hin & H)].
  - destruct (row_exit_date r) as [e |] eqn:He; [| auto].
    destruct (decide (row_symbol r = sym)) as [<- | Hne].
    + rewrite lookup_insert_eq in H. injection H as <-.
      right. exists r. split_and!; try done. by left.
    + rewrite lookup_insert_ne in H by done. auto.
  - right. exists r'. split; [by right | done].
Qed.

Lemma cooldowns_fold_some rows (m : gmap string cooldown) r :
  r ∈ rows -> is_Some (row_exit_date r) ->
  is_Some
    (foldl (fun m r =>
              match row_exit_date r with
              | Some e =>
                  <[row_symbol r := {| cd_reason := MsgText (row_reason r);
                                       end_time := e |}]> m
              | None => m
              end) m rows !! row_symbol r).
Proof.
  assert (Hkeep : forall rows (m : gmap string cooldown) s,
            is_Some (m !! s) ->
            is_Some
              (foldl (fun m r =>
                        match row_exit_date r with
                        | Some e =>
                            <[row_symbol r :=
                                {| cd_reason := MsgText (row_reason r);
                                   end_time := e |}]> m
                        | None => m
                        end) m rows !! s)).
  { clear. induction rows as [| r rows IH]; intros m s Hs; [done |].
    simpl. apply IH. destruct (row_exit_date r); [| done].
    destruct (decide (row_symbol r = s)) as [<- | Hne].
    - rewrite lookup_insert_eq. eauto.
    - by rewrite lookup_insert_ne. }
  revert m. induction rows as [| r' rows IH]; intros m Hin [e He].
  - by apply elem_of_nil in Hin.
  - apply elem_of_cons in Hin as [<- | Hin]; simpl.
    + apply Hkeep. rewrite He, lookup_insert_eq. eauto.
    + apply IH; eauto.
Qed.

(** The cooldown table read at start-up replaces the cooldowns in memory:
    every restored entry comes from a row of the table with that symbol and
    expiry and is unexpired at the load; the symbol of every row unexpired
    at the load is refused by the cooldown test at that time; and a symbol
    with no row is not on cooldown, whatever the store held before. *)
Theorem load_cooldowns_spec now rows st :
  let st' := load_cooldowns now (Some rows) st in
  (forall sym c,
     cooldowned_coins st' !! sym = Some c ->
     now < end_time c
     /\ exists r, r ∈ rows /\ row_symbol r = sym
                  /\ row_exit_date r = Some (end_time c))
  /\ (forall r, r ∈ rows -> row_active now r = true ->
                is_on_cooldown now (row_symbol r) st' = true)
  /\ (forall sym, sym ∉ row_symbol <$> rows ->
                  cooldowned_coins st' !! sym = None)
  /\ active_trades st' = active_trades st
  /\ portfolio_balance st' = portfolio_balance st.
Proof.
  intros st'. subst st'. unfold load_cooldowns. simpl.
  assert (H1 : forall sym c,
            cooldowns_of_rows (List.filter (row_active now) rows) !! sym
            = Some c ->
            now < end_time c
            /\ exists r, r ∈ rows /\ row_symbol r = sym
                         /\ row_exit_date r = Some (end_time c)).
  { intros sym c H. apply cooldowns_fold_lookup in H as [H | (r & Hin & H)].
    - by rewrite lookup_empty in H.
    - destruct H as (Hs & He & _).
      apply list_elem_of_In, filter_In in Hin as [Hin Hact].
      apply list_elem_of_In in Hin.
      unfold row_active in Hact. rewrite He in Hact. apply Qltb_lt in Hact.
      eauto 10. }
  split_and!; try done.
  - intros r Hin Hact. unfold is_on_cooldown. simpl.
    assert (Hs : is_Some (cooldowns_of_rows (List.filter (row_active now) rows)
                            !! row_symbol r)).
    { apply cooldowns_fold_some.
      - apply list_elem_of_In, filter_In. split; [| done].
        by apply list_elem_of_In.
      - unfold row_active in Hact. destruct (row_exit_date r); [eauto | done]. }
    destruct Hs as [c Hc]. rewrite Hc.
    apply H1 in Hc as [Hlt _]. by apply Qltb_lt.
  - intros sym Hn.
    destruct (cooldowns_of_rows _ !! sym) as [c |] eqn:Hc; [| done].
    apply H1 in Hc as (_ & r & Hin & <- & _).
    exfalso. apply Hn. apply list_elem_of_fmap. eauto.
Qed.

(** [load_cooldowns_spec] on [sample_cooldown_rows] read at clock 100 into a
    store holding a cooldown on ["XUSDT"]: only the running row is
    restored. *)
Lemma load_cooldowns_spec_witness :
  let st := handle_add_to_cooldown "XUSDT" (MsgText "Manual Add") 900
              initial_state in
  let st' := load_cooldowns 100 (Some sample_cooldown_rows) st in
  is_on_cooldown 100 "XUSDT" st = true
  /\ is_on_cooldown 100 "CUSDT" st' = true
  /\ cooldowned_coins st' !! "XUSDT" = None.
Proof.
  destruct (load_cooldowns_spec 100 sample_cooldown_rows
              (handle_add_to_cooldown "XUSDT" (MsgText "Manual Add") 900
                 initial_state)) as (_ & H2 & H3 & _).
  split; [vm_compute; reflexivity |]. split.
  - apply (H2 {| row_symbol := "CUSDT"; row_exit_date := Some 500;
                 row_reason := "Discarded" |}).
    + unfold sample_cooldown_rows. rewrite !elem_of_cons. auto.
    + vm_compute. reflexivity.
  - apply H3. simpl. rewrite !elem_of_cons, elem_of_nil. intros H.
    by repeat destruct H as [H | H].
Defined.

(** ** The indicator store and the peak tracker *)

(** [update_rsi_value] stores the value under the symbol, publishes one
    indicator event carrying the symbol and the value, and touches neither
    another symbol nor trades or coin data.  For a numeric value above
    [RSI_ALERT_THRESHOLD] on a symbol with a known, non-zero price, the
    tracked peak afterwards is at least the current price; a peak still
    inside the look-back window is never lowered and is kept as it is
    (price and timestamp) when the price has not exceeded it; a peak older
    than the window is replaced by the current price and clock.  Every other
    update leaves the tracker as it was. *)
Theorem update_rsi_value_spec cfg hours now sym v st tr :
  let res := update_rsi_value cfg hours now sym v st tr in
  rsi_data res.1 !! sym = Some v
  /\ event_queue res.1 = event_queue st ++ [STATE_UPDATED_RSI sym v]
  /\ (forall s, s <> sym ->
                rsi_data res.1 !! s = rsi_data st !! s
                /\ res.2 !! s = tr !! s)
  /\ active_trades res.1 = active_trades st
  /\ coin_data res.1 = coin_data st
  /\ (forall r c,
        v = VNum r -> RSI_ALERT_THRESHOLD cfg < r ->
        coin_data st !! sym = Some c -> ~ price c == 0 ->
        exists p',
          res.2 !! sym = Some p'
          /\ price c <= peak_price p'
          /\ (tr !! sym = None ->
              p' = {| peak_price := price c; timestamp := now |})
          /\ (forall p,
                tr !! sym = Some p ->
                (now - timestamp p <= hours * 3600 ->
                 peak_price p <= peak_price p'
                 /\ (price c <= peak_price p -> p' = p))
                /\ (hours * 3600 < now - timestamp p ->
                    p' = {| peak_price := price c; timestamp := now |})))
  /\ ((forall r, v = VNum r -> r <= RSI_ALERT_THRESHOLD cfg)
      \/ coin_data st !! sym = None ->
      res.2 = tr).
Proof.
  intros res. subst res. unfold update_rsi_value. simpl.
  split_and!; try done.
  - apply lookup_insert_eq.
  - intros s Hs. split; [by apply lookup_insert_ne |].
    destruct v as [r | ?]; [| done].
    destruct (price <$> coin_data st !! sym); [| done].
    destruct (_ && _); [| done]. by apply lookup_insert_ne.
  - intros r c -> Hr Hc Hp. rewrite Hc. simpl.
    apply Qltb_lt in Hr. rewrite Hr. simpl.
    rewrite (proj2 (Qeq_bool_false _ _) Hp). simpl.
    eexists. split; [apply lookup_insert_eq |].
    unfold track_peak.
    destruct (tr !! sym) as [p |] eqn:Htr.
    + destruct (Qltb (hours * 3600) (now - timestamp p)) eqn:Hst.
      * simpl. split_and!; try done; [lra |].
        intros p0 [= <-]. split; [| done].
        intros Hle. apply Qltb_lt in Hst. lra.
      * apply Qltb_ge in Hst.
        destruct (Qltb (peak_price p) (price c)) eqn:Hpk.
        -- apply Qltb_lt in Hpk. simpl. split_and!; try done; [lra |].
           intros p0 [= <-]. split; [| intros; lra].
           intros _. split; [lra | intros; lra].
        -- apply Qltb_ge in Hpk. split_and!; try done.
           intros p0 [= <-]. split; [| intros; lra].
           intros _. split; [lra | done].
    + simpl. split_and!; try done. lra.
  - intros [Hr | Hc].
    + destruct v as [r | ?]; [| done].
      destruct (price <$> coin_data st !! sym); [| done].
      assert (Hf : Qltb (RSI_ALERT_THRESHOLD cfg) r = false).
      { apply Qltb_ge. by apply Hr. }
      by rewrite Hf.
    + rewrite Hc. simpl. by destruct v.
Qed.

(** [update_rsi_value_spec] on [mixed_state] (price of ["XUSDT"] at 90) with
    [sample_tracker]: the peak of 95 seen 40 seconds earlier is kept. *)
Lemma update_rsi_value_spec_witness :
  exists p',
    (update_rsi_value default_config 4 50 "XUSDT" (VNum 96) mixed_state
       sample_tracker).2 !! "XUSDT" = Some p'
    /\ p' = {| peak_price := 95; timestamp := 10 |}.
Proof.
  destruct (update_rsi_value_spec default_config 4 50 "XUSDT" (VNum 96)
              mixed_state sample_tracker) as (_ & _ & _ & _ & _ & H & _).
  destruct (coin_data mixed_state !! "XUSDT") as [c |] eqn:Hc;
    [| vm_compute in Hc; discriminate].
  assert (Hpc : price c = 90) by (vm_compute in Hc; by injection Hc as <-).
  destruct (H 96 c eq_refl) as (p' & Hp' & _ & _ & Hkeep).
  - vm_compute. reflexivity.
  - reflexivity.
  - rewrite Hpc. vm_compute. discriminate.
  - exists p'. split; [exact Hp' |].
    destruct (Hkeep {| peak_price := 95; timestamp := 10 |} eq_refl)
      as [Hin _].
    apply Hin.
    + vm_compute. discriminate.
    + rewrite Hpc. vm_compute. discriminate.
Defined.

(** ** The manual-trade route *)

(** The manual-trade route answers success exactly when the symbol has no
    open trade, the price text is a number and the balance covers the
    configured amount: neither the execution switch, nor the global pause,
    nor the number of open trades, nor the time since the last entry is
    consulted.  On success one trade is added, recorded with source
    ["Manual"], and the entry clock is reset.  An alert number is drawn
    whenever the first two checks pass, also when the open then fails for
    lack of funds. *)
Theorem manual_trade_ungated cfg now sym entry st a :
  let res := manual_trade cfg now sym entry st a in
  (res.1.1 = true
   <-> active_trades st !! sym = None
       /\ is_Some entry
       /\ resolve_trade_amount cfg None st <= portfolio_balance st)
  /\ (res.1.1 = true ->
      size (active_trades res.1.2) = S (size (active_trades st))
      /\ last_trade_execution_time res.1.2 = now
      /\ exists t, active_trades res.1.2 !! sym = Some t
                   /\ source t = "Manual"
                   /\ Some (entry_price t) = entry
                   /\ alert_num t = (get_next_alert_number a).1)
  /\ (active_trades st !! sym = None -> is_Some entry ->
      res.2 = (get_next_alert_number a).2)
  /\ (is_Some (active_trades st !! sym) \/ entry = None ->
      res = (false, st, a)).
Proof.
  intros res. subst res. unfold manual_trade.
  destruct (active_trades st !! sym) as [t0 |] eqn:Ha.
  { simpl. split_and!; try done.
    split; [done | by intros []]. }
  destruct entry as [p |].
  2:{ simpl. split_and!; try done;
        first [ split; [done | by intros (_ & [] & _)] | by intros _ [] ]. }
  set (na := get_next_alert_number a).
  set (rsi := default (VNum 0) (rsi_data st !! sym)).
  destruct (open_trade cfg now sym p rsi (Some (VNum (change_of st sym)))
              "Manual" na.1 None None st) as [[|] st'] eqn:Ho; simpl.
  - apply open_trade_true in Ho
      as (_ & Hfunds & Hat & Hlast & _).
    split_and!; try done.
    + split; [| done]. intros _. split_and!; try done.
      apply Qnot_lt_le. intros Hlt. apply Hfunds. by split.
    + intros _. split_and!; try done.
      * rewrite Hat. by apply map_size_insert_None.
      * eexists. rewrite Hat. split; [apply lookup_insert_eq | done].
    + intros [[? ?] | ?]; done.
  - apply open_trade_false in Ho as [[? Hs] | [_ [_ Hlt]]]; [congruence |].
    split_and!; try done.
    + split; [done |]. intros (_ & _ & Hle).
      destruct (Qlt_not_le _ _ Hlt Hle).
    + intros [[? ?] | ?]; done.
Qed.

(** [manual_trade_ungated] on [locked_full_state]: ten trades are open, the
    breaker is tripped and execution is off, and the route still opens an
    eleventh trade. *)
Lemma manual_trade_ungated_witness :
  let res := manual_trade default_config 50 "NEWUSDT" (Some 2)
               locked_full_state fresh_alerts in
  can_open_new_trade default_config 50 locked_full_state = false
  /\ size (active_trades locked_full_state) = 10%nat
  /\ res.1.1 = true
  /\ size (active_trades res.1.2) = 11%nat.
Proof.
  destruct (manual_trade_ungated default_config 50 "NEWUSDT" (Some 2)
              locked_full_state fresh_alerts) as (Hiff & Hopen & _).
  assert (Hs : (manual_trade default_config 50 "NEWUSDT" (Some 2)
                  locked_full_state fresh_alerts).1.1 = true).
  { apply Hiff. split; [vm_compute; reflexivity |].
    split; [eauto | vm_compute; discriminate]. }
  split; [vm_compute; reflexivity |].
  split; [vm_compute; reflexivity |].
  split; [exact Hs |].
  destruct (Hopen Hs) as (Hsz & _). rewrite Hsz. vm_compute. reflexivity.
Defined.

(** [alert_numbers_consecutive] with a counter file holding 41 beside a
    table whose largest alert id is 7: the file wins, and three calls
    return 42, 43 and 44. *)
Lemma alert_numbers_consecutive_witness :
  next_alert_numbers 3
    {| counter_file := Some (Some 41%Z); max_alert_id := Some 7%Z |}
  = [42%Z; 43%Z; 44%Z].
Proof.
  destruct (alert_numbers_consecutive 3
              {| counter_file := Some (Some 41%Z); max_alert_id := Some 7%Z |})
    as (Hseq & Hfile & _).
  rewrite Hseq, (Hfile 41%Z eq_refl). reflexivity.
Defined.

(** ** The discard route *)

(** Discarding a trade drops it without realising its pnl: the balance and
    the statistics stay as they were, for paper and Live trades alike,
    while the symbol still gets the default cooldown published and one
    line in the alert log.  Discarding a symbol with no open trade changes
    nothing. *)
Theorem discard_trade_spec cfg now sym st :
  let st' := discard_trade cfg now sym st in
  active_trades st' !! sym = None
  /\ portfolio_balance st' = portfolio_balance st
  /\ global_stats st' = global_stats st
  /\ controls st' = controls st
  /\ (active_trades st !! sym = None -> st' = st)
  /\ (forall t,
        active_trades st !! sym = Some t ->
        active_trades st' = delete sym (active_trades st)
        /\ event_queue st'
           = event_queue st
             ++ [ADD_TO_COOLDOWN sym (MsgText "Discarded")
                   (now + DEFAULT_COOLDOWN_PERIOD cfg)]).
Proof.
  intros st'. subst st'. unfold discard_trade.
  destruct (active_trades st !! sym) as [t |] eqn:Ht.
  - unfold add_alert_log. simpl. split_and!; try done.
    apply lookup_delete_eq.
  - by split_and!.
Qed.

(** [discard_trade_spec] on [mixed_state] after its paper trade on
    ["XUSDT"] was marked at a loss of 9: after the discard the balance is
    what it was. *)
Lemma discard_trade_spec_witness :
  let st := update_trade_pnl "XUSDT" (-30) (-9) None mixed_state in
  let st' := discard_trade default_config 60 "XUSDT" st in
  (pnl_usdt <$> active_trades st !! "XUSDT") = Some (-9)
  /\ active_trades st' !! "XUSDT" = None
  /\ portfolio_balance st' = portfolio_balance st.
Proof.
  destruct (discard_trade_spec default_config 60 "XUSDT"
              (update_trade_pnl "XUSDT" (-30) (-9) None mixed_state))
    as (Hn & Hb & _).
  split; [vm_compute; reflexivity |]. split; [exact Hn | exact Hb].
Defined.

(** ** A refused live order *)

(** A failed live entry backs off.  When live trading is on and the
    exchange refuses the order of an eligible event, no trade is opened and
    no alert number is consumed; a cooldown-add event with reason
    ['Live Fail'] and expiry [now + 300] is published and a ["FAIL: ..."]
    line is logged.  If no other cooldown event for the symbol was waiting
    in the queue, then once the handlers of the queued events have run, in
    any order, every indicator event for the symbol before that expiry is
    ignored. *)
Theorem handle_rsi_update_live_failure cfg fmt now sym r msg st a :
  eligible cfg now sym r st ->
  let res := handle_rsi_update cfg true fmt now (sym, VNum r)
                               (ExecFailed msg) st a in
  res.2 = a
  /\ active_trades res.1 = active_trades st
  /\ event_queue res.1
     = event_queue st
       ++ [ADD_TO_COOLDOWN sym (MsgText "Live Fail") (now + 300)]
  /\ alert_log res.1
     = take 50 ({| log_time := now; log_symbol := "FAIL: " +:+ sym;
                   log_rsi := MsgText msg |} :: alert_log st)
  /\ forall order live tau r' exec' a',
       Forall (fun e => cooldown_target e <> Some sym) (event_queue st) ->
       order ≡ₚ event_queue res.1 ->
       tau < now + 300 ->
       handle_rsi_update cfg live fmt tau (sym, VNum r') exec'
                         (deliver order res.1) a'
       = (deliver order res.1, a').
Proof.
  intros (Hg & Hr & Ha & Hc & [c Hcoin] & Hm) res.
  assert (Hres : res = (add_alert_log now ("FAIL: " +:+ sym) (MsgText msg)
                          (publish (ADD_TO_COOLDOWN sym (MsgText "Live Fail")
                                      (now + 300)) st), a)).
  { subst res. unfold handle_rsi_update. simpl.
    apply Qltb_lt in Hr. apply Qltb_ge in Hm.
    rewrite Hg, Hr, Ha, Hc, Hcoin, Hm.
    rewrite bool_decide_eq_false_2 by (by intros [? ?]). done. }
  rewrite Hres. simpl. split_and!; try done.
  intros order live tau r' exec' a' Hq Hp Htau.
  apply handle_rsi_update_not_eligible.
  intros (_ & _ & _ & Hcd & _).
  unfold is_on_cooldown in Hcd.
  rewrite (deliver_single_add sym (MsgText "Live Fail") (now + 300) order
             (event_queue st) []) in Hcd.
  - simpl in Hcd. apply Qltb_lt in Htau. congruence.
  - exact Hp.
  - by rewrite app_nil_r.
Qed.

(** [handle_rsi_update_live_failure] on [round_trip_state]. *)
Lemma handle_rsi_update_live_failure_witness :
  let res := handle_rsi_update default_config true sample_rsi_message 50
               ("XUSDT", VNum 96) (ExecFailed "Not Authenticated")
               round_trip_state fresh_alerts in
  active_trades res.1 = ∅
  /\ is_on_cooldown 349 "XUSDT" (deliver (event_queue res.1) res.1) = true.
Proof.
  assert (He : eligible default_config 50 "XUSDT" 96 round_trip_state).
  { unfold eligible. split_and!; try reflexivity.
    - by eexists.
    - vm_compute. discriminate. }
  destruct (handle_rsi_update_live_failure default_config sample_rsi_message
              50 "XUSDT" 96 "Not Authenticated" round_trip_state fresh_alerts
              He) as (_ & Hact & _).
  split; [exact Hact | vm_compute; reflexivity].
Defined.
